(** * WS22 dashboard: a shallow embedding of [src/app/dashboard.py]

    The dashboard is a Streamlit script.  The functions embedded here are the
    ones that carry the data transformations:

    - [get_data_zenodo]       the cached remote loader,
    - [z_to_labels]           atomic numbers to element symbols,
    - [process_*_data], [data_to_plot]   the property extractor,
    - [create_xyz]            the geometry export,
    - [get_internal_coords], [build_ic_dataframe]   internal coordinates,
    - [build_stats]           per-conformation summary statistics.

    Conventions of the embedding.

    - A Python exception is a value of [exn]; a computation that may raise
      returns [result A].
    - A [float64] value is the rational it denotes ([Q]).  The arithmetic of
      the summary statistics is binary64 arithmetic, every operation rounded
      to the nearest binary64 number ([Float64]); the subtractions of the
      property extractor and the sums under a norm are written exactly.
      Infinities and NaN payloads of IEEE arithmetic are not represented.  A
      missing value of a table (pandas' NaN) is the cell [NaN].
    - A numpy array is a nested list at the rank the code indexes it with;
      arrays are rectangular, and an array without rows is taken to have no
      columns either.
    - What belongs to a library and is not computed by the script itself
      (HTTP, the ASE geometry routines, square roots, the widget state) is a
      record of functions the definitions are parameterised by. *)

From Stdlib Require Import ZArith QArith Qround Qpower String Ascii List Bool Lia Lqa Sorted.
From stdpp Require Import gmap strings list pretty.

Import ListNotations.
Open Scope string_scope.
Open Scope list_scope.
Open Scope Z_scope.

(** ** Exceptions and the error monad *)

Inductive exn : Type :=
| ValueError (msg : string)
| KeyError (key : string)
| IndexError (msg : string)
| TypeError (msg : string)
| UnboundLocalError (name : string)
| HTTPError (status : Z)
| ConnectionError (url : string).

Inductive result (A : Type) : Type :=
| Ok (a : A)
| Raise (e : exn).

Arguments Ok {A} a.
Arguments Raise {A} e.

#[export] Instance result_ret : MRet result := fun _ a => Ok a.
#[export] Instance result_bind : MBind result := fun _ _ k m =>
  match m with
  | Ok a => k a
  | Raise e => Raise e
  end.
#[export] Instance result_fmap : FMap result := fun _ _ f m =>
  match m with
  | Ok a => Ok (f a)
  | Raise e => Raise e
  end.

Definition is_ok {A} (r : result A) : bool :=
  match r with Ok _ => true | Raise _ => false end.

(** [[f(x) for x in l]] where [f] may raise: the first exception wins. *)
Fixpoint mapM {A B} (f : A -> result B) (l : list A) : result (list B) :=
  match l with
  | [] => Ok []
  | x :: l' => y ← f x; ys ← mapM f l'; Ok (y :: ys)
  end.

(** ** Python string methods used by the script *)

Module PyStr.

(** [c.lower()] on an ASCII letter; other characters are unchanged. *)
Definition lower_ascii (c : ascii) : ascii :=
  let n := nat_of_ascii c in
  if (Nat.leb 65 n && Nat.leb n 90)%bool then ascii_of_nat (n + 32) else c.

(** [s.lower()] *)
Fixpoint lower (s : string) : string :=
  match s with
  | EmptyString => EmptyString
  | String c s' => String (lower_ascii c) (lower s')
  end.

(** [s.replace(old, new)] for a non-empty [old]: occurrences are replaced
    left to right and do not overlap.  [skip] counts the characters of an
    occurrence that are still to be dropped. *)
Fixpoint replace_from (old new : string) (skip : nat) (s : string) : string :=
  match s with
  | EmptyString => EmptyString
  | String c s' =>
      match skip with
      | S k => replace_from old new k s'
      | O =>
          if String.prefix old s
          then new +:+ replace_from old new (String.length old - 1) s'
          else String c (replace_from old new O s')
      end
  end.

Definition replace (old new s : string) : string := replace_from old new O s.

(** [sub in s] *)
Fixpoint contains (sub s : string) : bool :=
  String.prefix sub s ||
  match s with
  | EmptyString => false
  | String _ s' => contains sub s'
  end.

(** [sep.join(l)] *)
Fixpoint join (sep : string) (l : list string) : string :=
  match l with
  | [] => ""
  | [x] => x
  | x :: l' => x +:+ sep +:+ join sep l'
  end.

(** Python's whitespace, within ASCII. *)
Definition is_space (c : ascii) : bool :=
  let n := nat_of_ascii c in
  (Nat.leb 9 n && Nat.leb n 13) || (Nat.leb 28 n && Nat.leb n 32).

Fixpoint lstrip (s : string) : string :=
  match s with
  | String c s' => if is_space c then lstrip s' else s
  | EmptyString => EmptyString
  end.

(** [s.rstrip()]: the result is empty when only whitespace follows. *)
Fixpoint rstrip (s : string) : string :=
  match s with
  | EmptyString => EmptyString
  | String c s' =>
      match rstrip s' with
      | EmptyString => if is_space c then EmptyString else String c EmptyString
      | t => String c t
      end
  end.

(** [s.strip()] *)
Definition strip (s : string) : string := rstrip (lstrip s).

(** [s.split(sep)] for a one-character separator: [cur] is the field being
    read, in reverse. *)
Fixpoint split_from (sep : ascii) (cur : string) (s : string) : list string :=
  match s with
  | EmptyString => [String.rev cur]
  | String c s' =>
      if Ascii.eqb c sep
      then String.rev cur :: split_from sep EmptyString s'
      else split_from sep (String c cur) s'
  end.

Definition split (sep : ascii) (s : string) : list string :=
  split_from sep EmptyString s.

Definition digit_of (c : ascii) : option Z :=
  let n := nat_of_ascii c in
  if Nat.leb 48 n && Nat.leb n 57 then Some (Z.of_nat (n - 48)) else None.

(** Decimal digits, single underscores allowed between digits. *)
Fixpoint digits_from (acc : Z) (after_digit : bool) (s : string) : option Z :=
  match s with
  | EmptyString => if after_digit then Some acc else None
  | String c s' =>
      match digit_of c with
      | Some d => digits_from (10 * acc + d) true s'
      | None =>
          if Ascii.eqb c "_" && after_digit
          then digits_from acc false s'
          else None
      end
  end.

(** [int(s)] in base 10: surrounding whitespace, an optional sign, then
    digits; anything else is a [ValueError]. *)
Definition int (s : string) : result Z :=
  let bad := Raise (ValueError ("invalid literal for int() with base 10: " +:+ s)) in
  match strip s with
  | String "-" t =>
      match digits_from 0 false t with Some n => Ok (- n) | None => bad end
  | String "+" t =>
      match digits_from 0 false t with Some n => Ok n | None => bad end
  | t =>
      match digits_from 0 false t with Some n => Ok n | None => bad end
  end.

End PyStr.

(** ** The dataset

    [data = dict(np.load(...))]: the archive's named arrays.  [Z], [CONF], [E]
    and [R2] are only ever flattened, so their rank is immaterial; they are
    kept as lists of rows. *)

Record Dataset : Type := mkDataset {
  ds_Z    : list (list Z);              (* atomic numbers                  *)
  ds_R    : list (list (list Q));       (* N x n_atoms x 3 coordinates     *)
  ds_Q    : list (list Q);              (* N x n_atoms Mulliken charges    *)
  ds_F    : list (list (list Q));       (* N x n_atoms x 3 forces          *)
  ds_DP   : list (list Q);              (* N x 3 dipoles                   *)
  ds_QP   : list (list (list Q));       (* N x 3 x 3 quadrupoles           *)
  ds_P    : list (list Q);              (* N x k polarizabilities          *)
  ds_E    : list (list Q);              (* N x 1 energies                  *)
  ds_HL   : list (list Q);              (* N x 2 HOMO and LUMO energies    *)
  ds_R2   : list (list Q);              (* N x 1 spatial extents           *)
  ds_CONF : list (list Z)               (* N x 1 conformation identifiers  *)
}.

(** [a.flatten()] *)
Definition flatten {A} (a : list (list A)) : list A := concat a.

(** ** Dataset loader *)

Module Loader.

(** What [requests.get] gives back. *)
Record Response : Type := mkResponse {
  status_code : Z;
  content : list Byte.byte
}.

(** The network and the archive decoder. *)
Record Remote : Type := mkRemote {
  requests_get : string -> result Response;
  np_load : list Byte.byte -> result Dataset
}.

(** [response.raise_for_status()] *)
Definition raise_for_status (r : Response) : result unit :=
  if (400 <=? status_code r) && (status_code r <? 600)
  then Raise (HTTPError (status_code r))
  else Ok tt.

(** The state the loader runs in: the memo table of [@st.cache], which
    Streamlit keys by the arguments the decorated function is called with,
    and the log of the URLs requested so far. *)
Record World : Type := mkWorld {
  cache : gmap string Dataset;
  requested : list string
}.

Definition normalize (molecule : string) : string :=
  PyStr.replace "2-" "" (PyStr.lower molecule).

Definition zenodo_data_path (molecule : string) : string :=
  let filename := "ws22_" +:+ molecule +:+ ".npz" in
  "https://zenodo.org/record/7032334/files/" +:+ filename +:+ "?download=1".

Section WithRemote.
Variable remote : Remote.

(** The body of [get_data_zenodo], lines 59-65. *)
Definition get_data_zenodo_body (molecule : string) (w : World)
  : result Dataset * World :=
  let molecule := normalize molecule in
  let url := zenodo_data_path molecule in
  let w' := mkWorld (cache w) (requested w ++ [url]) in
  (response ← requests_get remote url;
   _ ← raise_for_status response;
   np_load remote (content response),
   w').

(** [@st.cache(allow_output_mutation=True, show_spinner=False)]: a hit on
    the call's argument returns the stored value without running the body;
    a miss runs it and stores its value; an exception stores nothing. *)
Definition get_data_zenodo (molecule : string) (w : World)
  : result Dataset * World :=
  match cache w !! molecule with
  | Some data => (Ok data, w)
  | None =>
      match get_data_zenodo_body molecule w with
      | (Ok data, w') =>
          (Ok data, mkWorld (<[molecule := data]> (cache w')) (requested w'))
      | (Raise e, w') => (Raise e, w')
      end
  end.

(** Two successive loads. *)
Definition load_twice (m1 m2 : string) (w : World)
  : result Dataset * result Dataset * World :=
  let '(r1, w1) := get_data_zenodo m1 w in
  let '(r2, w2) := get_data_zenodo m2 w1 in
  (r1, r2, w2).

End WithRemote.

Definition empty_world : World := mkWorld ∅ [].

End Loader.

(** ** Tables

    A pandas [DataFrame] as the script uses it: an index length and an ordered
    list of labelled columns.  Labels and entries are Python objects: floats,
    integers, strings, or the missing value. *)

Inductive cell : Type :=
| Num (q : Q)
| Int (z : Z)
| Str (s : string)
| NaN.

Definition cell_eqb (a b : cell) : bool :=
  match a, b with
  | Num p, Num q => Qeq_bool p q
  | Int x, Int y => x =? y
  | Num p, Int y => Qeq_bool p (inject_Z y)
  | Int x, Num q => Qeq_bool (inject_Z x) q
  | Str s, Str t => String.eqb s t
  | _, _ => false
  end.

Record DataFrame : Type := mkDataFrame {
  df_len : nat;                         (* len(df.index) *)
  df_columns : list (cell * list cell)  (* label, values *)
}.

Module Pandas.

(** [df.columns.tolist()] *)
Definition columns (df : DataFrame) : list cell := (df_columns df).*1.

(** [label in l] *)
Definition label_in (label : cell) (l : list cell) : bool :=
  existsb (cell_eqb label) l.

(** [df[label]] *)
Fixpoint get_column (label : cell) (cols : list (cell * list cell))
  : option (list cell) :=
  match cols with
  | [] => None
  | (l, v) :: cols' => if cell_eqb label l then Some v else get_column label cols'
  end.

(** Replace the column [label] where it stands, or append it. *)
Fixpoint set_column (label : cell) (values : list cell)
    (cols : list (cell * list cell)) : list (cell * list cell) :=
  match cols with
  | [] => [(label, values)]
  | (l, v) :: cols' =>
      if cell_eqb label l then (l, values) :: cols'
      else (l, v) :: set_column label values cols'
  end.

(** [pd.DataFrame()] *)
Definition empty : DataFrame := mkDataFrame 0 [].

(** [pd.DataFrame({k1: a1, ...})] with one-dimensional arrays. *)
Definition of_dict (items : list (string * list cell)) : result DataFrame :=
  match items with
  | [] => Ok empty
  | (_, a) :: _ =>
      if forallb (fun kv => Nat.eqb (length kv.2) (length a)) items
      then Ok (mkDataFrame (length a)
                 (foldl (fun cols kv => set_column (Str kv.1) kv.2 cols) [] items))
      else Raise (ValueError "All arrays must be of the same length")
  end.

(** [a.shape[1]] of a two-dimensional array (0 for an array without rows). *)
Definition shape1 {A} (a : list (list A)) : nat :=
  match a with
  | [] => O
  | row :: _ => length row
  end.

(** [a[:, j]] of a two-dimensional array. *)
Definition column_of {A} (j : nat) (a : list (list A)) : result (list A) :=
  mapM (fun row : list A =>
          match row !! j with
          | Some x => Ok x
          | None => Raise (IndexError "index is out of bounds for axis 1")
          end) a.

(** [pd.DataFrame(a, columns=names)] with a two-dimensional float array;
    without [columns] the labels are 0, 1, ... *)
Definition of_array (a : list (list Q)) (names : option (list cell))
  : result DataFrame :=
  let k := shape1 a in
  let labels := default (Int <$> (Z.of_nat <$> seq 0 k)) names in
  if negb (Nat.eqb (length labels) k)
  then Raise (ValueError "Shape of passed values does not match the columns")
  else
    cols ← mapM (fun j => column_of j a) (seq 0 k);
    Ok (mkDataFrame (length a)
          (zip labels ((fun c : list Q => Num <$> c) <$> cols))).

(** [df[label] = values] with an array.  On a frame whose index is empty a
    non-empty array defines the index, and the columns already there are
    filled with missing values; otherwise the lengths must agree. *)
Definition setitem (df : DataFrame) (label : cell) (values : list cell)
  : result DataFrame :=
  if Nat.eqb (df_len df) 0 && negb (Nat.eqb (length values) 0)
  then
    let n := length values in
    let cols := (fun lv : cell * list cell => (lv.1, replicate n NaN))
                  <$> df_columns df in
    Ok (mkDataFrame n (set_column label values cols))
  else if Nat.eqb (length values) (df_len df)
  then Ok (mkDataFrame (df_len df) (set_column label values (df_columns df)))
  else Raise (ValueError "Length of values does not match length of index").

(** [pd.melt(df, id_vars=id, var_name=var, value_name=value)]: one row per
    (value column, row), column by column. *)
Definition melt (df : DataFrame) (id var value : string) : result DataFrame :=
  match get_column (Str id) (df_columns df) with
  | None => Raise (KeyError id)
  | Some id_data =>
      let frame := List.filter (fun lv => negb (cell_eqb (Str id) lv.1))
                          (df_columns df) in
      let K := length frame in
      let N := df_len df in
      Ok (mkDataFrame (N * K)
            [ (Str id, concat (replicate K id_data));
              (Str var, concat ((fun lv : cell * list cell => replicate N lv.1) <$> frame));
              (Str value, concat (frame.*2)) ])
  end.

(** [l[mask]]: the entries where the mask holds. *)
Fixpoint select {A} (mask : list bool) (l : list A) : list A :=
  match mask, l with
  | b :: mask', x :: l' => if b then x :: select mask' l' else select mask' l'
  | _, _ => []
  end.

(** [df[mask]] with a boolean mask over the rows. *)
Definition filter_rows (df : DataFrame) (mask : list bool) : DataFrame :=
  mkDataFrame (length (select mask (seq 0 (df_len df))))
              ((fun lv : cell * list cell => (lv.1, select mask lv.2))
                 <$> df_columns df).

End Pandas.

(** ** numpy helpers *)

Module Numpy.

Definition Qltb (x y : Q) : bool := negb (Qle_bool y x).

(** [np.minimum] on two floats. *)
Definition minimum (a b : Q) : Q := if Qltb b a then b else a.

(** [a.min()] over all the entries; an empty array has no minimum. *)
Definition min (a : list Q) : result Q :=
  match a with
  | [] => Raise (ValueError
            "zero-size array to reduction operation minimum which has no identity")
  | x :: a' => Ok (foldl minimum x a')
  end.

(** [a.reshape(-1, n)] of a two-dimensional array. *)
Definition reshape_rows {A} (n : nat) (a : list (list A)) : result (list (list A)) :=
  let flat := flatten a in
  if Nat.eqb n 0
  then Raise (ValueError "cannot reshape array of size 0 into shape (0)")
  else if Nat.eqb (length flat mod n) 0
  then Ok (reshape (replicate (length flat / n) n) flat)
  else Raise (ValueError "cannot reshape array")
.

(** Sum of the squares of the entries. *)
Definition sum_sq (l : list Q) : Q :=
  foldl (fun acc x => acc + x * x)%Q 0%Q l.

(** Insertion into a sorted list without repetitions. *)
Fixpoint insert_uniq {A} (cmp : A -> A -> comparison) (x : A) (l : list A)
  : list A :=
  match l with
  | [] => [x]
  | y :: l' =>
      match cmp x y with
      | Lt => x :: l
      | Eq => l
      | Gt => y :: insert_uniq cmp x l'
      end
  end.

(** [np.unique(a).tolist()]: the sorted distinct entries. *)
Definition unique {A} (cmp : A -> A -> comparison) (a : list A) : list A :=
  foldr (insert_uniq cmp) [] a.

(** The part of numpy that is not computed here: the square root, and the
    sum of the entries of an array ([a.sum()]), whose additions numpy orders
    in its own way (pairwise, in blocks). *)
Record Impl : Type := mkImpl {
  sqrt : Q -> Q;
  sum : list Q -> Q
}.

Section WithImpl.
Variable np : Impl.

(** [np.linalg.norm(v)] of a vector, and of a matrix (Frobenius). *)
Definition norm (v : list Q) : Q := sqrt np (sum_sq v).
Definition norm_fro (m : list (list Q)) : Q := sqrt np (sum_sq (flatten m)).
End WithImpl.

End Numpy.

(** ** Atom labeler *)

(** What [dict.get] returns: a string, or [None]. *)
Inductive pyobj : Type :=
| PStr (s : string)
| PNone.

(** [str(o)] *)
Definition py_str (o : pyobj) : string :=
  match o with
  | PStr s => s
  | PNone => "None"
  end.

Definition atom_types : gmap Z string :=
  <[1 := "H"]> (<[6 := "C"]> (<[7 := "N"]> (<[8 := "O"]> ∅))).

(** [atom_types.get] *)
Definition atom_types_get (z : Z) : pyobj :=
  match atom_types !! z with
  | Some s => PStr s
  | None => PNone
  end.

(** [np.vectorize(f)(a)] without [otypes]: an empty input is refused; the
    output type is that of [f] on the first entry; with a string type every
    output is converted with [str], with the object type none is. *)
Definition np_vectorize (f : Z -> pyobj) (a : list Z) : result (list pyobj) :=
  match a with
  | [] => Raise (ValueError
            "cannot call `vectorize` on size 0 inputs unless `otypes` is set")
  | z0 :: _ =>
      match f z0 with
      | PStr _ => Ok ((fun z => PStr (py_str (f z))) <$> a)
      | PNone => Ok (f <$> a)
      end
  end.

Definition z_to_labels (dataset : Dataset) : result (list pyobj) :=
  let Z := flatten (ds_Z dataset) in
  np_vectorize atom_types_get Z.

(** ** Widgets

    The sidebar's state: for each radio group, the position the user picked.
    [st.sidebar.radio] returns the option at that position (the first one when
    nothing else was picked). *)

Record Sidebar : Type := mkSidebar { radio_index : string -> nat }.

Definition st_radio (ui : Sidebar) (label : string) (options : list string)
  : string :=
  nth (radio_index ui label) options (hd "" options).

(** [d.get(k)] on a dict literal, kept in insertion order. *)
Fixpoint dict_get {V} (d : list (string * V)) (k : string) : option V :=
  match d with
  | [] => None
  | (k', v) :: d' => if String.eqb k k' then Some v else dict_get d' k
  end.

(** [a[i]] on a one-dimensional array, [i] a non-negative position. *)
Definition index {A} (a : list A) (i : nat) : result A :=
  match a !! i with
  | Some x => Ok x
  | None => Raise (IndexError "index is out of bounds for axis 0")
  end.

(** ** Property extractor *)

Section Extractor.

Variable np : Numpy.Impl.
Variable ui : Sidebar.

(** The module-level globals [data] and [conf] (lines 80 and 82). *)
Variable data : Dataset.
Definition conf : list Z := flatten (ds_CONF data).

(** [label + str(n)]: [None] cannot be added to a string. *)
Definition label_plus (label : pyobj) (suffix : string) : result string :=
  match label with
  | PStr s => Ok (s +:+ suffix)
  | PNone => Raise (TypeError
               "unsupported operand type(s) for +: 'NoneType' and 'str'")
  end.

(** [np.unique(labels).tolist()]; sorting needs comparable entries. *)
Definition unique_labels (labels : list pyobj) : result (list string) :=
  names ← mapM (fun o => match o with
                         | PStr s => Ok s
                         | PNone => Raise (TypeError
                             "'<' not supported between instances of 'NoneType' and 'str'")
                         end) labels;
  Ok (Numpy.unique String.compare names).

(** [column.str.contains(pat)] for a pattern without special characters. *)
Definition str_contains (pat : string) (column : list cell) : list bool :=
  (fun c => match c with
            | Str s => PyStr.contains pat s
            | _ => false
            end) <$> column.

Definition process_mulliken_data (dataset : Dataset) : result DataFrame :=
  let n_atoms := Pandas.shape1 (ds_Q dataset) in
  atom_labels ← z_to_labels dataset;
  atom_charges ← Numpy.reshape_rows n_atoms (ds_Q dataset);
  col_names ← mapM (fun i => label ← index atom_labels i;
                             label_plus label (pretty (i + 1)%nat))
                   (seq 0 n_atoms);
  df ← Pandas.of_array atom_charges (Some (Str <$> col_names));
  df ← Pandas.setitem df (Str "Conformation") (Int <$> conf);
  df ← Pandas.melt df "Conformation" "atom_labels" "Mulliken charges";
  uniq ← unique_labels atom_labels;
  let atom_labels := "None" :: uniq in
  let atom_type_filter := st_radio ui "Atom type filter" atom_labels in
  if negb (String.eqb atom_type_filter "None")
  then
    match Pandas.get_column (Str "atom_labels") (df_columns df) with
    | Some column => Ok (Pandas.filter_rows df (str_contains atom_type_filter column))
    | None => Raise (KeyError "atom_labels")
    end
  else Ok df.

Definition fnorm_types : list (string * list nat) :=
  [("total", [0; 1; 2]); ("Fx", [0]); ("Fy", [1]); ("Fz", [2])]%nat.

Definition process_force_data (dataset : Dataset) : result DataFrame :=
  atom_labels ← z_to_labels dataset;
  let radio_selection := st_radio ui "Select component" (fnorm_types.*1) in
  match dict_get fnorm_types radio_selection with
  | Some components =>
      (* dataset['F'][:, :, components] *)
      forces ← mapM (mapM (fun atom : list Q => mapM (index atom) components))
                    (ds_F dataset);
      let forces_norm := Numpy.norm_fro np <$> forces in
      Pandas.of_dict [("Forces", Num <$> forces_norm);
                      ("Conformation", Int <$> conf)]
  | None =>
      (* indexing with None adds an axis; the norms are then two-dimensional *)
      Raise (ValueError "Per-column arrays must each be 1-dimensional")
  end.

Definition process_dipole_data (dataset : Dataset) : result DataFrame :=
  let dipoles := ds_DP dataset in
  let total := Numpy.norm np <$> dipoles in
  dx ← Pandas.column_of 0 dipoles;
  dy ← Pandas.column_of 1 dipoles;
  dz ← Pandas.column_of 2 dipoles;
  let options := [("total", total); ("Dx", dx); ("Dy", dy); ("Dz", dz)] in
  let radio_selection := st_radio ui "Select component" (options.*1) in
  let dipoles :=
    match dict_get options radio_selection with
    | Some values => Num <$> values
    | None => replicate (length conf) NaN
    end in
  Pandas.of_dict [("Dipole moment", dipoles); ("Conformation", Int <$> conf)].

(** [a[:, i, j]] of a three-dimensional array. *)
Definition entry_of (i j : nat) (a : list (list (list Q))) : result (list Q) :=
  mapM (fun m : list (list Q) => row ← index m i; index row j) a.

Definition process_quadrupole_data (dataset : Dataset) : result DataFrame :=
  let quadrupoles := ds_QP dataset in
  let norm := Numpy.norm_fro np <$> quadrupoles in
  xx ← entry_of 0 0 quadrupoles;
  yy ← entry_of 1 1 quadrupoles;
  zz ← entry_of 2 2 quadrupoles;
  xy ← entry_of 0 1 quadrupoles;
  xz ← entry_of 0 2 quadrupoles;
  yz ← entry_of 1 2 quadrupoles;
  let options := [("norm", norm); ("XX", xx); ("YY", yy); ("ZZ", zz);
                  ("XY", xy); ("XZ", xz); ("YZ", yz)] in
  let radio_selection := st_radio ui "Select component" (options.*1) in
  let quadrupoles :=
    match dict_get options radio_selection with
    | Some values => Num <$> values
    | None => replicate (length conf) NaN
    end in
  Pandas.of_dict [("Quadrupole moment", quadrupoles);
                  ("Conformation", Int <$> conf)].

Definition process_polar_data (dataset : Dataset) : result DataFrame :=
  let polar := ds_P dataset in
  df ← Pandas.of_array polar None;
  df ← Pandas.setitem df (Str "Conformation") (Int <$> conf);
  Pandas.melt df "Conformation" "components" "Polarizability".

(** [process_freq_data] and [process_thermal_data] (lines 148-173) are
    defined by the script but nothing calls them; they are embedded further
    down, after [build_stats]. *)

(** Lines 196-198: the conformation column is added when the table does
    not have it yet. *)
Definition attach_conformation (df : DataFrame) : result DataFrame :=
  if negb (Pandas.label_in (Str "Conformation") (Pandas.columns df))
  then Pandas.setitem df (Str "Conformation") (Int <$> conf)
  else Ok df.

Definition data_to_plot (property : string) : result DataFrame :=
  df ←
    (if String.eqb property "Potential energy" then
       let E := flatten (ds_E data) in
       m ← Numpy.min E;
       let epot := (fun e => e - m)%Q <$> E in
       Pandas.of_dict [("Potential energy", Num <$> epot)]
     else if String.eqb property "Forces" then
       process_force_data data
     else if String.eqb property "Mulliken charges" then
       process_mulliken_data data
     else if String.eqb property "Dipole moment" then
       process_dipole_data data
     else if String.eqb property "Quadrupole moment" then
       process_quadrupole_data data
     else if String.eqb property "Polarizability" then
       process_polar_data data
     else if String.eqb property "HOMO-LUMO gap" then
       lumo ← Pandas.column_of 1 (ds_HL data);
       homo ← Pandas.column_of 0 (ds_HL data);
       let egap := zip_with Qminus lumo homo in
       Pandas.of_dict [("HOMO-LUMO gap", Num <$> egap)]
     else if String.eqb property "Electronic spatial extent" then
       let r2 := flatten (ds_R2 data) in
       Pandas.of_dict [("Electronic spatial extent", Num <$> r2)]
     else
       (* no branch assigned [df]: line 196 reads an unbound local *)
       Raise (UnboundLocalError "df"));
  attach_conformation df.

End Extractor.

(** The options of the property selector (lines 296-297). *)
Definition properties : list string :=
  ["Potential energy"; "Forces"; "Mulliken charges"; "Dipole moment";
   "Quadrupole moment"; "Polarizability"; "HOMO-LUMO gap";
   "Electronic spatial extent"].

(** ** Internal-coordinate engine *)

Module Ase.

(** The part of ASE the script calls: building an [Atoms] object from
    symbols and positions, and its three measurements. *)
Record Impl : Type := mkImpl {
  atoms : Type;
  Atoms : list pyobj -> list (list Q) -> result atoms;
  get_distance : atoms -> Z -> Z -> result Q;
  get_angle : atoms -> Z -> Z -> Z -> result Q;
  get_dihedral : atoms -> Z -> Z -> Z -> Z -> result Q
}.

End Ase.

Definition newline : string := String (ascii_of_nat 10) EmptyString.

Definition error_msg : string :=
  ("Invalid atoms selection!" +:+ newline) +:+
  "The number of indices must be 2 (distance), 3 (angle) or 4 (dihedral).".

Section InternalCoords.

Variable ase : Ase.Impl.

(** One turn of the loop of [get_internal_coords] (lines 248-260): the value
    for one conformation.  [len(indices)] is tested against 4, 3 and 2, and
    the indices are passed on unpacked. *)
Definition internal_coord (labels : list pyobj) (indices : list Z)
    (xyz : list (list Q)) : result Q :=
  mol ← Ase.Atoms ase labels xyz;
  match indices with
  | [a0; a1; a2; a3] =>
      var ← Ase.get_dihedral ase mol a0 a1 a2 a3;
      if Numpy.Qltb 180 var then Ok (360 - var)%Q else Ok var
  | [a1; a2; a3] => Ase.get_angle ase mol a1 a2 a3
  | [a0; a1] => Ase.get_distance ase mol a0 a1
  | _ => Raise (ValueError error_msg)
  end.

(** The loop itself, with the list [int_coords] it appends to. *)
Fixpoint get_internal_coords_loop (labels : list pyobj) (indices : list Z)
    (coords : list (list (list Q))) (int_coords : list Q) : result (list Q) :=
  match coords with
  | [] => Ok int_coords
  | xyz :: coords' =>
      var ← internal_coord labels indices xyz;
      get_internal_coords_loop labels indices coords' (int_coords ++ [var])
  end.

Definition get_internal_coords (coords : list (list (list Q)))
    (labels : list pyobj) (indices : list Z) : result (list Q) :=
  get_internal_coords_loop labels indices coords [].

(** [a[i]] with a Python integer: negative positions count from the end. *)
Definition index_Z {A} (a : list A) (i : Z) : result A :=
  let n := Z.of_nat (length a) in
  if (0 <=? i) && (i <? n) then index a (Z.to_nat i)
  else if (- n <=? i) && (i <? 0) then index a (Z.to_nat (i + n))
  else Raise (IndexError "index is out of bounds for axis 0").

(** [''.join([a, str(b)])]: [join] wants strings. *)
Definition join_label (a : pyobj) (b : Z) : result string :=
  match a with
  | PStr s => Ok (s +:+ pretty b)
  | PNone => Raise (TypeError "sequence item 0: expected str instance, NoneType found")
  end.

(** The body of the loop of [build_ic_dataframe] (lines 270-278). *)
Definition build_ic_column (dataset : Dataset)
    (df : DataFrame) (ic : string) : result DataFrame :=
  atom_indices ← mapM PyStr.int (PyStr.split "," (PyStr.strip ic));
  atom_labels ← z_to_labels dataset;
  values ← get_internal_coords (ds_R dataset) atom_labels atom_indices;
  atom_labels ← mapM (index_Z atom_labels) atom_indices;
  labels ← mapM (fun ab : pyobj * Z => join_label ab.1 ab.2)
                (zip atom_labels atom_indices);
  let col_name := PyStr.join "-" labels in
  Pandas.setitem df (Str col_name) (Num <$> values).

Fixpoint build_ic_loop (dataset : Dataset)
    (selected_coords : list string) (df : DataFrame) : result DataFrame :=
  match selected_coords with
  | [] => Ok df
  | ic :: rest =>
      df' ← build_ic_column dataset df ic;
      build_ic_loop dataset rest df'
  end.

(** [build_ic_dataframe]; [data] is the module-level dataset [conf] was
    taken from.  The [@st.cache] decorator memoises the call; the function
    depends on nothing but its arguments and [conf], so the memo does not
    change what it returns. *)
Definition build_ic_dataframe (data : Dataset) (dataset : Dataset)
    (selected_coords : list string) : result DataFrame :=
  df ← build_ic_loop dataset selected_coords Pandas.empty;
  Pandas.setitem df (Str "Conformation") (Int <$> conf data).

End InternalCoords.

(** ** binary64 arithmetic

    Python floats and numpy's float64 are IEEE 754 binary64 numbers: the
    rationals m * 2^e with |m| < 2^53 and -1074 <= e <= 971.  An operation
    returns the binary64 number nearest to its exact result, a tie going to
    the one with the even m.  [round] is this rounding.  It has no infinity:
    it stands for the rounding of binary64 where the exact result is below
    2^1024 in magnitude, and the statements that depend on an operation
    bound the values it is applied to ([moderate]). *)

Module Float64.

(** The power of two [2^e]. *)
Definition pow2 (e : Z) : Q := (2 ^ e)%Q.

(** The exponent of the binade of a positive number: the [l] with
    [2^l <= x < 2^(l+1)]. *)
Definition ilog2 (x : Q) : Z :=
  let l := Z.log2 (Qnum x) - Z.log2 (Zpos (Qden x)) in
  if Qle_bool (pow2 l) x then l else l - 1.

(** The exponent of the unit in the last place at [x]: 53 significant bits,
    and no exponent below -1074 (gradual underflow). *)
Definition ulp_exp (x : Q) : Z := Z.max (ilog2 x - 52) (-1074).

(** The nearest integer, a tie going to the even one. *)
Definition nearest_even (x : Q) : Z :=
  let f := Qfloor x in
  match (x - inject_Z f ?= 1 # 2)%Q with
  | Lt => f
  | Gt => f + 1
  | Eq => if Z.even f then f else f + 1
  end.

(** Rounding to the nearest multiple of [2^e]. *)
Definition round_at (e : Z) (x : Q) : Q :=
  (inject_Z (nearest_even (x / pow2 e)) * pow2 e)%Q.

(** Rounding of a positive number to the nearest binary64 number. *)
Definition round_pos (x : Q) : Q := round_at (ulp_exp x) x.

(** Rounding to the nearest binary64 number, ties to even: the rounding of
    every arithmetic operation of Python floats and numpy's float64. *)
Definition round (x : Q) : Q :=
  match Qnum x with
  | Z0 => 0%Q
  | Zpos _ => Qred (round_pos x)
  | Zneg _ => Qred (- round_pos (- x))
  end.

Definition add (x y : Q) : Q := round (x + y).
Definition sub (x y : Q) : Q := round (x - y).
Definition mul (x y : Q) : Q := round (x * y).

(** [x / y] for a divisor that is not zero. *)
Definition div (x y : Q) : Q := round (x / y).

(** The binary64 numbers: the rationals that rounding leaves as they are. *)
Definition is_float (x : Q) : Prop := (round x == x)%Q.

(** A binary64 number below 2^1023 in magnitude: the sum and the difference
    of two of them are finite. *)
Definition moderate (x : Q) : Prop :=
  is_float x ∧ (- pow2 1023 < x)%Q ∧ (x < pow2 1023)%Q.

End Float64.

(** ** Summary statistics *)

(** The table [build_stats] returns: one row per index entry. *)
Record StatsTable : Type := mkStatsTable {
  st_index : list Z;                       (* the 'Conformation' index *)
  st_columns : list (string * list cell)
}.

Module Stats.

Fixpoint insert_sorted (x : Q) (l : list Q) : list Q :=
  match l with
  | [] => [x]
  | y :: l' => if Qle_bool x y then x :: l else y :: insert_sorted x l'
  end.

Definition sort (l : list Q) : list Q := foldr insert_sorted [] l.

(** A count as a float (exact below 2^53). *)
Definition of_nat (n : nat) : Q := inject_Z (Z.of_nat n).

(** numpy's [_lerp(a, b, t)]: [a + (b - a) * t], and [b - (b - a) * (1 - t)]
    where [t >= 0.5]. *)
Definition lerp (a b t : Q) : Q :=
  let diff_b_a := Float64.sub b a in
  if Qle_bool (1 # 2) t
  then Float64.sub b (Float64.mul diff_b_a (Float64.sub 1 t))
  else Float64.add a (Float64.mul diff_b_a t).

(** [np.percentile] with linear interpolation, at the fraction [q], on the
    sorted values of a group.  The virtual index [(n - 1) * q] and its
    fractional part are exact in binary64 for the fractions 1/4, 1/2 and 3/4
    of [describe] and fewer than 2^51 values; they are written exactly. *)
Definition quantile (q : Q) (sorted : list Q) : cell :=
  match sorted with
  | [] => NaN
  | x0 :: _ =>
      let n := length sorted in
      let virtual_index := (q * of_nat (n - 1))%Q in
      let previous_index := Qfloor virtual_index in
      let gamma := (virtual_index - inject_Z previous_index)%Q in
      let previous := nth (Z.to_nat previous_index) sorted x0 in
      let next := nth (Nat.min (Z.to_nat previous_index + 1) (n - 1)) sorted x0 in
      Num (lerp previous next gamma)
  end.

(** The group median of pandas: the middle value, or the mean
    [(s[n // 2] + s[n // 2 - 1]) / 2] of the two middle values. *)
Definition median (sorted : list Q) : cell :=
  match sorted with
  | [] => NaN
  | x0 :: _ =>
      let n := length sorted in
      if Nat.eqb (n mod 2) 1 then Num (nth (n / 2) sorted x0)
      else Num (Float64.div
                  (Float64.add (nth (n / 2) sorted x0) (nth (n / 2 - 1) sorted x0))
                  2)
  end.

Section WithNumpy.
Variable np : Numpy.Impl.

(** The mean of pandas: the sum of the values over their number. *)
Definition mean (l : list Q) : cell :=
  match l with
  | [] => NaN
  | _ => Num (Float64.div (Numpy.sum np l) (of_nat (length l)))
  end.

(** Sample standard deviation (one degree of freedom removed): the square
    root of the sum of [(avg - x) ** 2] over [count - 1]. *)
Definition std (l : list Q) : cell :=
  match l with
  | [] | [_] => NaN
  | _ =>
      let avg := Float64.div (Numpy.sum np l) (of_nat (length l)) in
      let sqr := (fun x => let d := Float64.sub avg x in Float64.mul d d) <$> l in
      Num (Numpy.sqrt np
             (Float64.div (Numpy.sum np sqr) (of_nat (length l - 1))))
  end.

(** [Series.describe()] of the values of one group. *)
Definition describe (l : list Q) : list (string * cell) :=
  let sorted := sort l in
  [ ("count", Num (of_nat (length l)));
    ("mean", mean l);
    ("std", std l);
    ("min", from_option Num NaN (head sorted));
    ("25%", quantile (1 # 4) sorted);
    ("50%", quantile (1 # 2) sorted);
    ("75%", quantile (3 # 4) sorted);
    ("max", from_option Num NaN (last sorted)) ].
End WithNumpy.

(** The names [describe] gives its statistics, in its order. *)
Definition describe_names : list string :=
  ["count"; "mean"; "std"; "min"; "25%"; "50%"; "75%"; "max"].

(** A group key: the conformation identifier, or nothing for a missing
    value (such rows belong to no group).  The script fills the
    'Conformation' column from [conf] only; keys of another kind are given no
    meaning here. *)
Definition key_of (c : cell) : result (option Z) :=
  match c with
  | Int z => Ok (Some z)
  | NaN => Ok None
  | _ => Raise (TypeError "conformation identifiers are integers")
  end.

(** A value to aggregate; missing values are skipped by every statistic. *)
Definition number_of (c : cell) : result (option Q) :=
  match c with
  | Num q => Ok (Some q)
  | Int z => Ok (Some (inject_Z z))
  | NaN => Ok None
  | Str _ => Raise (TypeError "no numeric types to aggregate")
  end.

(** The values of the rows whose key is [k], in row order. *)
Definition group (k : Z) (rows : list (option Z * option Q)) : list Q :=
  omap (fun r : option Z * option Q =>
          match r.1 with
          | Some k' => if k' =? k then r.2 else None
          | None => None
          end) rows.

(** [.unstack(1).reset_index()] of the described groups: one record
    (level_1, Conformation, 0) per statistic and group, statistic by
    statistic. *)
Definition unstack_reset (described : list (Z * list (string * cell)))
  : list (string * Z * cell) :=
  name ← describe_names;
  (fun kd : Z * list (string * cell) =>
     (name, kd.1, default NaN (dict_get kd.2 name))) <$> described.

(** [.pivot(index='Conformation', values=0, columns='level_1')]. *)
Definition pivot (records : list (string * Z * cell)) : result StatsTable :=
  if bool_decide (NoDup (records.*1))
  then
    let idx := Numpy.unique Z.compare (records.*1.*2) in
    let names := Numpy.unique String.compare (records.*1.*1) in
    let at_ (name : string) (k : Z) : cell :=
      default NaN
        (snd <$> List.find (fun r : string * Z * cell =>
                              String.eqb r.1.1 name && (r.1.2 =? k)) records) in
    Ok (mkStatsTable idx ((fun name => (name, at_ name <$> idx)) <$> names))
  else Raise (ValueError "Index contains duplicate entries, cannot reshape").

(** [df_stats[name] = values] *)
Definition setitem (t : StatsTable) (name : string) (values : list cell)
  : result StatsTable :=
  if Nat.eqb (length values) (length (st_index t))
  then Ok (mkStatsTable (st_index t)
             (List.filter (fun c => negb (String.eqb c.1 name)) (st_columns t)
              ++ [(name, values)]))
  else Raise (ValueError "Length of values does not match length of index").

(** [t[name]] *)
Definition column (name : string) (t : StatsTable) : option (list cell) :=
  dict_get (st_columns t) name.

End Stats.

Section BuildStats.

Variable np : Numpy.Impl.

Definition build_stats (dataframe : DataFrame) (feature : string)
  : result StatsTable :=
  (* dataframe[[feature, 'Conformation']].groupby('Conformation') *)
  values ← match Pandas.get_column (Str feature) (df_columns dataframe) with
           | Some c => Ok c
           | None => Raise (KeyError feature)
           end;
  keys ← match Pandas.get_column (Str "Conformation") (df_columns dataframe) with
         | Some c => Ok c
         | None => Raise (KeyError "Conformation")
         end;
  if String.eqb feature "Conformation"
  then Raise (ValueError "Grouper for 'Conformation' not 1-dimensional")
  else
    keys ← mapM Stats.key_of keys;
    values ← mapM Stats.number_of values;
    let rows := zip keys values in
    let df_confs := Numpy.unique Z.compare (omap id keys) in
    let _median := (fun k => Stats.median (Stats.sort (Stats.group k rows)))
                     <$> df_confs in
    let described := (fun k => (k, Stats.describe np (Stats.group k rows)))
                       <$> df_confs in
    df_stats ← Stats.pivot (Stats.unstack_reset described);
    Stats.setitem df_stats "median" _median.

End BuildStats.

(** ** The two extractors nothing calls

    [process_freq_data] and [process_thermal_data] (lines 148-173) read two
    more arrays of the archive, and two more kinds of widget. *)

(** [dataset['FREQ']] and [dataset['ETH']], where the archive has them. *)
Record Spectra : Type := mkSpectra {
  ds_FREQ : option (list (list Q));     (* N x n_modes frequencies          *)
  ds_ETH  : option (list (list Q))      (* N x 3 thermal energies           *)
}.

(** [dataset[key]] on an array that may be missing. *)
Definition getitem {A} (key : string) (a : option A) : result A :=
  match a with
  | Some x => Ok x
  | None => Raise (KeyError key)
  end.

(** The sidebar's sliders and checkboxes: the position of each slider and
    the state of each checkbox.  [st.sidebar.slider] returns the position,
    kept within the bounds of the slider; a slider whose bounds coincide is
    given no meaning of its own. *)
Record Controls : Type := mkControls {
  slider_position : string -> Z;
  checkbox_ticked : string -> bool
}.

Definition st_slider (ui : Controls) (label : string) (min_value max_value : Z)
  : Z :=
  Z.max min_value (Z.min max_value (slider_position ui label)).

Definition st_checkbox (ui : Controls) (label : string) : bool :=
  checkbox_ticked ui label.

(** [column == value] *)
Definition eq_mask (value : cell) (column : list cell) : list bool :=
  (fun c => cell_eqb c value) <$> column.

(** [column.isin(values)] *)
Definition isin (values : list cell) (column : list cell) : list bool :=
  (fun c => existsb (cell_eqb c) values) <$> column.

Section UncalledExtractors.

Variable ui : Controls.
Variable data : Dataset.

Definition process_freq_data (dataset : Spectra) : result DataFrame :=
  freq ← getitem "FREQ" (ds_FREQ dataset);
  let n_modes := Pandas.shape1 freq in
  df ← Pandas.of_array freq None;
  df ← Pandas.setitem df (Str "Conformation") (Int <$> conf data);
  df ← Pandas.melt df "Conformation" "modes" "Vibrational frequencies";
  let select_mode := st_slider ui "mode selector" 0 (Z.of_nat n_modes) in
  match Pandas.get_column (Str "modes") (df_columns df) with
  | Some column => Ok (Pandas.filter_rows df (eq_mask (Int select_mode) column))
  | None => Raise (KeyError "modes")
  end.

Definition energy_types : list string :=
  ["energies"; "enthalpies"; "free energies"].

Definition process_thermal_data (dataset : Spectra) : result DataFrame :=
  eth ← getitem "ETH" (ds_ETH dataset);
  df ← Pandas.of_array eth (Some (Str <$> energy_types));
  df ← Pandas.setitem df (Str "Conformation") (Int <$> conf data);
  df ← Pandas.melt df "Conformation" "types" "Electronic + thermal";
  let check_boxes := st_checkbox ui <$> energy_types in
  let selected_types := Pandas.select check_boxes energy_types in
  match Pandas.get_column (Str "types") (df_columns df) with
  | Some column =>
      Ok (Pandas.filter_rows df (isin (Str <$> selected_types) column))
  | None => Raise (KeyError "types")
  end.

End UncalledExtractors.

(** ** Geometry export *)

Module Format.

Definition spaces (n : nat) : string :=
  string_of_list_ascii (replicate n " "%char).

(** ['{:<6s}'.format(s)]: left-aligned in a field of six characters. *)
Definition ljust (width : nat) (s : string) : string :=
  s +:+ spaces (width - String.length s).

(** Right-aligned in a field of [width] characters. *)
Definition rjust (width : nat) (s : string) : string :=
  spaces (width - String.length s) +:+ s.

(** The nearest integer, ties to the even one: the rounding of the
    conversion of a float to decimal digits. *)
Definition round_half_even (q : Q) : Z :=
  let f := Qfloor q in
  match (q - inject_Z f ?= 1 # 2)%Q with
  | Lt => f
  | Gt => f + 1
  | Eq => if Z.even f then f else f + 1
  end.

(** A natural number in at least [width] digits. *)
Definition zfill (width : nat) (n : Z) : string :=
  let digits := pretty (Z.to_N n) in
  string_of_list_ascii (replicate (width - String.length digits) "0"%char)
  +:+ digits.

(** ['{:.8f}'.format(x)]: sign, integer part, point, eight decimals. *)
Definition fixed8 (x : Q) : string :=
  let negative := Numpy.Qltb x 0 in
  let n := round_half_even ((if negative then - x else x) * inject_Z (10 ^ 8)) in
  (if negative then "-" else "")
  +:+ pretty (Z.to_N (n / 10 ^ 8)) +:+ "." +:+ zfill 8 (n mod 10 ^ 8).

(** ['{:12.8f}'.format(x)] *)
Definition float_12_8 (x : Q) : string := rjust 12 (fixed8 x).

(** [mask.format(l, *atom_coords)] with
    [mask = '{:<6s} {:12.8f} {:12.8f} {:12.8f} \n']: the label must be a
    string, and there must be three coordinates at least. *)
Definition mask_format (l : pyobj) (atom_coords : list Q) : result string :=
  match l with
  | PNone => Raise (TypeError
               "unsupported format string passed to NoneType.__format__")
  | PStr s =>
      match atom_coords with
      | x :: y :: z :: _ =>
          Ok (ljust 6 s +:+ " " +:+ float_12_8 x +:+ " " +:+ float_12_8 y
              +:+ " " +:+ float_12_8 z +:+ " " +:+ newline)
      | _ => Raise (IndexError
               "Replacement index out of range for positional args tuple")
      end
  end.

End Format.

(** [create_xyz] (lines 201-213).  [dataset['R'][[index]]] is the one
    geometry at [index], as an array of one geometry; the slice
    [[0:n_atoms, :]] cuts that array, not the atoms. *)
Definition create_xyz (dataset : Dataset) (index : Z) : result string :=
  atom_labels ← z_to_labels dataset;
  let n_atoms := length atom_labels in
  geom ← index_Z (ds_R dataset) index;
  let geoms_array := take n_atoms [geom] in
  let comment_line := "" in
  foldl (fun (acc : result string) (xyz : list (list Q)) =>
           geoms_string ← acc;
           let geoms_string :=
             geoms_string +:+ pretty n_atoms +:+ newline
                          +:+ comment_line +:+ newline in
           foldl (fun (acc : result string) (la : pyobj * list Q) =>
                    geoms_string ← acc;
                    line ← Format.mask_format la.1 la.2;
                    Ok (geoms_string +:+ line))
                 (Ok geoms_string) (zip atom_labels xyz))
        (Ok "") geoms_array.

(** ** Dataset selector *)

(** The options of the dataset selector (lines 76-77). *)
Definition molecules : list string :=
  ["acrolein"; "alanine"; "DMABN"; "2-nitrophenol"; "o-HBDI";
   "SMA"; "thymine"; "toluene"; "urea"; "urocanic"].

(** ** A small dataset and stand-ins for the libraries

    Two conformations of a four-atom molecule (H, C, N, O), and one
    computable instance of each library record, used to run the definitions. *)

Module Example.

(** Square root to six decimals. *)
Definition sqrt6 (q : Q) : Q :=
  (Z.sqrt (Qnum q * Zpos (Qden q) * 10 ^ 12) # (Qden q * 10 ^ 6))%Q.

(** The entries added from left to right. *)
Definition sum_left (l : list Q) : Q := foldl Float64.add 0%Q l.

Definition np : Numpy.Impl := Numpy.mkImpl sqrt6 sum_left.

(** Nothing picked: every radio group is at its first option. *)
Definition ui : Sidebar := mkSidebar (fun _ => O).

Definition data : Dataset := {|
  ds_Z := [[1; 6; 7; 8]];
  ds_R := [ [[0; 0; 0]; [1; 0; 0]; [1; 1; 0]; [2; 1; 1]];
            [[0; 0; 0]; [2; 0; 0]; [2; 1; 1]; [3; 1; 0]] ]%Q;
  ds_Q := [ [1 # 10; 2 # 10; -3 # 10; 0]; [2 # 10; 1 # 10; -3 # 10; 0] ]%Q;
  ds_F := [ [[3; 0; 0]; [0; 4; 0]; [0; 0; 0]; [0; 0; 0]];
            [[1; 0; 0]; [0; 0; 0]; [0; 0; 0]; [0; 0; 0]] ]%Q;
  ds_DP := [ [3; 4; 0]; [0; 0; 2] ]%Q;
  ds_QP := [ [[1; 0; 0]; [0; 1; 0]; [0; 0; 1]];
             [[2; 0; 0]; [0; 2; 0]; [0; 0; 2]] ]%Q;
  ds_P := [ [1; 2]; [3; 4] ]%Q;
  ds_E := [ [-5 # 2]; [-7 # 2] ]%Q;
  ds_HL := [ [-3 # 10; 1 # 10]; [-2 # 10; 1 # 10] ]%Q;
  ds_R2 := [ [10]; [11] ]%Q;
  ds_CONF := [ [4]; [7] ]
|}.

(** The same molecule with an element the lookup does not know (He). *)
Definition data_with_helium : Dataset := {|
  ds_Z := [[1; 2; 7; 8]];
  ds_R := ds_R data; ds_Q := ds_Q data; ds_F := ds_F data;
  ds_DP := ds_DP data; ds_QP := ds_QP data; ds_P := ds_P data;
  ds_E := ds_E data; ds_HL := ds_HL data; ds_R2 := ds_R2 data;
  ds_CONF := ds_CONF data
|}.

(** A geometry library that reads its answers off the first atom: the
    x-coordinate is the distance, the y-coordinate the angle and the
    z-coordinate the raw dihedral.  Positions without atoms are refused. *)
Definition ase : Ase.Impl := {|
  Ase.atoms := list Q;
  Ase.Atoms := fun _ positions =>
    match positions with
    | atom :: _ => Ok atom
    | [] => Raise (ValueError "no atoms")
    end;
  Ase.get_distance := fun mol _ _ => index mol 0;
  Ase.get_angle := fun mol _ _ _ => index mol 1;
  Ase.get_dihedral := fun mol _ _ _ _ => index mol 2
|}.

(** Three conformations whose raw dihedrals are 200, 90 and 180 degrees. *)
Definition coords : list (list (list Q)) :=
  [ [[1; 100; 200]]; [[2; 110; 90]]; [[3; 120; 180]] ]%Q.

(** A server that answers every request with an archive decoding to [data]. *)
Definition remote : Loader.Remote := {|
  Loader.requests_get := fun _ => Ok (Loader.mkResponse 200 []);
  Loader.np_load := fun _ => Ok data
|}.

(** A long-form table with two conformations. *)
Definition table : DataFrame := {|
  df_len := 5;
  df_columns := [ (Str "value", [Num 1; Num 2; Num 3; Num 10; Num 20]%Q);
                  (Str "Conformation", [Int 7; Int 7; Int 7; Int 4; Int 4]) ]
|}.

(** Two values of one conformation: -5.0 and 2.6, the latter as the binary64
    number nearest to it, 5854679515581645 / 2^51. *)
Definition pair_table : DataFrame := {|
  df_len := 2;
  df_columns := [ (Str "value",
                   [Num (-5); Num (5854679515581645 # 2251799813685248)]%Q);
                  (Str "Conformation", [Int 7; Int 7]) ]
|}.

End Example.

(** More stand-ins: frequencies of three modes and thermal energies for the
    two conformations of [Example.data], controls with every slider at [mode]
    and the checkboxes of [ticked] ticked, a server that answers 404 and one
    that cannot be reached, a molecule whose first atom is outside the
    element lookup (helium), and a dataset without atomic numbers. *)
Module Scenario.

Definition spectra : Spectra := {|
  ds_FREQ := Some [ [100; 200; 300]; [110; 210; 310] ]%Q;
  ds_ETH := Some [ [1; 2; 3]; [4; 5; 6] ]%Q
|}.

Definition controls (mode : Z) (ticked : list string) : Controls :=
  mkControls (fun _ => mode) (fun label => existsb (String.eqb label) ticked).

Definition not_found : Loader.Remote := {|
  Loader.requests_get := fun _ => Ok (Loader.mkResponse 404 []);
  Loader.np_load := fun _ => Ok Example.data
|}.

Definition unreachable : Loader.Remote := {|
  Loader.requests_get := fun url => Raise (ConnectionError url);
  Loader.np_load := fun _ => Ok Example.data
|}.

Definition data_helium_first : Dataset := {|
  ds_Z := [[2; 6; 7; 8]];
  ds_R := ds_R Example.data; ds_Q := ds_Q Example.data; ds_F := ds_F Example.data;
  ds_DP := ds_DP Example.data; ds_QP := ds_QP Example.data;
  ds_P := ds_P Example.data; ds_E := ds_E Example.data;
  ds_HL := ds_HL Example.data; ds_R2 := ds_R2 Example.data;
  ds_CONF := ds_CONF Example.data
|}.

Definition data_no_atoms : Dataset := {|
  ds_Z := [];
  ds_R := ds_R Example.data; ds_Q := ds_Q Example.data; ds_F := ds_F Example.data;
  ds_DP := ds_DP Example.data; ds_QP := ds_QP Example.data;
  ds_P := ds_P Example.data; ds_E := ds_E Example.data;
  ds_HL := ds_HL Example.data; ds_R2 := ds_R2 Example.data;
  ds_CONF := ds_CONF Example.data
|}.

End Scenario.

(** ** Statements

    The words of the specification the theorems below are measured against. *)

(** "If the raw result exceeds 180, remap via 360 - value." *)
Definition fold_reflex (raw : Q) : Q :=
  if Numpy.Qltb 180 raw then (360 - raw)%Q else raw.

(** The folded dihedral of one conformation. *)
Definition folded_dihedral (ase : Ase.Impl) (labels : list pyobj)
    (a0 a1 a2 a3 : Z) (xyz : list (list Q)) : result Q :=
  mol ← Ase.Atoms ase labels xyz;
  raw ← Ase.get_dihedral ase mol a0 a1 a2 a3;
  Ok (fold_reflex raw).

(** The invariant of the data model: every field has one entry per
    conformation, there is a conformation, the per-atom fields agree on the
    number of atoms, every element is in the lookup, and vectors and tensors
    have three components. *)
Definition well_formed (d : Dataset) : Prop :=
  let N := length (conf d) in
  let n_atoms := length (flatten (ds_Z d)) in
  N ≠ O ∧ n_atoms ≠ O ∧
  Forall (fun z => is_Some (atom_types !! z)) (flatten (ds_Z d)) ∧
  length (flatten (ds_E d)) = N ∧
  length (flatten (ds_R2 d)) = N ∧
  (length (ds_R d) = N ∧
   Forall (fun c => length c = n_atoms ∧ Forall (fun atom => length atom = 3%nat) c)
          (ds_R d)) ∧
  (length (ds_Q d) = N ∧ Forall (fun row => length row = n_atoms) (ds_Q d)) ∧
  (length (ds_F d) = N ∧
   Forall (fun c => length c = n_atoms ∧ Forall (fun atom => length atom = 3%nat) c)
          (ds_F d)) ∧
  (length (ds_DP d) = N ∧ Forall (fun row => length row = 3%nat) (ds_DP d)) ∧
  (length (ds_QP d) = N ∧
   Forall (fun m => length m = 3%nat ∧ Forall (fun row => length row = 3%nat) m)
          (ds_QP d)) ∧
  (length (ds_P d) = N ∧
   Forall (fun row => length row = Pandas.shape1 (ds_P d)) (ds_P d)) ∧
  (length (ds_HL d) = N ∧ Forall (fun row => length row = 2%nat) (ds_HL d)).

(** The value columns that hold one entry per conformation. *)
Definition per_conformation : list string :=
  ["Potential energy"; "Forces"; "Dipole moment"; "Quadrupole moment";
   "HOMO-LUMO gap"; "Electronic spatial extent"].

(** The rows of the long-form charge table that the atom-type filter keeps:
    all of them for the choice 'None', otherwise those whose atom label
    contains the chosen symbol. *)
Definition mulliken_rows {A} (choice : string) (atom_labels : list cell)
    (rows : list A) : list A :=
  if String.eqb choice "None" then rows
  else Pandas.select (str_contains choice atom_labels) rows.

(** Decimal numerals have digits only. *)
Fixpoint digits_only (s : string) : bool :=
  match s with
  | EmptyString => true
  | String c s' => bool_decide (is_Some (PyStr.digit_of c)) && digits_only s'
  end.

(** A table is rectangular when every column has one entry per index
    position. *)
Definition rectangular (df : DataFrame) : Prop :=
  Forall (fun lv : cell * list cell => length lv.2 = df_len df) (df_columns df).

(** A table entry that is a float or missing. *)
Definition numeric (c : cell) : Prop :=
  match c with
  | Num _ | NaN => True
  | _ => False
  end.

(** The entry of the column [label] on the row [r]. *)
Definition cell_at (df : DataFrame) (label : string) (r : nat) : option cell :=
  col ← Pandas.get_column (Str label) (df_columns df); col !! r.

(** The long-form table of [blocks], one block of rows per label. *)
Definition long_table (id var value : string) (ids : list cell)
    (labels : list cell) (blocks : list (list cell)) : DataFrame :=
  mkDataFrame (length ids * length labels)
    [ (Str id, concat (replicate (length labels) ids));
      (Str var, concat ((fun l => replicate (length ids) l) <$> labels));
      (Str value, concat blocks) ].

(** The entry of the statistic [name] on the row [i] of a summary table. *)
Definition stat_at (t : StatsTable) (name : string) (i : nat) : option cell :=
  col ← Stats.column name t; col !! i.

(** A string with a decimal digit in it. *)
Fixpoint has_digit (s : string) : bool :=
  match s with
  | EmptyString => false
  | String c s' => bool_decide (is_Some (PyStr.digit_of c)) || has_digit s'
  end.

(** The name [build_ic_dataframe] gives the column of the coordinate [ic]
    (lines 270, 273 and 275-277). *)
Definition ic_col_name (dataset : Dataset) (ic : string) : result string :=
  atom_indices ← mapM PyStr.int (PyStr.split "," (PyStr.strip ic));
  atom_labels ← z_to_labels dataset;
  atom_labels ← mapM (index_Z atom_labels) atom_indices;
  labels ← mapM (fun ab : pyobj * Z => join_label ab.1 ab.2)
                (zip atom_labels atom_indices);
  Ok (PyStr.join "-" labels).

(** A string in which the character [c] does not occur. *)
Fixpoint free_of (c : ascii) (s : string) : bool :=
  match s with
  | EmptyString => true
  | String a s' => negb (Ascii.eqb a c) && free_of c s'
  end.

(** The line feed. *)
Definition LF : ascii := ascii_of_nat 10.

(** The line of an atom in the exported geometry, without its line feed. *)
Definition xyz_line (s : string) (x y z : Q) : string :=
  Format.ljust 6 s +:+ " " +:+ Format.float_12_8 x +:+ " "
  +:+ Format.float_12_8 y +:+ " " +:+ Format.float_12_8 z +:+ " ".

(** * Proofs *)

(** ** The error monad *)

Lemma bind_Ok {A B} (m : result A) (k : A -> result B) (b : B) :
  m ≫= k = Ok b ↔ ∃ a, m = Ok a ∧ k a = Ok b.
Proof.
  destruct m as [a|e]; simpl; split.
  - intros H. by exists a.
  - by intros (a' & [= ->] & H).
  - discriminate.
  - by intros (a' & [=] & _).
Qed.

Lemma Ok_inj {A} (a b : A) : Ok a = Ok b → a = b.
Proof. by intros [= ->]. Qed.

Lemma mapM_Ok_length {A B} (f : A -> result B) l ys :
  mapM f l = Ok ys → length ys = length l.
Proof.
  revert ys. induction l as [|x l IH]; intros ys; simpl.
  - by intros [= <-].
  - destruct (f x) as [y|]; [|discriminate]. simpl.
    destruct (mapM f l) as [ys'|]; [|discriminate]. simpl.
    intros [= <-]. simpl. f_equal. by apply IH.
Qed.

Lemma mapM_Ok_lookup {A B} (f : A -> result B) l ys i x :
  mapM f l = Ok ys → l !! i = Some x → ∃ y, ys !! i = Some y ∧ f x = Ok y.
Proof.
  revert ys i. induction l as [|x' l IH]; intros ys i; simpl; [done|].
  destruct (f x') as [y|] eqn:Hy; [|discriminate]. simpl.
  destruct (mapM f l) as [ys'|]; [|discriminate]. simpl.
  intros [= <-]. destruct i as [|i]; simpl.
  - intros [= ->]. by exists y.
  - intros Hi. by apply IH.
Qed.

Lemma mapM_total {A B} (f : A -> result B) l :
  Forall (fun x => ∃ y, f x = Ok y) l → ∃ ys, mapM f l = Ok ys.
Proof.
  induction 1 as [|x l [y Hy] _ [ys Hys]]; simpl.
  - by exists [].
  - rewrite Hy. simpl. rewrite Hys. simpl. by eexists.
Qed.

(** Reduce the binds of the error monad, and nothing else. *)
Ltac rsimpl := cbn [mbind result_bind mret result_ret].

(** Evaluate a lookup in a dict literal. *)
Ltac eval_dict_get :=
  lazymatch goal with
  | |- context [dict_get ?d ?k] =>
      let v := eval vm_compute in (dict_get d k) in
      change (dict_get d k) with v
  end.

(** Split a successful chain of binds into its successful steps. *)
Ltac invert_binds :=
  repeat match goal with
  | H : _ ≫= _ = Ok _ |- _ =>
      let x := fresh "x" in let Hx := fresh "Hx" in
      apply bind_Ok in H as (x & Hx & H)
  end.

(** ** Internal coordinates *)

Section InternalCoordsFacts.

Variable ase : Ase.Impl.

(** The loop appends, in order, one value per conformation to what was
    already collected; the first exception stops it. *)
Lemma get_internal_coords_loop_mapM labels indices coords acc :
  get_internal_coords_loop ase labels indices coords acc =
  (vals ← mapM (internal_coord ase labels indices) coords; Ok (acc ++ vals)).
Proof.
  revert acc. induction coords as [|xyz coords IH]; intros acc; simpl.
  - by rewrite app_nil_r.
  - destruct (internal_coord ase labels indices xyz) as [var|e]; simpl; [|done].
    rewrite IH.
    destruct (mapM (internal_coord ase labels indices) coords) as [vals|e];
      simpl; [|done].
    by rewrite <- app_assoc.
Qed.

Lemma get_internal_coords_mapM coords labels indices :
  get_internal_coords ase coords labels indices =
  mapM (internal_coord ase labels indices) coords.
Proof.
  unfold get_internal_coords. rewrite get_internal_coords_loop_mapM.
  by destruct (mapM _ coords).
Qed.

Lemma internal_coord_dihedral labels a0 a1 a2 a3 xyz :
  internal_coord ase labels [a0; a1; a2; a3] xyz =
  folded_dihedral ase labels a0 a1 a2 a3 xyz.
Proof.
  unfold internal_coord, folded_dihedral, fold_reflex.
  destruct (Ase.Atoms ase labels xyz) as [mol|]; simpl; [|done].
  destruct (Ase.get_dihedral ase mol a0 a1 a2 a3) as [raw|]; simpl; [|done].
  by destruct (Numpy.Qltb 180 raw).
Qed.

Lemma internal_coord_invalid labels indices xyz mol :
  Ase.Atoms ase labels xyz = Ok mol →
  length indices ≠ 2%nat → length indices ≠ 3%nat → length indices ≠ 4%nat →
  internal_coord ase labels indices xyz = Raise (ValueError error_msg).
Proof.
  intros Hmol H2 H3 H4. unfold internal_coord. rewrite Hmol. simpl.
  destruct indices as [|a [|b [|c [|d [|e l]]]]]; simpl in *; done.
Qed.

End InternalCoordsFacts.

Lemma Qltb_lt (x y : Q) : Numpy.Qltb x y = true ↔ (x < y)%Q.
Proof.
  unfold Numpy.Qltb. rewrite negb_true_iff, <- not_true_iff_false, Qle_bool_iff.
  split; [apply Qnot_le_lt | apply Qlt_not_le].
Qed.

Lemma fold_reflex_above (raw : Q) : (180 < raw)%Q → fold_reflex raw = (360 - raw)%Q.
Proof. intros H. unfold fold_reflex. apply Qltb_lt in H. by rewrite H. Qed.

Lemma fold_reflex_below (raw : Q) : ¬ (180 < raw)%Q → fold_reflex raw = raw.
Proof.
  intros H. unfold fold_reflex.
  destruct (Numpy.Qltb 180 raw) eqn:E; [|done]. by apply Qltb_lt in E.
Qed.

(** C4.  With four atom indices [get_internal_coords] returns, for every
    conformation in order, the dihedral angle the geometry library computes
    for these atoms, replaced by 360 minus itself when it exceeds 180 and
    unchanged otherwise; an exception of the library is passed on. *)
Theorem get_internal_coords_dihedral (ase : Ase.Impl)
    (coords : list (list (list Q))) (labels : list pyobj) (a0 a1 a2 a3 : Z) :
  get_internal_coords ase coords labels [a0; a1; a2; a3] =
    mapM (folded_dihedral ase labels a0 a1 a2 a3) coords
  ∧ (∀ raw : Q, (180 < raw)%Q → fold_reflex raw = (360 - raw)%Q)
  ∧ (∀ raw : Q, ¬ (180 < raw)%Q → fold_reflex raw = raw).
Proof.
  split; [|split; [apply fold_reflex_above | apply fold_reflex_below]].
  rewrite get_internal_coords_mapM.
  induction coords as [|xyz coords IH]; simpl; [done|].
  by rewrite internal_coord_dihedral, IH.
Qed.

(** The run of C4 on three conformations with raw dihedrals 200, 90, 180. *)
Lemma get_internal_coords_dihedral_witness :
  get_internal_coords Example.ase Example.coords [] [1; 0; 2; 3]
    = Ok [160; 90; 180]%Q
  ∧ fold_reflex 200 = (360 - 200)%Q
  ∧ fold_reflex 90 = 90%Q.
Proof.
  destruct (get_internal_coords_dihedral Example.ase Example.coords [] 1 0 2 3)
    as (Hrun & Habove & Hbelow).
  split; [|split].
  - rewrite Hrun. reflexivity.
  - apply Habove. reflexivity.
  - apply Hbelow. intros H. discriminate H.
Defined.

(** C5 (as amended).  When there is at least one conformation, and the
    geometry library accepts the first one, an index tuple whose length is not
    2, 3 or 4 makes [get_internal_coords] raise a [ValueError] whose message
    names the three allowed lengths. *)
Theorem get_internal_coords_invalid_arity (ase : Ase.Impl)
    (xyz : list (list Q)) (coords : list (list (list Q)))
    (labels : list pyobj) (indices : list Z) (mol : Ase.atoms ase) :
  Ase.Atoms ase labels xyz = Ok mol →
  length indices ≠ 2%nat → length indices ≠ 3%nat → length indices ≠ 4%nat →
  get_internal_coords ase (xyz :: coords) labels indices
    = Raise (ValueError error_msg)
  ∧ PyStr.contains "2 (distance)" error_msg = true
  ∧ PyStr.contains "3 (angle)" error_msg = true
  ∧ PyStr.contains "4 (dihedral)" error_msg = true.
Proof.
  intros Hmol H2 H3 H4. split; [|by vm_compute].
  rewrite get_internal_coords_mapM. simpl.
  by rewrite (internal_coord_invalid ase labels indices xyz mol).
Qed.

Lemma get_internal_coords_invalid_arity_witness :
  get_internal_coords Example.ase Example.coords [] [1; 0; 2; 3; 4]
    = Raise (ValueError error_msg)
  ∧ PyStr.contains "2 (distance)" error_msg = true
  ∧ PyStr.contains "3 (angle)" error_msg = true
  ∧ PyStr.contains "4 (dihedral)" error_msg = true.
Proof.
  apply (get_internal_coords_invalid_arity Example.ase
           [[1; 100; 200]]%Q [[[2; 110; 90]]; [[3; 120; 180]]]%Q
           [] [1; 0; 2; 3; 4] [1; 100; 200]%Q);
    [reflexivity | simpl; lia | simpl; lia | simpl; lia].
Defined.

(** C5 as stated fails: without conformations a tuple of length 1, and one of
    length 5, give an empty result and no exception. *)
Lemma get_internal_coords_invalid_arity_counterexample :
  length [0] ≠ 2%nat ∧ length [0] ≠ 3%nat ∧ length [0] ≠ 4%nat
  ∧ get_internal_coords Example.ase [] [PStr "H"; PStr "C"] [0] = Ok []
  ∧ get_internal_coords Example.ase [] [PStr "H"; PStr "C"] [0; 1; 0; 1; 0] = Ok [].
Proof. repeat split; simpl; lia. Qed.

(** C9.  Without conformations [get_internal_coords] returns the empty
    result for every index tuple, whatever its length: the test on the length
    sits inside the loop, which does not run. *)
Theorem get_internal_coords_no_conformations (ase : Ase.Impl)
    (labels : list pyobj) (indices : list Z) :
  get_internal_coords ase [] labels indices = Ok [].
Proof. reflexivity. Qed.

(** C10.  If the raw dihedral of the geometry library lies in [0, 360) for
    every conformation, every value [get_internal_coords] returns for four
    indices is at most 180 (and not negative), and there is one value per
    conformation. *)
Theorem get_internal_coords_dihedral_range (ase : Ase.Impl)
    (coords : list (list (list Q))) (labels : list pyobj) (a0 a1 a2 a3 : Z)
    (vals : list Q) :
  (∀ xyz mol raw,
      In xyz coords → Ase.Atoms ase labels xyz = Ok mol →
      Ase.get_dihedral ase mol a0 a1 a2 a3 = Ok raw → (0 <= raw < 360)%Q) →
  get_internal_coords ase coords labels [a0; a1; a2; a3] = Ok vals →
  length vals = length coords ∧ Forall (fun v => (0 <= v <= 180)%Q) vals.
Proof.
  intros Hraw. rewrite get_internal_coords_mapM. intros Hrun.
  split; [by eapply mapM_Ok_length|].
  revert vals Hrun. induction coords as [|xyz coords IH]; intros vals; simpl.
  - intros [= <-]. constructor.
  - rewrite internal_coord_dihedral. unfold folded_dihedral at 1.
    destruct (Ase.Atoms ase labels xyz) as [mol|] eqn:Hmol; simpl; [|done].
    destruct (Ase.get_dihedral ase mol a0 a1 a2 a3) as [raw|] eqn:Hd; simpl; [|done].
    destruct (mapM _ coords) as [vals'|] eqn:Hrest; simpl; [|done].
    intros [= <-]. constructor.
    + assert (0 <= raw < 360)%Q as [Hlo Hhi]
        by (eapply Hraw; [by left | exact Hmol | exact Hd]).
      unfold fold_reflex. destruct (Numpy.Qltb 180 raw) eqn:E.
      * apply Qltb_lt in E. split; lra.
      * assert (¬ (180 < raw)%Q) by (intros H; apply Qltb_lt in H; congruence).
        split; lra.
    + apply IH; [|done]. intros xyz' mol' raw' Hin. apply Hraw. by right.
Qed.

Lemma get_internal_coords_dihedral_range_witness :
  length [160; 90; 180]%Q = length Example.coords
  ∧ Forall (fun v => (0 <= v <= 180)%Q) [160; 90; 180]%Q.
Proof.
  apply (get_internal_coords_dihedral_range Example.ase Example.coords []
           1 0 2 3 [160; 90; 180]%Q); [|reflexivity].
  intros xyz mol raw [<-|[<-|[<-|[]]]] [= <-] [= <-]; split; by vm_compute.
Defined.

(** ** Atom labeler *)

Lemma atom_types_lookup (z : Z) :
  atom_types !! z =
    if decide (z = 1) then Some "H"
    else if decide (z = 6) then Some "C"
    else if decide (z = 7) then Some "N"
    else if decide (z = 8) then Some "O"
    else None.
Proof.
  unfold atom_types.
  repeat (rewrite lookup_insert; case_decide; subst;
          [repeat case_decide; (done || lia)|]).
  rewrite lookup_empty. by repeat (case_decide; [congruence|]).
Qed.

Lemma np_vectorize_Ok (f : Z → pyobj) (a : list Z) :
  a ≠ [] →
  ∃ out, np_vectorize f a = Ok out ∧ length out = length a ∧
    ∀ i z, a !! i = Some z →
      out !! i = Some (f z) ∨ out !! i = Some (PStr (py_str (f z))).
Proof.
  intros Ha. destruct a as [|z0 a]; [done|]. unfold np_vectorize.
  destruct (f z0) eqn:E0.
  - eexists. split; [done|]. split; [by rewrite length_fmap|].
    intros i z Hi. right. by rewrite list_lookup_fmap, Hi.
  - eexists. split; [done|]. split; [by rewrite length_fmap|].
    intros i z Hi. left. by rewrite list_lookup_fmap, Hi.
Qed.

(** C3 (as amended).  [z_to_labels] has no failure for an unknown element.
    On a dataset with at least one atomic number it returns one label per
    atomic number: the symbol for 1, 6, 7 and 8, and for any other number
    [None], or the string 'None' it is converted to. *)
Theorem z_to_labels_unknown_element (dataset : Dataset) :
  flatten (ds_Z dataset) ≠ [] →
  ∃ labels,
    z_to_labels dataset = Ok labels
    ∧ length labels = length (flatten (ds_Z dataset))
    ∧ ∀ i z, flatten (ds_Z dataset) !! i = Some z →
        if decide (z = 1) then labels !! i = Some (PStr "H")
        else if decide (z = 6) then labels !! i = Some (PStr "C")
        else if decide (z = 7) then labels !! i = Some (PStr "N")
        else if decide (z = 8) then labels !! i = Some (PStr "O")
        else labels !! i = Some PNone ∨ labels !! i = Some (PStr "None").
Proof.
  intros HZ. unfold z_to_labels.
  destruct (np_vectorize_Ok atom_types_get _ HZ) as (labels & Hrun & Hlen & Hget).
  exists labels. split; [done|]. split; [done|].
  intros i z Hi. specialize (Hget i z Hi).
  unfold atom_types_get in Hget. rewrite atom_types_lookup in Hget.
  repeat (case_decide; [by destruct Hget|]). done.
Qed.

Lemma z_to_labels_unknown_element_witness :
  ∃ labels,
    z_to_labels Example.data_with_helium = Ok labels
    ∧ length labels = 4%nat
    ∧ labels !! 1%nat = Some (PStr "None")
    ∧ labels !! 3%nat = Some (PStr "O").
Proof.
  destruct (z_to_labels_unknown_element Example.data_with_helium)
    as (labels & Hrun & Hlen & Hget); [discriminate|].
  exists labels. split; [exact Hrun|]. split; [exact Hlen|].
  pose proof (Hget 1%nat 2 eq_refl) as H1.
  pose proof (Hget 3%nat 8 eq_refl) as H3.
  simpl in H1, H3. split; [|exact H3].
  destruct H1 as [H1|H1]; [|exact H1].
  vm_compute in Hrun. injection Hrun as <-. discriminate H1.
Defined.

(** C3 as stated fails: helium (2) is outside the lookup, and the labeler
    answers with the label 'None' instead of raising. *)
Lemma z_to_labels_unknown_element_counterexample :
  In 2 (flatten (ds_Z Example.data_with_helium))
  ∧ atom_types !! 2 = None
  ∧ z_to_labels Example.data_with_helium
      = Ok [PStr "H"; PStr "None"; PStr "N"; PStr "O"].
Proof. split; [simpl; tauto|]. split; reflexivity. Qed.

(** ** Loader *)

Section LoaderFacts.

Import Loader.
Variable remote : Remote.

Lemma get_data_zenodo_miss molecule w :
  cache w !! molecule = None →
  (get_data_zenodo remote molecule w).2.(requested)
    = requested w ++ [zenodo_data_path (normalize molecule)]
  ∧ ∀ other, other ≠ molecule →
      (get_data_zenodo remote molecule w).2.(cache) !! other = cache w !! other.
Proof.
  intros Hmiss. unfold get_data_zenodo. rewrite Hmiss.
  unfold get_data_zenodo_body.
  destruct (_ ≫= _) as [d|e]; simpl; (split; [done|]); intros other Hne;
    [by rewrite lookup_insert_ne|done].
Qed.

Lemma get_data_zenodo_hit molecule w d w' :
  get_data_zenodo remote molecule w = (Ok d, w') →
  get_data_zenodo remote molecule w' = (Ok d, w').
Proof.
  unfold get_data_zenodo at 1.
  destruct (cache w !! molecule) as [d0|] eqn:Hc.
  - intros [= -> <-]. unfold get_data_zenodo. by rewrite Hc.
  - destruct (get_data_zenodo_body remote molecule w) as [[d1|e] w1]; [|done].
    intros [= -> <-]. unfold get_data_zenodo. simpl.
    by rewrite lookup_insert_eq.
Qed.

End LoaderFacts.

(** C2 (as amended).  The loader's cache is keyed by the molecule name as it
    is passed in, not by the normalised name.  After a successful load, a
    second load of the same name returns the cached dataset and requests
    nothing.  Two loads of different names, neither cached, issue two
    requests, one after the other, even when both names normalise to the same
    name and therefore to the same URL. *)
Theorem get_data_zenodo_cache_key (remote : Loader.Remote)
    (m1 m2 : string) (w : Loader.World) :
  (∀ d w1, Loader.get_data_zenodo remote m1 w = (Ok d, w1) →
           Loader.get_data_zenodo remote m1 w1 = (Ok d, w1))
  ∧ (m1 ≠ m2 → Loader.cache w !! m1 = None → Loader.cache w !! m2 = None →
     Loader.requested (Loader.load_twice remote m1 m2 w).2
       = Loader.requested w
           ++ [Loader.zenodo_data_path (Loader.normalize m1);
               Loader.zenodo_data_path (Loader.normalize m2)]).
Proof.
  split; [intros d w1; apply get_data_zenodo_hit|].
  intros Hne H1 H2. unfold Loader.load_twice.
  destruct (get_data_zenodo_miss remote m1 w H1) as [Hreq1 Hother].
  destruct (Loader.get_data_zenodo remote m1 w) as [r1 w1] eqn:E1. simpl in *.
  assert (Loader.cache w1 !! m2 = None) as H2'
    by (rewrite Hother; [done|congruence]).
  destruct (get_data_zenodo_miss remote m2 w1 H2') as [Hreq2 _].
  destruct (Loader.get_data_zenodo remote m2 w1) as [r2 w2] eqn:E2. simpl in *.
  by rewrite Hreq2, Hreq1, <- app_assoc.
Qed.

Lemma get_data_zenodo_cache_key_witness :
  Loader.get_data_zenodo Example.remote "thymine"
    (Loader.get_data_zenodo Example.remote "thymine" Loader.empty_world).2
  = (Ok Example.data,
     (Loader.get_data_zenodo Example.remote "thymine" Loader.empty_world).2)
  ∧ Loader.requested
      (Loader.load_twice Example.remote "Thymine" "thymine" Loader.empty_world).2
    = [Loader.zenodo_data_path "thymine"; Loader.zenodo_data_path "thymine"].
Proof.
  destruct (get_data_zenodo_cache_key Example.remote "Thymine" "thymine"
              Loader.empty_world) as [_ Htwo].
  destruct (get_data_zenodo_cache_key Example.remote "thymine" "thymine"
              Loader.empty_world) as [Hhit _].
  split.
  - apply Hhit. reflexivity.
  - apply Htwo; [discriminate | reflexivity | reflexivity].
Defined.

(** C2 as stated fails: "Thymine" and "thymine" normalise to the same name,
    and loading one after the other requests the archive twice and leaves two
    cache entries. *)
Lemma get_data_zenodo_cache_key_counterexample :
  Loader.normalize "Thymine" = Loader.normalize "thymine"
  ∧ Loader.requested
      (Loader.load_twice Example.remote "Thymine" "thymine" Loader.empty_world).2
    = [ "https://zenodo.org/record/7032334/files/ws22_thymine.npz?download=1";
        "https://zenodo.org/record/7032334/files/ws22_thymine.npz?download=1" ]
  ∧ size (Loader.cache
      (Loader.load_twice Example.remote "Thymine" "thymine" Loader.empty_world).2)
    = 2%nat.
Proof. split; [reflexivity|]. split; [reflexivity|]. by vm_compute. Qed.

(** ** Tables *)

Lemma cell_eqb_Str (s t : string) : cell_eqb (Str s) (Str t) = String.eqb s t.
Proof. reflexivity. Qed.

Lemma get_set_column label values cols :
  cell_eqb label label = true →
  Pandas.get_column label (Pandas.set_column label values cols) = Some values.
Proof.
  intros Hrefl. induction cols as [|[l v] cols IH]; simpl.
  - by rewrite Hrefl.
  - destruct (cell_eqb label l) eqn:E; simpl; by rewrite E.
Qed.

Lemma setitem_get df label values df' :
  cell_eqb label label = true →
  Pandas.setitem df label values = Ok df' →
  Pandas.get_column label (df_columns df') = Some values.
Proof.
  intros Hrefl. unfold Pandas.setitem.
  destruct (_ && _); [|destruct (Nat.eqb _ _); [|done]];
    intros [= <-]; simpl; by apply get_set_column.
Qed.

Lemma setitem_same_length df label values :
  length values = df_len df →
  Pandas.setitem df label values
    = Ok (mkDataFrame (df_len df)
            (Pandas.set_column label values (df_columns df))).
Proof.
  intros Hlen. unfold Pandas.setitem. rewrite Hlen.
  destruct (df_len df) as [|n] eqn:E; simpl.
  - done.
  - by rewrite Nat.eqb_refl.
Qed.

(** ** Potential energy *)

Lemma minimum_le_l (a b : Q) : (Numpy.minimum a b <= a)%Q.
Proof.
  unfold Numpy.minimum. destruct (Numpy.Qltb b a) eqn:E.
  - apply Qltb_lt in E. by apply Qlt_le_weak.
  - apply Qle_refl.
Qed.

Lemma minimum_le_r (a b : Q) : (Numpy.minimum a b <= b)%Q.
Proof.
  unfold Numpy.minimum. destruct (Numpy.Qltb b a) eqn:E.
  - apply Qle_refl.
  - apply Qnot_lt_le. intros H. apply Qltb_lt in H. congruence.
Qed.

Lemma minimum_cases (a b : Q) : Numpy.minimum a b = a ∨ Numpy.minimum a b = b.
Proof. unfold Numpy.minimum. destruct (Numpy.Qltb b a); auto. Qed.

(** The running minimum is one of the entries and below all of them. *)
Lemma foldl_minimum_spec (l : list Q) (x : Q) :
  In (foldl Numpy.minimum x l) (x :: l)
  ∧ ∀ y, In y (x :: l) → (foldl Numpy.minimum x l <= y)%Q.
Proof.
  revert x. induction l as [|z l IH]; intros x; simpl.
  - split; [by left|]. intros y [<-|[]]. apply Qle_refl.
  - destruct (IH (Numpy.minimum x z)) as [Hin Hle]. split.
    + destruct Hin as [Hin|Hin]; [|by right; right].
      rewrite <- Hin. destruct (minimum_cases x z) as [->| ->]; auto.
    + intros y [<-|[<-|Hy]].
      * eapply Qle_trans; [apply Hle; by left | apply minimum_le_l].
      * eapply Qle_trans; [apply Hle; by left | apply minimum_le_r].
      * apply Hle. by right.
Qed.

Lemma min_spec (a : list Q) (m : Q) :
  Numpy.min a = Ok m → In m a ∧ ∀ y, In y a → (m <= y)%Q.
Proof.
  destruct a as [|x a]; [done|]. intros [= <-]. apply foldl_minimum_spec.
Qed.

Lemma min_total (a : list Q) : a ≠ [] → ∃ m, Numpy.min a = Ok m.
Proof. destruct a; [done|]. by eexists. Qed.

(** The potential-energy table, when there is one, and when there is one. *)
Lemma data_to_plot_potential_energy np ui data df :
  data_to_plot np ui data "Potential energy" = Ok df ↔
  ∃ emin,
    Numpy.min (flatten (ds_E data)) = Ok emin
    ∧ length (flatten (ds_E data)) = length (conf data)
    ∧ df = mkDataFrame (length (flatten (ds_E data)))
             [ (Str "Potential energy",
                Num <$> ((fun e => e - emin)%Q <$> flatten (ds_E data)));
               (Str "Conformation", Int <$> conf data) ].
Proof.
  change (data_to_plot np ui data "Potential energy") with
    ((m ← Numpy.min (flatten (ds_E data));
      Pandas.of_dict [("Potential energy",
                       Num <$> ((fun e => e - m)%Q <$> flatten (ds_E data)))])
     ≫= attach_conformation data).
  assert (∀ m, Pandas.of_dict
                 [("Potential energy",
                   Num <$> ((fun e => e - m)%Q <$> flatten (ds_E data)))]
               = Ok (mkDataFrame (length (flatten (ds_E data)))
                       [(Str "Potential energy",
                         Num <$> ((fun e => e - m)%Q <$> flatten (ds_E data)))]))
    as Hdict.
  { intros m. unfold Pandas.of_dict. cbn [forallb snd fst andb].
    by rewrite Nat.eqb_refl, !length_fmap. }
  destruct (Numpy.min (flatten (ds_E data))) as [emin|e] eqn:Hmin; cycle 1.
  { split; [done|]. by intros (emin & [=] & _). }
  cbn [mbind result_bind]. rewrite Hdict. cbn [mbind result_bind].
  assert (length (flatten (ds_E data)) ≠ 0%nat) as Hne
    by (by destruct (flatten (ds_E data))).
  unfold attach_conformation, Pandas.setitem.
  cbn [Pandas.columns df_columns df_len fmap list_fmap fst Pandas.label_in
       existsb negb orb].
  rewrite cell_eqb_Str. change (String.eqb "Conformation" "Potential energy")
    with false. cbn [negb orb].
  rewrite (proj2 (Nat.eqb_neq _ 0) Hne). cbn [andb]. rewrite length_fmap.
  destruct (Nat.eqb_spec (length (conf data)) (length (flatten (ds_E data))))
    as [Hlen|Hlen].
  - cbn [Pandas.set_column]. rewrite cell_eqb_Str.
    change (String.eqb "Conformation" "Potential energy") with false. cbv iota.
    split.
    + intros [= <-]. by exists emin.
    + intros (emin' & [= <-] & _ & ->). done.
  - split; [done|]. intros (emin' & _ & Hlen' & _). congruence.
Qed.

(** Energies minus their minimum: nothing below zero, zero at the lowest. *)
Lemma shifted_energies (E : list Q) (emin : Q) :
  Numpy.min E = Ok emin →
  ∃ m, Numpy.min ((fun e => e - emin)%Q <$> E) = Ok m ∧ (m == 0)%Q
       ∧ (∀ v, In v ((fun e => e - emin)%Q <$> E) → (0 <= v)%Q)
       ∧ (∀ i e, E !! i = Some e → (∀ e', In e' E → (e <= e')%Q) →
            ∃ v, ((fun e => e - emin)%Q <$> E) !! i = Some v ∧ (v == 0)%Q).
Proof.
  intros Hmin. destruct (min_spec _ _ Hmin) as [Hin Hle].
  set (epot := (fun e => e - emin)%Q <$> E).
  assert (epot ≠ []) as Hne by (subst epot; by destruct E).
  destruct (min_total _ Hne) as [m Hm].
  destruct (min_spec _ _ Hm) as [Hin' Hle'].
  assert (∀ v, In v epot → (0 <= v)%Q) as Hpos.
  { intros v Hv. subst epot. apply list_elem_of_In, list_elem_of_fmap in Hv.
    destruct Hv as (e & -> & He). apply list_elem_of_In, Hle in He. lra. }
  exists m. split; [done|]. split; [|split; [done|]].
  - apply Qle_antisym; [|by apply Hpos].
    assert (In (emin - emin)%Q epot) as H0.
    { subst epot. apply list_elem_of_In, list_elem_of_fmap.
      exists emin. split; [done|]. by apply list_elem_of_In. }
    apply Hle' in H0. lra.
  - intros i e Hi Hlow. exists (e - emin)%Q. split.
    + subst epot. by rewrite list_lookup_fmap, Hi.
    + apply Hlow in Hin. apply list_elem_of_lookup_2, list_elem_of_In, Hle in Hi.
      lra.
Qed.

(** C7.  Whenever the potential-energy table is returned, its value column is
    the energies minus their minimum: no entry is negative, the minimum of the
    column is zero, and zero stands at every conformation of lowest energy.
    The table is returned for every dataset with at least one energy and one
    conformation identifier per energy. *)
Theorem potential_energy_min_zero (np : Numpy.Impl) (ui : Sidebar) (data : Dataset) :
  (∀ df, data_to_plot np ui data "Potential energy" = Ok df →
     ∃ emin epot m,
       Numpy.min (flatten (ds_E data)) = Ok emin
       ∧ epot = (fun e => e - emin)%Q <$> flatten (ds_E data)
       ∧ Pandas.get_column (Str "Potential energy") (df_columns df)
           = Some (Num <$> epot)
       ∧ Numpy.min epot = Ok m ∧ (m == 0)%Q
       ∧ (∀ v, In v epot → (0 <= v)%Q)
       ∧ (∀ i e, flatten (ds_E data) !! i = Some e →
            (∀ e', In e' (flatten (ds_E data)) → (e <= e')%Q) →
            ∃ v, epot !! i = Some v ∧ (v == 0)%Q))
  ∧ (flatten (ds_E data) ≠ [] →
     length (flatten (ds_E data)) = length (flatten (ds_CONF data)) →
     ∃ df, data_to_plot np ui data "Potential energy" = Ok df).
Proof.
  split.
  - intros df Hdf.
    apply data_to_plot_potential_energy in Hdf as (emin & Hmin & _ & ->).
    destruct (shifted_energies _ _ Hmin) as (m & Hm & Hzero & Hpos & Hlow).
    by eexists emin, _, m.
  - intros Hne Hlen. destruct (min_total _ Hne) as [emin Hmin].
    eexists. apply data_to_plot_potential_energy. by exists emin.
Qed.

Lemma potential_energy_min_zero_witness :
  ∃ df m,
    data_to_plot Example.np Example.ui Example.data "Potential energy" = Ok df
    ∧ Pandas.get_column (Str "Potential energy") (df_columns df)
        = Some (Num <$> ((fun e => e - (-7 # 2))%Q <$> [-5 # 2; -7 # 2]%Q))
    ∧ Numpy.min ((fun e => e - (-7 # 2))%Q <$> [-5 # 2; -7 # 2]%Q) = Ok m
    ∧ (m == 0)%Q.
Proof.
  destruct (potential_energy_min_zero Example.np Example.ui Example.data)
    as [Hcolumn Hreturns].
  destruct Hreturns as [df Hdf]; [discriminate | reflexivity |].
  destruct (Hcolumn df Hdf) as (emin & epot & m & Hmin & -> & Hcol & Hm & Hzero & _).
  vm_compute in Hmin. injection Hmin as <-.
  by exists df, m.
Defined.

(** ** The property extractor on well-formed datasets *)

Lemma st_radio_In ui label options :
  options ≠ [] → In (st_radio ui label options) options.
Proof.
  intros Hne. unfold st_radio.
  destruct (Nat.lt_ge_cases (radio_index ui label) (length options)) as [Hlt|Hge].
  - by apply nth_In.
  - rewrite nth_overflow by done. destruct options; [done|]. by left.
Qed.

Lemma of_dict_Ok items n :
  Forall (fun kv : string * list cell => length kv.2 = n) items →
  ∃ df, Pandas.of_dict items = Ok df ∧ (items ≠ [] → df_len df = n).
Proof.
  intros Hall. unfold Pandas.of_dict. destruct items as [|[k a] items].
  - eexists. split; [done|]. done.
  - assert (forallb (fun kv : string * list cell => Nat.eqb (length kv.2) (length a))
              ((k, a) :: items) = true) as ->.
    { apply forallb_forall. intros kv Hkv. apply Nat.eqb_eq.
      rewrite Forall_forall in Hall.
      rewrite (Hall kv) by (by apply list_elem_of_In).
      symmetry. apply (Hall (k, a)). left. }
    eexists. split; [done|]. intros _. simpl.
    apply (Forall_inv Hall).
Qed.

Lemma length_flatten_rect {A} (rows : list (list A)) n :
  Forall (fun row => length row = n) rows →
  length (flatten rows) = (length rows * n)%nat.
Proof.
  unfold flatten. induction 1 as [|row rows Hrow _ IH]; simpl; [done|].
  rewrite length_app, IH, Hrow. lia.
Qed.

Lemma reshape_flatten_rect {A} (rows : list (list A)) n :
  Forall (fun row => length row = n) rows →
  reshape (replicate (length rows) n) (flatten rows) = rows.
Proof.
  unfold flatten. induction 1 as [|row rows Hrow _ IH]; simpl; [done|].
  replace (take n (row ++ concat rows)) with row
    by (rewrite <- Hrow; by rewrite take_app_length).
  replace (drop n (row ++ concat rows)) with (concat rows)
    by (rewrite <- Hrow; by rewrite drop_app_length).
  by rewrite IH.
Qed.

Lemma reshape_rows_rect {A} (rows : list (list A)) n :
  n ≠ O → Forall (fun row => length row = n) rows →
  Numpy.reshape_rows n rows = Ok rows.
Proof.
  intros Hn Hrect. unfold Numpy.reshape_rows.
  rewrite (length_flatten_rect rows n Hrect).
  destruct (Nat.eqb_spec n 0) as [|_]; [done|].
  rewrite Nat.Div0.mod_mul, Nat.div_mul by done. simpl.
  by rewrite reshape_flatten_rect.
Qed.

Lemma index_Ok {A} (a : list A) i :
  (i < length a)%nat → ∃ x, index a i = Ok x ∧ a !! i = Some x.
Proof.
  intros Hi. unfold index. destruct (lookup_lt_is_Some_2 a i Hi) as [x Hx].
  exists x. by rewrite Hx.
Qed.

Lemma column_of_Ok {A} (j : nat) (a : list (list A)) :
  Forall (fun row => (j < length row)%nat) a →
  ∃ col, Pandas.column_of j a = Ok col ∧ length col = length a.
Proof.
  intros Hall. unfold Pandas.column_of.
  match goal with
  | |- ∃ col, mapM ?f ?l = _ ∧ _ => destruct (mapM_total f l) as [col Hcol]
  end.
  - eapply Forall_impl; [exact Hall|]. intros row Hrow. simpl in *.
    destruct (lookup_lt_is_Some_2 row j Hrow) as [x ->]. by eexists.
  - exists col. split; [exact Hcol | by eapply mapM_Ok_length].
Qed.

Lemma entry_of_Ok (i j : nat) (a : list (list (list Q))) :
  Forall (fun m => (i < length m)%nat ∧ Forall (fun row => (j < length row)%nat) m) a →
  ∃ col, entry_of i j a = Ok col ∧ length col = length a.
Proof.
  intros Hall. unfold entry_of.
  match goal with
  | |- ∃ col, mapM ?f ?l = _ ∧ _ => destruct (mapM_total f l) as [col Hcol]
  end.
  - eapply Forall_impl; [exact Hall|]. intros m [Hi Hrows]. simpl in *.
    destruct (index_Ok m i Hi) as (row & -> & Hrow). simpl.
    rewrite Forall_forall in Hrows.
    destruct (index_Ok row j) as (x & -> & _); [|by eexists].
    apply Hrows. by eapply list_elem_of_lookup_2.
  - exists col. split; [exact Hcol | by eapply mapM_Ok_length].
Qed.

Lemma z_to_labels_known dataset :
  flatten (ds_Z dataset) ≠ [] →
  Forall (fun z => is_Some (atom_types !! z)) (flatten (ds_Z dataset)) →
  ∃ labels, z_to_labels dataset = Ok (PStr <$> labels)
            ∧ length labels = length (flatten (ds_Z dataset)).
Proof.
  intros Hne Hknown. unfold z_to_labels.
  assert (∀ l, Forall (fun z => is_Some (atom_types !! z)) l →
            ∃ labels, (fun z => PStr (py_str (atom_types_get z))) <$> l
                      = PStr <$> labels ∧ atom_types_get <$> l = PStr <$> labels
                      ∧ length labels = length l) as Hall.
  { induction 1 as [|z l [s Hs] _ (labels & IH1 & IH2 & IH3)].
    - by exists [].
    - exists (s :: labels).
      assert (atom_types_get z = PStr s) as Hz
        by (unfold atom_types_get; by rewrite Hs).
      rewrite !fmap_cons, Hz, IH1, IH2. simpl. by rewrite IH3. }
  destruct (Hall _ Hknown) as (labels & H1 & H2 & H3).
  exists labels. split; [|done].
  destruct (flatten (ds_Z dataset)) as [|z0 l]; [done|].
  unfold np_vectorize. destruct (atom_types_get z0); by rewrite ?H1, ?H2.
Qed.

Lemma well_formed_labels data :
  well_formed data →
  ∃ labels, z_to_labels data = Ok (PStr <$> labels)
            ∧ length labels = length (flatten (ds_Z data)).
Proof.
  intros (_ & Hn & Hknown & _). apply z_to_labels_known; [|done].
  intros E. by rewrite E in Hn.
Qed.

Lemma process_force_data_Ok np ui data :
  well_formed data → ∃ df, process_force_data np ui data data = Ok df
     ∧ df_len df = length (conf data).
Proof.
  intros Hwf. destruct (well_formed_labels data Hwf) as (labels & Hlabels & _).
  destruct Hwf as (HN & Hn & Hknown & _ & _ & _ & _ & [HlenF HF] & _).
  unfold process_force_data. rewrite Hlabels. rsimpl.
  assert (∀ components, Forall (fun j => (j < 3)%nat) components →
     ∃ forces, mapM (mapM (fun atom : list Q => mapM (index atom) components))
                 (ds_F data) = Ok forces ∧ length forces = length (ds_F data))
    as Hsel.
  { intros components Hc.
    match goal with
    | |- ∃ x, mapM ?f ?l = _ ∧ _ => destruct (mapM_total f l) as [forces Hf]
    end.
    - eapply Forall_impl; [exact HF|]. intros c [_ Hatoms]. simpl in *.
      apply mapM_total. eapply Forall_impl; [exact Hatoms|].
      intros atom Hatom. simpl in *. apply mapM_total.
      eapply Forall_impl; [exact Hc|]. intros j Hj. simpl in *.
      destruct (index_Ok atom j) as (x & -> & _); [lia|by eexists].
    - exists forces. split; [done|]. by eapply mapM_Ok_length. }
  assert (fnorm_types.*1 ≠ []) as Hne by (vm_compute; discriminate).
  pose proof (st_radio_In ui "Select component" _ Hne) as Hin. clear Hne.
  remember (st_radio ui "Select component" (fnorm_types.*1)) as sel eqn:E.
  clear E. simpl in Hin.
  destruct Hin as [<-|[<-|[<-|[<-|[]]]]]; eval_dict_get;
    lazymatch goal with
    | |- context [Some ?c] =>
        destruct (Hsel c) as (forces & -> & Hlen);
          [repeat (apply Forall_cons_2; [lia|]); apply Forall_nil_2|]
    end; rsimpl;
    (destruct (of_dict_Ok [("Forces", Num <$> (Numpy.norm_fro np <$> forces));
                            ("Conformation", Int <$> conf data)]
                           (length (conf data)))
       as (df & Hdf & Hdflen);
     [repeat (apply Forall_cons_2; [simpl; rewrite ?length_fmap|]);
        [by rewrite Hlen, HlenF | reflexivity | apply Forall_nil_2]
     | exists df; split; [exact Hdf|by apply Hdflen] ]).
Qed.

Lemma Forall_lt_of_length {A} (rows : list (list A)) (j n : nat) :
  (j < n)%nat → Forall (fun row => length row = n) rows →
  Forall (fun row => (j < length row)%nat) rows.
Proof.
  intros Hj H. eapply Forall_impl; [exact H|]. by intros row ->.
Qed.

Lemma process_dipole_data_Ok np ui data :
  well_formed data → ∃ df, process_dipole_data np ui data data = Ok df
     ∧ df_len df = length (conf data).
Proof.
  intros (HN & _ & _ & _ & _ & _ & _ & _ & [Hlen Hrows] & _).
  unfold process_dipole_data.
  destruct (column_of_Ok 0 (ds_DP data)) as (dx & -> & Hdx);
    [by eapply Forall_lt_of_length; [|exact Hrows]; lia|].
  destruct (column_of_Ok 1 (ds_DP data)) as (dy & -> & Hdy);
    [by eapply Forall_lt_of_length; [|exact Hrows]; lia|].
  destruct (column_of_Ok 2 (ds_DP data)) as (dz & -> & Hdz);
    [by eapply Forall_lt_of_length; [|exact Hrows]; lia|].
  rsimpl.
  match goal with
  | |- ∃ df, Pandas.of_dict ?items = _ ∧ _ =>
      destruct (of_dict_Ok items (length (conf data))) as (df & Hdf & Hdflen)
  end.
  - apply Forall_cons_2; [|apply Forall_cons_2; [|apply Forall_nil_2]];
      cbn [snd]; [|by rewrite length_fmap].
    destruct (dict_get _ _) as [values|] eqn:E; [|by rewrite length_replicate].
    rewrite length_fmap. cbn [dict_get] in E.
    repeat (destruct (String.eqb _ _) in E;
            [injection E as <-; rewrite ?length_fmap; congruence|]).
    discriminate.
  - exists df. split; [done|]. by apply Hdflen.
Qed.

Lemma process_quadrupole_data_Ok np ui data :
  well_formed data → ∃ df, process_quadrupole_data np ui data data = Ok df
     ∧ df_len df = length (conf data).
Proof.
  intros (HN & _ & _ & _ & _ & _ & _ & _ & _ & [Hlen Hrows] & _).
  unfold process_quadrupole_data.
  assert (∀ i j, (i < 3)%nat → (j < 3)%nat →
            ∃ col, entry_of i j (ds_QP data) = Ok col
                   ∧ length col = length (conf data)) as Hentry.
  { intros i j Hi Hj. destruct (entry_of_Ok i j (ds_QP data)) as (col & ? & ?).
    - eapply Forall_impl; [exact Hrows|]. intros m [Hm Hr]. simpl in *.
      split; [lia|]. eapply Forall_impl; [exact Hr|]. intros row ->. done.
    - exists col. split; [done|congruence]. }
  destruct (Hentry 0 0)%nat as (xx & -> & Hxx); [lia..|].
  destruct (Hentry 1 1)%nat as (yy & -> & Hyy); [lia..|].
  destruct (Hentry 2 2)%nat as (zz & -> & Hzz); [lia..|].
  destruct (Hentry 0 1)%nat as (xy & -> & Hxy); [lia..|].
  destruct (Hentry 0 2)%nat as (xz & -> & Hxz); [lia..|].
  destruct (Hentry 1 2)%nat as (yz & -> & Hyz); [lia..|].
  rsimpl.
  match goal with
  | |- ∃ df, Pandas.of_dict ?items = _ ∧ _ =>
      destruct (of_dict_Ok items (length (conf data))) as (df & Hdf & Hdflen)
  end.
  - apply Forall_cons_2; [|apply Forall_cons_2; [|apply Forall_nil_2]];
      cbn [snd]; [|by rewrite length_fmap].
    destruct (dict_get _ _) as [values|] eqn:E; [|by rewrite length_replicate].
    rewrite length_fmap. cbn [dict_get] in E.
    repeat (destruct (String.eqb _ _) in E;
            [injection E as <-; rewrite ?length_fmap; congruence|]).
    discriminate.
  - exists df. split; [done|]. by apply Hdflen.
Qed.

Lemma of_array_Ok (a : list (list Q)) (names : option (list cell)) :
  Forall (fun row => length row = Pandas.shape1 a) a →
  length (default (Int <$> (Z.of_nat <$> seq 0 (Pandas.shape1 a))) names)
    = Pandas.shape1 a →
  ∃ cols,
    Pandas.of_array a names
      = Ok (mkDataFrame (length a)
              (zip (default (Int <$> (Z.of_nat <$> seq 0 (Pandas.shape1 a))) names)
                   ((fun c : list Q => Num <$> c) <$> cols)))
    ∧ length cols = Pandas.shape1 a.
Proof.
  intros Hrect Hlabels. unfold Pandas.of_array. rewrite Hlabels, Nat.eqb_refl.
  cbn [negb].
  destruct (mapM_total (fun j => Pandas.column_of j a) (seq 0 (Pandas.shape1 a)))
    as [cols Hcols].
  - apply Forall_forall. intros j Hj. apply list_elem_of_In, in_seq in Hj.
    destruct (column_of_Ok j a) as (col & ? & _); [|by exists col].
    eapply Forall_lt_of_length; [|exact Hrect]. lia.
  - exists cols. rewrite Hcols. split; [done|].
    apply mapM_Ok_length in Hcols. by rewrite Hcols, length_seq.
Qed.

Lemma melt_Ok df id var value id_data :
  Pandas.get_column (Str id) (df_columns df) = Some id_data →
  ∃ K column values,
    Pandas.melt df id var value
      = Ok (mkDataFrame (df_len df * K)
              [ (Str id, concat (replicate K id_data));
                (Str var, column); (Str value, values) ])
    ∧ K = length (List.filter (fun lv : cell * list cell =>
                                 negb (cell_eqb (Str id) lv.1)) (df_columns df)).
Proof. intros Hid. unfold Pandas.melt. rewrite Hid. by eexists _, _, _. Qed.

Lemma process_polar_data_Ok data :
  well_formed data →
  ∃ df, process_polar_data data data = Ok df
        ∧ Pandas.label_in (Str "Conformation") (Pandas.columns df) = true.
Proof.
  intros (HN & _ & _ & _ & _ & _ & _ & _ & _ & _ & [Hlen Hrows] & _).
  unfold process_polar_data.
  destruct (of_array_Ok (ds_P data) None) as (cols & -> & Hcols);
    [done | by simpl; rewrite !length_fmap, length_seq|].
  rsimpl. rewrite setitem_same_length by (simpl; by rewrite length_fmap).
  rsimpl.
  edestruct melt_Ok as (K & column & values & -> & _);
    [by apply get_set_column|].
  by eexists.
Qed.

Lemma mapM_fmap {A B C} (f : B → result C) (h : A → B) (g : A → C) l :
  (∀ x, f (h x) = Ok (g x)) → mapM f (h <$> l) = Ok (g <$> l).
Proof.
  intros Hf. induction l as [|x l IH]; [done|].
  rewrite !fmap_cons. cbn [mapM]. rewrite Hf, IH. done.
Qed.

Lemma process_mulliken_data_Ok ui data :
  well_formed data →
  ∃ df, process_mulliken_data ui data data = Ok df
        ∧ Pandas.label_in (Str "Conformation") (Pandas.columns df) = true.
Proof.
  intros Hwf. destruct (well_formed_labels data Hwf) as (labels & Hlabels & Hll).
  destruct Hwf as (HN & Hn & _ & _ & _ & _ & [Hlen Hrows] & _).
  assert (Pandas.shape1 (ds_Q data) = length (flatten (ds_Z data))) as Hshape.
  { destruct (ds_Q data) as [|row rows]; [by rewrite <- Hlen in HN|].
    simpl. by apply Forall_inv in Hrows. }
  unfold process_mulliken_data. rewrite Hlabels, Hshape. rsimpl.
  rewrite reshape_rows_rect by done. rsimpl.
  match goal with
  | |- context [mapM ?f (seq ?a ?b)] =>
      destruct (mapM_total f (seq a b)) as [col_names Hcn]
  end.
  { apply Forall_forall. intros i Hi. apply list_elem_of_In, in_seq in Hi.
    destruct (index_Ok (PStr <$> labels) i) as (x & -> & Hx);
      [rewrite length_fmap; lia|].
    rewrite list_lookup_fmap in Hx. destruct (labels !! i); [|done].
    injection Hx as <-. rsimpl. by eexists. }
  rewrite Hcn. rsimpl.
  destruct (of_array_Ok (ds_Q data) (Some (Str <$> col_names))) as (cols & -> & _).
  { by rewrite Hshape. }
  { apply mapM_Ok_length in Hcn.
    simpl. by rewrite length_fmap, Hcn, length_seq. }
  rsimpl. rewrite setitem_same_length by (simpl; by rewrite length_fmap).
  rsimpl.
  edestruct melt_Ok as (K & column & values & -> & _);
    [by apply get_set_column|].
  rsimpl. unfold unique_labels.
  rewrite (mapM_fmap _ PStr id) by done. rsimpl.
  destruct (negb _); [|by eexists]. simpl. by eexists.
Qed.

Lemma attach_conformation_Ok data df0 :
  df_len df0 = length (conf data)
  ∨ Pandas.label_in (Str "Conformation") (Pandas.columns df0) = true →
  ∃ df, attach_conformation data df0 = Ok df.
Proof.
  unfold attach_conformation. intros [Hlen| ->]; [|by eexists].
  destruct (negb _); [|by eexists].
  rewrite setitem_same_length by (by rewrite length_fmap). by eexists.
Qed.

Lemma data_to_plot_unknown np ui data property :
  ¬ In property properties →
  data_to_plot np ui data property = Raise (UnboundLocalError "df").
Proof.
  intros Hnot. unfold data_to_plot.
  repeat match goal with
  | |- context [String.eqb property ?s] =>
      destruct (String.eqb_spec property s) as [->|_];
        [exfalso; apply Hnot; simpl; tauto|]
  end.
  reflexivity.
Qed.

Lemma data_to_plot_known np ui data property :
  well_formed data → In property properties →
  ∃ df, data_to_plot np ui data property = Ok df.
Proof.
  intros Hwf Hin. simpl in Hin.
  destruct Hin as [<-|[<-|[<-|[<-|[<-|[<-|[<-|[<-|[]]]]]]]]].
  - change (data_to_plot np ui data "Potential energy") with
      ((m ← Numpy.min (flatten (ds_E data));
        Pandas.of_dict [("Potential energy",
                         Num <$> ((fun e => e - m)%Q <$> flatten (ds_E data)))])
       ≫= attach_conformation data).
    destruct Hwf as (HN & _ & _ & HE & _).
    destruct (min_total (flatten (ds_E data))) as [m ->].
    { intros E. rewrite E in HE. by rewrite <- HE in HN. }
    rsimpl.
    destruct (of_dict_Ok [("Potential energy",
                Num <$> ((fun e => e - m)%Q <$> flatten (ds_E data)))]
                (length (conf data))) as (df0 & -> & Hlen).
    { apply Forall_cons_2; [|apply Forall_nil_2]. simpl.
      by rewrite !length_fmap. }
    rsimpl. apply attach_conformation_Ok. left. by apply Hlen.
  - change (data_to_plot np ui data "Forces") with
      (process_force_data np ui data data ≫= attach_conformation data).
    destruct (process_force_data_Ok np ui data Hwf) as (df0 & -> & Hlen).
    rsimpl. apply attach_conformation_Ok. by left.
  - change (data_to_plot np ui data "Mulliken charges") with
      (process_mulliken_data ui data data ≫= attach_conformation data).
    destruct (process_mulliken_data_Ok ui data Hwf) as (df0 & -> & Hcol).
    rsimpl. apply attach_conformation_Ok. by right.
  - change (data_to_plot np ui data "Dipole moment") with
      (process_dipole_data np ui data data ≫= attach_conformation data).
    destruct (process_dipole_data_Ok np ui data Hwf) as (df0 & -> & Hlen).
    rsimpl. apply attach_conformation_Ok. by left.
  - change (data_to_plot np ui data "Quadrupole moment") with
      (process_quadrupole_data np ui data data ≫= attach_conformation data).
    destruct (process_quadrupole_data_Ok np ui data Hwf) as (df0 & -> & Hlen).
    rsimpl. apply attach_conformation_Ok. by left.
  - change (data_to_plot np ui data "Polarizability") with
      (process_polar_data data data ≫= attach_conformation data).
    destruct (process_polar_data_Ok data Hwf) as (df0 & -> & Hcol).
    rsimpl. apply attach_conformation_Ok. by right.
  - change (data_to_plot np ui data "HOMO-LUMO gap") with
      ((lumo ← Pandas.column_of 1 (ds_HL data);
        homo ← Pandas.column_of 0 (ds_HL data);
        Pandas.of_dict [("HOMO-LUMO gap", Num <$> zip_with Qminus lumo homo)])
       ≫= attach_conformation data).
    destruct Hwf as (_ & _ & _ & _ & _ & _ & _ & _ & _ & _ & _ & [HlenHL HHL]).
    destruct (column_of_Ok 1 (ds_HL data)) as (lumo & -> & Hlumo);
      [by eapply Forall_lt_of_length; [|exact HHL]; lia|].
    destruct (column_of_Ok 0 (ds_HL data)) as (homo & -> & Hhomo);
      [by eapply Forall_lt_of_length; [|exact HHL]; lia|].
    rsimpl.
    destruct (of_dict_Ok [("HOMO-LUMO gap", Num <$> zip_with Qminus lumo homo)]
                (length (conf data))) as (df0 & -> & Hlen).
    { apply Forall_cons_2; [|apply Forall_nil_2]. simpl.
      rewrite length_fmap, length_zip_with. lia. }
    rsimpl. apply attach_conformation_Ok. left. by apply Hlen.
  - change (data_to_plot np ui data "Electronic spatial extent") with
      (Pandas.of_dict [("Electronic spatial extent", Num <$> flatten (ds_R2 data))]
       ≫= attach_conformation data).
    destruct Hwf as (_ & _ & _ & _ & HR2 & _).
    destruct (of_dict_Ok [("Electronic spatial extent",
                           Num <$> flatten (ds_R2 data))]
                (length (conf data))) as (df0 & -> & Hlen).
    { apply Forall_cons_2; [|apply Forall_nil_2]. simpl.
      by rewrite length_fmap. }
    rsimpl. apply attach_conformation_Ok. left. by apply Hlen.
Qed.

Lemma example_well_formed : well_formed Example.data.
Proof.
  unfold well_formed. cbn.
  repeat split; try discriminate;
    repeat (apply Forall_cons_2 || apply Forall_nil_2 || split || reflexivity
            || (by eexists)).
Qed.

(** C1 (as amended).  The dispatch of [data_to_plot] covers the eight names of
    the property selector.  On a well-formed dataset it returns a table for
    each of them; for every other name, 'Vibrational frequencies' and
    'Electronic + thermal energies' included, no branch assigns the table and
    the function fails on the unbound local. *)
Theorem data_to_plot_dispatch (np : Numpy.Impl) (ui : Sidebar) (data : Dataset)
    (property : string) :
  well_formed data →
  length properties = 8%nat
  ∧ (In property properties → ∃ df, data_to_plot np ui data property = Ok df)
  ∧ (¬ In property properties →
     data_to_plot np ui data property = Raise (UnboundLocalError "df")).
Proof.
  intros Hwf. split; [reflexivity|]. split.
  - by apply data_to_plot_known.
  - apply data_to_plot_unknown.
Qed.

Lemma data_to_plot_dispatch_witness :
  (∃ df, data_to_plot Example.np Example.ui Example.data "Forces" = Ok df)
  ∧ data_to_plot Example.np Example.ui Example.data "Vibrational frequencies"
    = Raise (UnboundLocalError "df").
Proof.
  split.
  - apply (data_to_plot_dispatch Example.np Example.ui Example.data "Forces"
             example_well_formed).
    simpl. tauto.
  - apply (data_to_plot_dispatch Example.np Example.ui Example.data
             "Vibrational frequencies" example_well_formed).
    simpl. intros H. repeat destruct H as [H|H]; try discriminate H. exact H.
Defined.

(** C1 as stated fails: the two names the specification adds to the
    selector's eight are not dispatched. *)
Lemma data_to_plot_dispatch_counterexample :
  well_formed Example.data
  ∧ data_to_plot Example.np Example.ui Example.data "Vibrational frequencies"
    = Raise (UnboundLocalError "df")
  ∧ data_to_plot Example.np Example.ui Example.data "Electronic + thermal energies"
    = Raise (UnboundLocalError "df")
  ∧ data_to_plot Example.np Example.ui Example.data "Electronic + thermal"
    = Raise (UnboundLocalError "df").
Proof. split; [apply example_well_formed|]. repeat split. Qed.

(** ** The conformation column *)

Lemma of_dict_inv items df :
  Pandas.of_dict items = Ok df →
  df_columns df
    = foldl (fun cols (kv : string * list cell) =>
               Pandas.set_column (Str kv.1) kv.2 cols) [] items.
Proof.
  unfold Pandas.of_dict. destruct items as [|[k a] items]; [by intros [= <-]|].
  destruct (forallb _ _); [|done]. by intros [= <-].
Qed.

Lemma setitem_inv df label values df' :
  Pandas.setitem df label values = Ok df' →
  ∃ cols, df_columns df' = Pandas.set_column label values cols
          ∧ cols.*1 = (df_columns df).*1.
Proof.
  unfold Pandas.setitem. destruct (_ && _).
  - intros [= <-]. eexists. split; [done|].
    rewrite <- list_fmap_compose. by apply list_fmap_ext.
  - destruct (Nat.eqb _ _); [|done]. intros [= <-]. by eexists.
Qed.

Lemma set_column_fresh label values cols :
  Forall (fun l => cell_eqb label l = false) (cols.*1) →
  Pandas.set_column label values cols = cols ++ [(label, values)].
Proof.
  induction cols as [|[l v] cols IH]; simpl; [done|].
  intros Hall. apply Forall_cons in Hall as [-> Hall]. by rewrite IH.
Qed.

Lemma filter_fresh label values cols :
  cell_eqb label label = true →
  Forall (fun l => cell_eqb label l = false) (cols.*1) →
  List.filter (fun lv : cell * list cell => negb (cell_eqb label lv.1))
              (cols ++ [(label, values)]) = cols.
Proof.
  intros Hrefl. induction cols as [|[l v] cols IH]; simpl.
  - by rewrite Hrefl.
  - intros Hall. apply Forall_cons in Hall as [-> Hall]. simpl. by rewrite IH.
Qed.

Lemma melt_inv df id var value df' :
  Pandas.melt df id var value = Ok df' →
  ∃ id_data,
    Pandas.get_column (Str id) (df_columns df) = Some id_data
    ∧ Pandas.columns df' = [Str id; Str var; Str value]
    ∧ Pandas.get_column (Str id) (df_columns df')
        = Some (concat (replicate
                  (length (List.filter
                     (fun lv : cell * list cell => negb (cell_eqb (Str id) lv.1))
                     (df_columns df))) id_data)).
Proof.
  unfold Pandas.melt. destruct (Pandas.get_column _ _) as [id_data|]; [|done].
  intros [= <-]. exists id_data. split; [done|]. split; [done|].
  simpl. by rewrite String.eqb_refl.
Qed.

(** Melting a table whose value columns are none called [id], after [id] was
    set: the identifier column is repeated once per value column. *)
Lemma melt_after_setitem df id values df1 var value df2 :
  Forall (fun l => cell_eqb (Str id) l = false) (Pandas.columns df) →
  Pandas.setitem df (Str id) values = Ok df1 →
  Pandas.melt df1 id var value = Ok df2 →
  Pandas.columns df2 = [Str id; Str var; Str value]
  ∧ Pandas.get_column (Str id) (df_columns df2)
      = Some (concat (replicate (length (df_columns df)) values)).
Proof.
  intros Hfresh Hset Hmelt.
  assert (cell_eqb (Str id) (Str id) = true) as Hrefl
    by (simpl; apply String.eqb_refl).
  destruct (setitem_inv _ _ _ _ Hset) as (cols & Hcols & Hlabels).
  destruct (melt_inv _ _ _ _ _ Hmelt) as (id_data & Hid & Hnames & Hcol).
  split; [done|]. rewrite Hcol. unfold Pandas.columns in Hfresh.
  rewrite <- Hlabels in Hfresh.
  rewrite Hcols, set_column_fresh in Hid |- * by done.
  rewrite filter_fresh by done.
  rewrite <- set_column_fresh, get_set_column in Hid by done.
  injection Hid as <-.
  by rewrite <- (length_fmap fst cols), Hlabels, length_fmap.
Qed.

Lemma attach_conformation_inv data df0 df :
  attach_conformation data df0 = Ok df →
  (Pandas.label_in (Str "Conformation") (Pandas.columns df0) = false
   ∧ Pandas.get_column (Str "Conformation") (df_columns df)
       = Some (Int <$> conf data))
  ∨ (Pandas.label_in (Str "Conformation") (Pandas.columns df0) = true ∧ df = df0).
Proof.
  unfold attach_conformation.
  destruct (Pandas.label_in _ _); simpl.
  - intros [= <-]. by right.
  - intros Hset. left. split; [done|]. by eapply setitem_get.
Qed.

Lemma of_array_inv a names df :
  Pandas.of_array a names = Ok df →
  ∃ (labels : list cell) (cols : list (list cell)),
    df_columns df = zip labels cols
    ∧ labels = default (Int <$> (Z.of_nat <$> seq 0 (Pandas.shape1 a))) names
    ∧ length labels = Pandas.shape1 a ∧ length cols = Pandas.shape1 a.
Proof.
  unfold Pandas.of_array.
  destruct (Nat.eqb_spec
              (length (default (Int <$> (Z.of_nat <$> seq 0 (Pandas.shape1 a))) names))
              (Pandas.shape1 a)) as [Hlen|]; [|done].
  cbn [negb]. intros H. invert_binds. injection H as <-. simpl.
  eexists _, _. split; [done|]. split; [done|]. split; [done|].
  apply mapM_Ok_length in Hx. by rewrite length_fmap, Hx, length_seq.
Qed.

Lemma columns_zip (labels : list cell) (cols : list (list cell)) :
  length labels = length cols → (zip labels cols).*1 = labels.
Proof. intros. by apply fst_zip; lia. Qed.

Lemma get_column_filter_rows label df mask :
  Pandas.get_column label (df_columns (Pandas.filter_rows df mask))
    = Pandas.select mask <$> Pandas.get_column label (df_columns df).
Proof.
  unfold Pandas.filter_rows. simpl.
  induction (df_columns df) as [|[l v] cols IH]; simpl; [done|].
  by destruct (cell_eqb label l).
Qed.

Lemma pretty_N_char_digit (x : N) :
  bool_decide (is_Some (PyStr.digit_of (pretty_N_char x))) = true.
Proof. unfold pretty_N_char. by repeat case_match. Qed.

Lemma pretty_N_go_digits (x : N) (s : string) :
  digits_only s = true → digits_only (pretty_N_go x s) = true.
Proof.
  revert s. induction (N.lt_wf_0 x) as [x _ IH]; intros s Hs.
  destruct (decide (x = 0)%N) as [->|Hx]; [by rewrite pretty_N_go_0|].
  rewrite pretty_N_go_step by lia. apply IH.
  - apply N.div_lt; lia.
  - simpl. by rewrite pretty_N_char_digit.
Qed.

Lemma pretty_nat_digits (n : nat) : digits_only (pretty n) = true.
Proof.
  unfold pretty, pretty_nat, pretty, pretty_N. case_decide; [done|].
  by apply pretty_N_go_digits.
Qed.

Lemma np_vectorize_inv (f : Z → pyobj) (a : list Z) out :
  np_vectorize f a = Ok out →
  out = f <$> a ∨ out = (fun z => PStr (py_str (f z))) <$> a.
Proof.
  destruct a as [|z0 a]; [done|]. unfold np_vectorize.
  destruct (f z0); intros [= <-]; [right|left]; reflexivity.
Qed.

Lemma z_to_labels_values dataset labels :
  z_to_labels dataset = Ok labels →
  Forall (fun o => In o [PStr "H"; PStr "C"; PStr "N"; PStr "O"; PNone; PStr "None"])
         labels.
Proof.
  assert (∀ z, In (atom_types_get z)
                 [PStr "H"; PStr "C"; PStr "N"; PStr "O"; PNone]) as Hget.
  { intros z. unfold atom_types_get. rewrite atom_types_lookup.
    repeat case_decide; simpl; tauto. }
  unfold z_to_labels. intros H.
  destruct (np_vectorize_inv _ _ _ H) as [-> | ->];
    apply Forall_fmap, Forall_true; intros z; specialize (Hget z); simpl in *;
    destruct (atom_types_get z); simpl; intuition congruence.
Qed.

Lemma label_plus_fresh label (n : nat) name :
  In label [PStr "H"; PStr "C"; PStr "N"; PStr "O"; PNone; PStr "None"] →
  label_plus label (pretty n) = Ok name →
  cell_eqb (Str "Conformation") (Str name) = false.
Proof.
  intros Hin Hname. rewrite cell_eqb_Str. apply String.eqb_neq. intros E.
  simpl in Hin.
  destruct Hin as [<-|[<-|[<-|[<-|[<-|[<-|[]]]]]]]; cbn [label_plus] in Hname;
    try discriminate Hname; injection Hname as <-;
    cbn [String.app] in E; try discriminate E.
  injection E as E. pose proof (pretty_nat_digits n) as Hd.
  assert (pretty n = "onformation") as E' by (by rewrite E).
  rewrite E' in Hd. vm_compute in Hd. discriminate Hd.
Qed.

Lemma of_dict_with_conformation (name : string) values (ids : list cell) df :
  String.eqb "Conformation" name = false →
  Pandas.of_dict [(name, values); ("Conformation", ids)] = Ok df →
  Pandas.get_column (Str "Conformation") (df_columns df) = Some ids.
Proof.
  intros Hne Hdf. apply of_dict_inv in Hdf. rewrite Hdf.
  cbn [foldl fst snd Pandas.set_column].
  rewrite !cell_eqb_Str, Hne. cbn [Pandas.get_column].
  by rewrite !cell_eqb_Str, Hne, String.eqb_refl.
Qed.

Lemma of_dict_single_columns (name : string) values df :
  Pandas.of_dict [(name, values)] = Ok df → Pandas.columns df = [Str name].
Proof. intros Hdf. apply of_dict_inv in Hdf. unfold Pandas.columns. by rewrite Hdf. Qed.

Lemma process_force_data_conformation np ui data dataset df :
  process_force_data np ui data dataset = Ok df →
  Pandas.get_column (Str "Conformation") (df_columns df) = Some (Int <$> conf data).
Proof.
  unfold process_force_data. intros H. invert_binds.
  cbv zeta in H. destruct (dict_get _ _); [|done]. invert_binds.
  eapply of_dict_with_conformation; [|exact H]. reflexivity.
Qed.

Lemma process_dipole_data_conformation np ui data dataset df :
  process_dipole_data np ui data dataset = Ok df →
  Pandas.get_column (Str "Conformation") (df_columns df) = Some (Int <$> conf data).
Proof.
  unfold process_dipole_data. intros H. invert_binds. cbv zeta in H.
  eapply of_dict_with_conformation; [|exact H]. reflexivity.
Qed.

Lemma process_quadrupole_data_conformation np ui data dataset df :
  process_quadrupole_data np ui data dataset = Ok df →
  Pandas.get_column (Str "Conformation") (df_columns df) = Some (Int <$> conf data).
Proof.
  unfold process_quadrupole_data. intros H. invert_binds. cbv zeta in H.
  eapply of_dict_with_conformation; [|exact H]. reflexivity.
Qed.

Lemma attach_conformation_single data name values df0 df :
  String.eqb "Conformation" name = false →
  Pandas.of_dict [(name, values)] = Ok df0 →
  attach_conformation data df0 = Ok df →
  Pandas.get_column (Str "Conformation") (df_columns df) = Some (Int <$> conf data).
Proof.
  intros Hne Hdf0 Hdf. apply of_dict_single_columns in Hdf0.
  destruct (attach_conformation_inv _ _ _ Hdf) as [[_ ?]|[Hin _]]; [done|].
  rewrite Hdf0 in Hin. unfold Pandas.label_in in Hin. cbn [existsb] in Hin.
  rewrite cell_eqb_Str, Hne in Hin. done.
Qed.

Lemma get_column_label_in label cols values :
  Pandas.get_column label cols = Some values →
  Pandas.label_in label (cols.*1) = true.
Proof.
  induction cols as [|[l c] cols IH]; [done|]. rewrite fmap_cons.
  unfold Pandas.label_in in *. cbn [Pandas.get_column existsb fst].
  destruct (cell_eqb label l); [done|]. exact IH.
Qed.

Lemma attach_conformation_present data df0 df ids :
  Pandas.get_column (Str "Conformation") (df_columns df0) = Some ids →
  attach_conformation data df0 = Ok df → df = df0.
Proof.
  intros Hcol Hdf. apply get_column_label_in in Hcol.
  destruct (attach_conformation_inv _ _ _ Hdf) as [[Hin _]|[_ ?]]; [|done].
  unfold Pandas.columns in Hin. congruence.
Qed.

Lemma data_to_plot_per_conformation np ui data property df :
  In property per_conformation →
  data_to_plot np ui data property = Ok df →
  Pandas.get_column (Str "Conformation") (df_columns df) = Some (Int <$> conf data).
Proof.
  intros Hin. simpl in Hin.
  destruct Hin as [<-|[<-|[<-|[<-|[<-|[<-|[]]]]]]].
  - change (data_to_plot np ui data "Potential energy") with
      ((m ← Numpy.min (flatten (ds_E data));
        Pandas.of_dict [("Potential energy",
                         Num <$> ((fun e => e - m)%Q <$> flatten (ds_E data)))])
       ≫= attach_conformation data).
    intros H. invert_binds.
    eapply attach_conformation_single; [|eassumption|eassumption]; reflexivity.
  - change (data_to_plot np ui data "Forces") with
      (process_force_data np ui data data ≫= attach_conformation data).
    intros H. invert_binds.
    pose proof (process_force_data_conformation _ _ _ _ _ Hx) as Hcol.
    by rewrite (attach_conformation_present _ _ _ _ Hcol H).
  - change (data_to_plot np ui data "Dipole moment") with
      (process_dipole_data np ui data data ≫= attach_conformation data).
    intros H. invert_binds.
    pose proof (process_dipole_data_conformation _ _ _ _ _ Hx) as Hcol.
    by rewrite (attach_conformation_present _ _ _ _ Hcol H).
  - change (data_to_plot np ui data "Quadrupole moment") with
      (process_quadrupole_data np ui data data ≫= attach_conformation data).
    intros H. invert_binds.
    pose proof (process_quadrupole_data_conformation _ _ _ _ _ Hx) as Hcol.
    by rewrite (attach_conformation_present _ _ _ _ Hcol H).
  - change (data_to_plot np ui data "HOMO-LUMO gap") with
      ((lumo ← Pandas.column_of 1 (ds_HL data);
        homo ← Pandas.column_of 0 (ds_HL data);
        Pandas.of_dict [("HOMO-LUMO gap", Num <$> zip_with Qminus lumo homo)])
       ≫= attach_conformation data).
    intros H. invert_binds.
    eapply attach_conformation_single; [|eassumption|eassumption]; reflexivity.
  - change (data_to_plot np ui data "Electronic spatial extent") with
      (Pandas.of_dict [("Electronic spatial extent", Num <$> flatten (ds_R2 data))]
       ≫= attach_conformation data).
    intros H. invert_binds.
    eapply attach_conformation_single; [|eassumption|eassumption]; reflexivity.
Qed.

Lemma process_polar_data_conformation data dataset df :
  process_polar_data data dataset = Ok df →
  Pandas.get_column (Str "Conformation") (df_columns df)
    = Some (concat (replicate (Pandas.shape1 (ds_P dataset)) (Int <$> conf data))).
Proof.
  unfold process_polar_data. intros H. invert_binds.
  destruct (of_array_inv _ _ _ Hx) as (labels & cols & Hcols & -> & Hl & Hc).
  edestruct melt_after_setitem as [_ ->]; [|exact Hx0|exact H|].
  - unfold Pandas.columns. rewrite Hcols, columns_zip by congruence.
    simpl. by apply Forall_fmap, Forall_true.
  - by rewrite Hcols, length_zip, Hl, Hc, Nat.min_id.
Qed.

Lemma process_mulliken_data_conformation ui data dataset df :
  process_mulliken_data ui data dataset = Ok df →
  ∃ labels uniq column,
    z_to_labels dataset = Ok labels
    ∧ unique_labels labels = Ok uniq
    ∧ Pandas.get_column (Str "Conformation") (df_columns df)
      = Some (mulliken_rows (st_radio ui "Atom type filter" ("None" :: uniq))
                column
                (concat (replicate (Pandas.shape1 (ds_Q dataset))
                                   (Int <$> conf data)))).
Proof.
  unfold process_mulliken_data. intros H. invert_binds.
  rename x into labels, x0 into atom_charges, x1 into col_names,
         x2 into df1, x3 into df2, x4 into df3, x5 into uniq.
  destruct (of_array_inv _ _ _ Hx2) as (names & cols & Hcols & -> & Hl & Hc).
  simpl in Hl. rewrite length_fmap in Hl.
  pose proof (mapM_Ok_length _ _ _ Hx1) as Hn. rewrite length_seq in Hn.
  assert (Pandas.get_column (Str "Conformation") (df_columns df3)
          = Some (concat (replicate (Pandas.shape1 (ds_Q dataset))
                                    (Int <$> conf data)))) as Hcol.
  { edestruct melt_after_setitem as [_ ->]; [|exact Hx3|exact Hx4|];
      [|rewrite Hcols, length_zip; simpl; rewrite length_fmap;
        by replace (length col_names `min` length cols)%nat
             with (Pandas.shape1 (ds_Q dataset)) by lia].
    unfold Pandas.columns. rewrite Hcols, columns_zip
        by (simpl; rewrite length_fmap; lia).
      simpl. apply Forall_fmap, Forall_forall. intros name Hname.
      apply list_elem_of_lookup in Hname as [i Hi].
      assert (i < length (seq 0 (Pandas.shape1 (ds_Q dataset))))%nat as Hlt
        by (rewrite length_seq, <- Hn; by eapply lookup_lt_Some).
      destruct (lookup_lt_is_Some_2 _ _ Hlt) as [j Hj].
      destruct (mapM_Ok_lookup _ _ _ _ _ Hx1 Hj) as (name' & Hi' & Hplus).
      rewrite Hi in Hi'. injection Hi' as <-.
      apply bind_Ok in Hplus as (label & Hlabel & Hplus).
      eapply label_plus_fresh; [|exact Hplus].
      unfold index in Hlabel. destruct (labels !! j) as [o|] eqn:Ho; [|done].
      injection Hlabel as <-.
      pose proof (z_to_labels_values _ _ Hx) as Hvals.
    rewrite Forall_forall in Hvals. apply Hvals. by eapply list_elem_of_lookup_2. }
  exists labels, uniq. unfold mulliken_rows.
  destruct (String.eqb _ "None"); cbn [negb] in H.
  - injection H as <-. by exists [].
  - destruct (Pandas.get_column (Str "atom_labels") _) as [column|]; [|done].
    injection H as <-. exists column.
    by rewrite get_column_filter_rows, Hcol.
Qed.

Lemma build_ic_dataframe_conformation ase data dataset selected_coords df :
  build_ic_dataframe ase data dataset selected_coords = Ok df →
  Pandas.get_column (Str "Conformation") (df_columns df) = Some (Int <$> conf data).
Proof.
  unfold build_ic_dataframe. intros H. invert_binds. by eapply setitem_get.
Qed.

(** Melted tables: the layout that lines 96-100 and 141-145 produce. *)

Lemma lookup_concat_uniform {A} (ls : list (list A)) (n j i : nat) (l : list A) :
  Forall (fun l => length l = n) ls → ls !! j = Some l → (i < n)%nat →
  concat ls !! (j * n + i)%nat = l !! i.
Proof.
  intros Hall. revert j. induction Hall as [|l0 ls Hl0 _ IH]; intros j; [done|].
  destruct j as [|j]; simpl.
  - intros [= ->] Hi. by rewrite lookup_app_l by lia.
  - intros Hj Hi. rewrite lookup_app_r by lia.
    replace (n + j * n + i - length l0)%nat with (j * n + i)%nat by lia.
    by apply IH.
Qed.

(** A two-dimensional array turned into a table, the conformation column
    added, and the table melted: what lines 96-100, 141-145, 151-155 and
    164-168 produce. *)
Lemma long_form a names ids (var value : string) df1 df2 df3 :
  Forall (fun l => cell_eqb (Str "Conformation") l = false)
         (default (Int <$> (Z.of_nat <$> seq 0 (Pandas.shape1 a))) names) →
  Pandas.of_array a names = Ok df1 →
  Pandas.setitem df1 (Str "Conformation") ids = Ok df2 →
  Pandas.melt df2 "Conformation" var value = Ok df3 →
  ∃ cols,
    mapM (fun j => Pandas.column_of j a) (seq 0 (Pandas.shape1 a)) = Ok cols
    ∧ (Pandas.shape1 a ≠ 0%nat → length a = length ids)
    ∧ df3 = mkDataFrame (length ids * Pandas.shape1 a)
        [ (Str "Conformation", concat (replicate (Pandas.shape1 a) ids));
          (Str var,
           concat ((fun l => replicate (length ids) l)
                     <$> default (Int <$> (Z.of_nat <$> seq 0 (Pandas.shape1 a)))
                           names));
          (Str value, concat ((fun c : list Q => Num <$> c) <$> cols)) ].
Proof.
  set (K := Pandas.shape1 a).
  set (labels := default (Int <$> (Z.of_nat <$> seq 0 K)) names).
  intros Hfresh Harr Hset Hmelt.
  unfold Pandas.of_array in Harr. fold K labels in Harr.
  destruct (Nat.eqb_spec (length labels) K) as [Hlabels|]; [|done].
  cbn [negb] in Harr. apply bind_Ok in Harr as (cols & Hcols & Harr).
  apply Ok_inj in Harr as <-.
  exists cols. split; [done|].
  pose proof (mapM_Ok_length _ _ _ Hcols) as Hlen. rewrite length_seq in Hlen.
  set (cols1 := zip labels ((fun c : list Q => Num <$> c) <$> cols)) in *.
  assert (cols1.*1 = labels) as Hfst
    by (apply fst_zip; rewrite length_fmap; lia).
  assert (cols1.*2 = (fun c : list Q => Num <$> c) <$> cols) as Hsnd
    by (apply snd_zip; rewrite length_fmap; lia).
  assert (length cols1 = K) as HK
    by (rewrite <- (length_fmap fst), Hfst; done).
  assert (df2 = mkDataFrame (length ids) (cols1 ++ [(Str "Conformation", ids)])
          ∧ (K ≠ 0%nat → length a = length ids)) as [-> Hrows].
  { unfold Pandas.setitem in Hset. cbn [df_len df_columns] in Hset.
    destruct (Nat.eqb_spec (length a) 0) as [Ha|Ha];
      destruct (Nat.eqb_spec (length ids) 0) as [Hi|Hi]; cbn [andb negb] in Hset.
    - rewrite Ha, Hi in Hset. cbn [Nat.eqb] in Hset.
      rewrite set_column_fresh in Hset by (by rewrite Hfst).
      apply Ok_inj in Hset as <-. rewrite Hi. split; [done|]. lia.
    - assert (cols1 = []) as Hnil.
      { apply length_zero_iff_nil. rewrite HK. unfold K.
        by destruct a. }
      rewrite Hnil in Hset |- *. cbn in Hset. apply Ok_inj in Hset as <-.
      split; [done|]. rewrite Hnil in HK. simpl in HK. congruence.
    - destruct (Nat.eqb_spec (length ids) (length a)) as [He|]; [|done].
      rewrite set_column_fresh in Hset by (by rewrite Hfst).
      apply Ok_inj in Hset as <-. rewrite He. done.
    - destruct (Nat.eqb_spec (length ids) (length a)) as [He|]; [|done].
      rewrite set_column_fresh in Hset by (by rewrite Hfst).
      apply Ok_inj in Hset as <-. rewrite He. done. }
  split; [done|].
  assert (cell_eqb (Str "Conformation") (Str "Conformation") = true) as Hrefl
    by done.
  unfold Pandas.melt in Hmelt. cbn [df_len df_columns] in Hmelt.
  rewrite <- (set_column_fresh (Str "Conformation") ids cols1) in Hmelt at 1
    by (by rewrite Hfst).
  rewrite get_set_column in Hmelt by done.
  rewrite filter_fresh in Hmelt by (by rewrite ?Hfst).
  apply Ok_inj in Hmelt as <-. rewrite HK, Hsnd. repeat f_equal.
  rewrite <- Hfst, <- list_fmap_compose. done.
Qed.

Lemma get_column_long (id var value : string) (ci cv cx : list cell) :
  id ≠ var → id ≠ value → var ≠ value →
  let cols := [(Str id, ci); (Str var, cv); (Str value, cx)] in
  Pandas.get_column (Str id) cols = Some ci
  ∧ Pandas.get_column (Str var) cols = Some cv
  ∧ Pandas.get_column (Str value) cols = Some cx.
Proof.
  intros H1 H2 H3. cbn [Pandas.get_column]. rewrite !cell_eqb_Str.
  rewrite !String.eqb_refl.
  rewrite (proj2 (String.eqb_neq var id)) by congruence.
  rewrite (proj2 (String.eqb_neq value id)) by congruence.
  rewrite (proj2 (String.eqb_neq value var)) by congruence.
  done.
Qed.

Lemma column_of_lookup {A} (j : nat) (a : list (list A)) col i row :
  Pandas.column_of j a = Ok col → a !! i = Some row →
  ∃ x, row !! j = Some x ∧ col !! i = Some x.
Proof.
  intros Hcol Hrow. unfold Pandas.column_of in Hcol.
  destruct (mapM_Ok_lookup _ _ _ _ _ Hcol Hrow) as (x & Hx & Hj).
  exists x. split; [|done]. destruct (row !! j); [|done]. congruence.
Qed.

(** The columns of a two-dimensional array, read as the rows are. *)
Lemma columns_lookup (a : list (list Q)) cols i j row :
  mapM (fun j => Pandas.column_of j a) (seq 0 (Pandas.shape1 a)) = Ok cols →
  a !! i = Some row → (j < Pandas.shape1 a)%nat →
  ∃ col x, cols !! j = Some col ∧ length col = length a
           ∧ row !! j = Some x ∧ col !! i = Some x.
Proof.
  intros Hcols Hrow Hj.
  assert (seq 0 (Pandas.shape1 a) !! j = Some j) as Hseq
    by (by apply lookup_seq).
  destruct (mapM_Ok_lookup _ _ _ _ _ Hcols Hseq) as (col & Hcol & Hcolumn).
  destruct (column_of_lookup _ _ _ _ _ Hcolumn Hrow) as (x & Hx & Hi).
  exists col, x. split; [done|]. split; [|done].
  by apply mapM_Ok_length in Hcolumn.
Qed.

Lemma columns_length (a : list (list Q)) cols :
  mapM (fun j => Pandas.column_of j a) (seq 0 (Pandas.shape1 a)) = Ok cols →
  length cols = Pandas.shape1 a ∧ Forall (fun c => length c = length a) cols.
Proof.
  intros Hcols. split.
  - apply mapM_Ok_length in Hcols. by rewrite length_seq in Hcols.
  - apply Forall_forall. intros col Hcol.
    apply list_elem_of_lookup in Hcol as [j Hj].
    assert (j < length (seq 0 (Pandas.shape1 a)))%nat as Hlt.
    { apply mapM_Ok_length in Hcols. rewrite <- Hcols. by eapply lookup_lt_Some. }
    destruct (lookup_lt_is_Some_2 _ _ Hlt) as [j' Hj'].
    destruct (mapM_Ok_lookup _ _ _ _ _ Hcols Hj') as (col' & Hcol' & Hcolumn).
    rewrite Hj in Hcol'. injection Hcol' as <-.
    by apply mapM_Ok_length in Hcolumn.
Qed.

(** The charge table before the atom-type filter, and the filter. *)
Lemma process_mulliken_data_table ui data dataset df :
  process_mulliken_data ui data dataset = Ok df →
  ∃ labels atom_charges col_names cols uniq,
    z_to_labels dataset = Ok labels
    ∧ Numpy.reshape_rows (Pandas.shape1 (ds_Q dataset)) (ds_Q dataset)
      = Ok atom_charges
    ∧ mapM (fun i => label ← index labels i;
                     label_plus label (pretty (i + 1)%nat))
           (seq 0 (Pandas.shape1 (ds_Q dataset))) = Ok col_names
    ∧ Pandas.shape1 atom_charges = Pandas.shape1 (ds_Q dataset)
    ∧ mapM (fun j => Pandas.column_of j atom_charges)
           (seq 0 (Pandas.shape1 atom_charges)) = Ok cols
    ∧ length atom_charges = length (conf data)
    ∧ unique_labels labels = Ok uniq
    ∧ df = (let full :=
              mkDataFrame (length (conf data) * Pandas.shape1 (ds_Q dataset))
                [ (Str "Conformation",
                   concat (replicate (Pandas.shape1 (ds_Q dataset))
                                     (Int <$> conf data)));
                  (Str "atom_labels",
                   concat ((fun l => replicate (length (conf data)) l)
                             <$> (Str <$> col_names)));
                  (Str "Mulliken charges",
                   concat ((fun c : list Q => Num <$> c) <$> cols)) ] in
            let choice := st_radio ui "Atom type filter" ("None" :: uniq) in
            if String.eqb choice "None" then full
            else Pandas.filter_rows full
                   (str_contains choice
                      (concat ((fun l => replicate (length (conf data)) l)
                                 <$> (Str <$> col_names))))).
Proof.
  unfold process_mulliken_data. intros H.
  apply bind_Ok in H as (labels & Hlabels & H).
  apply bind_Ok in H as (atom_charges & Hcharges & H).
  apply bind_Ok in H as (col_names & Hnames & H).
  apply bind_Ok in H as (df1 & H1 & H).
  apply bind_Ok in H as (df2 & H2 & H).
  apply bind_Ok in H as (df3 & H3 & H).
  apply bind_Ok in H as (uniq & Huniq & H).
  pose proof (mapM_Ok_length _ _ _ Hnames) as Hn. rewrite length_seq in Hn.
  destruct (of_array_inv _ _ _ H1) as (names & cols0 & _ & Hdef & Hl & _).
  subst names. simpl in Hl. rewrite length_fmap, Hn in Hl.
  assert (Forall (fun l => cell_eqb (Str "Conformation") l = false)
            (default (Int <$> (Z.of_nat <$> seq 0 (Pandas.shape1 atom_charges)))
                     (Some (Str <$> col_names)))) as Hfresh.
  { simpl. apply Forall_fmap, Forall_forall. intros name Hname.
    apply list_elem_of_lookup in Hname as [i Hi].
    assert (i < length (seq 0 (Pandas.shape1 (ds_Q dataset))))%nat as Hlt
      by (rewrite length_seq, <- Hn; by eapply lookup_lt_Some).
    destruct (lookup_lt_is_Some_2 _ _ Hlt) as [j Hj].
    destruct (mapM_Ok_lookup _ _ _ _ _ Hnames Hj) as (name' & Hi' & Hplus).
    rewrite Hi in Hi'. injection Hi' as <-.
    apply bind_Ok in Hplus as (label & Hlabel & Hplus).
    eapply label_plus_fresh; [|exact Hplus].
    unfold index in Hlabel. destruct (labels !! j) as [o|] eqn:Ho; [|done].
    injection Hlabel as <-.
    pose proof (z_to_labels_values _ _ Hlabels) as Hvals.
    rewrite Forall_forall in Hvals. apply Hvals. by eapply list_elem_of_lookup_2. }
  destruct (long_form _ _ _ _ _ _ _ _ Hfresh H1 H2 H3)
    as (cols & Hcols & Hrows & ->).
  rewrite length_fmap in *. cbn [from_option id] in *.
  assert (length atom_charges = length (conf data)) as Hlen.
  { destruct (decide (Pandas.shape1 atom_charges = 0%nat)) as [Hz|Hnz];
      [|by apply Hrows].
    rewrite Hl, Hz in Hcharges. unfold Numpy.reshape_rows in Hcharges.
    discriminate Hcharges. }
  exists labels, atom_charges, col_names, cols, uniq.
  repeat (split; [done|]). cbv zeta. rewrite <- Hl in H.
  destruct (String.eqb _ "None"); cbn [negb] in H.
  - by apply Ok_inj in H as <-.
  - destruct (get_column_long "Conformation" "atom_labels" "Mulliken charges"
                (concat (replicate (Pandas.shape1 (ds_Q dataset))
                                   (Int <$> conf data)))
                (concat ((fun l => replicate (length (conf data)) l)
                           <$> (Str <$> col_names)))
                (concat ((fun c : list Q => Num <$> c) <$> cols)))
      as (_ & Hvar & _); [done..|].
    cbn [df_columns] in H. rewrite Hvar in H. by apply Ok_inj in H as <-.
Qed.

(** The names of the charge columns: the label of each atom followed by its
    one-based position, one name per column of Q. *)
Lemma mulliken_names_lookup (labels : list pyobj) (n : nat) (col_names : list string) :
  mapM (fun i => label ← index labels i; label_plus label (pretty (i + 1)%nat))
       (seq 0 n) = Ok col_names →
  length col_names = n
  ∧ ∀ j name, col_names !! j = Some name →
      ∃ s, labels !! j = Some (PStr s) ∧ name = s +:+ pretty (j + 1)%nat.
Proof.
  intros Hnames. pose proof (mapM_Ok_length _ _ _ Hnames) as Hn.
  rewrite length_seq in Hn. split; [done|]. intros j name Hj.
  assert (seq 0 n !! j = Some j) as Hseq
    by (apply lookup_seq; split; [done|]; rewrite <- Hn; by eapply lookup_lt_Some).
  destruct (mapM_Ok_lookup _ _ _ _ _ Hnames Hseq) as (name' & Hj' & Hplus).
  rewrite Hj in Hj'. apply (inj Some) in Hj' as <-.
  apply bind_Ok in Hplus as (label & Hlabel & Hplus).
  unfold index in Hlabel. destruct (labels !! j) as [o|]; [|done].
  apply Ok_inj in Hlabel as ->.
  destruct label as [s|]; [|done]. apply Ok_inj in Hplus as <-. by exists s.
Qed.

(** C6 (as amended).  Whenever a table is returned, its conformation column
    is the dataset's CONF field flattened, in order, for the six properties
    with one row per conformation and for [build_ic_dataframe].  The tables of
    'Polarizability' and 'Mulliken charges' are in long form: their
    conformation column is the flattened CONF field repeated once per tensor
    component, respectively once per atom.  With an atom type picked, the
    charge table keeps the rows whose atom label contains the picked symbol,
    and its conformation column is cut down to these rows; the atom label of a
    row is the label of its atom (the atoms in order, each for all the
    conformations) followed by the one-based position of the atom. *)
Theorem conformation_column (np : Numpy.Impl) (ui : Sidebar) (ase : Ase.Impl)
    (data : Dataset) :
  (∀ property df,
      In property per_conformation →
      data_to_plot np ui data property = Ok df →
      Pandas.get_column (Str "Conformation") (df_columns df)
        = Some (Int <$> flatten (ds_CONF data)))
  ∧ (∀ dataset selected_coords df,
      build_ic_dataframe ase data dataset selected_coords = Ok df →
      Pandas.get_column (Str "Conformation") (df_columns df)
        = Some (Int <$> flatten (ds_CONF data)))
  ∧ (∀ df,
      data_to_plot np ui data "Polarizability" = Ok df →
      Pandas.get_column (Str "Conformation") (df_columns df)
        = Some (concat (replicate (Pandas.shape1 (ds_P data))
                                  (Int <$> flatten (ds_CONF data)))))
  ∧ (∀ df,
      data_to_plot np ui data "Mulliken charges" = Ok df →
      ∃ labels uniq col_names,
        z_to_labels data = Ok labels
        ∧ unique_labels labels = Ok uniq
        ∧ length col_names = Pandas.shape1 (ds_Q data)
        ∧ (∀ j name, col_names !! j = Some name →
             ∃ s, labels !! j = Some (PStr s) ∧ name = s +:+ pretty (j + 1)%nat)
        ∧ let choice := st_radio ui "Atom type filter" ("None" :: uniq) in
          let atom_labels :=
            concat ((fun name => replicate (length (flatten (ds_CONF data)))
                                           (Str name)) <$> col_names) in
          Pandas.get_column (Str "atom_labels") (df_columns df)
            = Some (mulliken_rows choice atom_labels atom_labels)
          ∧ Pandas.get_column (Str "Conformation") (df_columns df)
            = Some (mulliken_rows choice atom_labels
                      (concat (replicate (Pandas.shape1 (ds_Q data))
                                         (Int <$> flatten (ds_CONF data)))))).
Proof.
  split; [|split; [|split]].
  - intros property df. apply data_to_plot_per_conformation.
  - intros dataset selected_coords df. apply build_ic_dataframe_conformation.
  - intros df.
    change (data_to_plot np ui data "Polarizability") with
      (process_polar_data data data ≫= attach_conformation data).
    intros H. invert_binds.
    pose proof (process_polar_data_conformation _ _ _ Hx) as Hcol.
    by rewrite (attach_conformation_present _ _ _ _ Hcol H).
  - intros df.
    change (data_to_plot np ui data "Mulliken charges") with
      (process_mulliken_data ui data data ≫= attach_conformation data).
    intros H. apply bind_Ok in H as (df0 & H0 & Hattach).
    destruct (process_mulliken_data_conformation _ _ _ _ H0)
      as (? & ? & ? & _ & _ & Hconf).
    apply (attach_conformation_present _ _ _ _ Hconf) in Hattach as ->.
    clear Hconf.
    destruct (process_mulliken_data_table _ _ _ _ H0)
      as (labels & atom_charges & col_names & cols & uniq
          & Hlabels & _ & Hnames & _ & _ & _ & Huniq & ->).
    destruct (mulliken_names_lookup _ _ _ Hnames) as [Hlen Hname].
    exists labels, uniq, col_names. do 4 (split; [done|]).
    cbv zeta. fold (conf data). rewrite <- list_fmap_compose.
    change ((λ l : cell, replicate (length (conf data)) l) ∘ Str)
      with (fun name : string => replicate (length (conf data)) (Str name)).
    unfold mulliken_rows.
    destruct (String.eqb _ "None").
    + cbn [df_columns].
      match goal with
      | |- context [[(Str "Conformation", ?ci); (Str "atom_labels", ?cv);
                     (Str "Mulliken charges", ?cx)]] =>
          destruct (get_column_long "Conformation" "atom_labels" "Mulliken charges"
                      ci cv cx) as (-> & -> & _); [done..|]
      end.
      done.
    + rewrite !get_column_filter_rows. cbn [df_columns].
      match goal with
      | |- context [[(Str "Conformation", ?ci); (Str "atom_labels", ?cv);
                     (Str "Mulliken charges", ?cx)]] =>
          destruct (get_column_long "Conformation" "atom_labels" "Mulliken charges"
                      ci cv cx) as (-> & -> & _); [done..|]
      end.
      done.
Qed.

(** With hydrogen picked for the molecule H, C, N, O and the conformations 4
    and 7: the labels are H1, C2, N3, O4, each twice, the rows of H1 are kept,
    and the conformation column is 4, 7. *)
Lemma conformation_column_witness :
  (∃ df, data_to_plot Example.np Example.ui Example.data "Forces" = Ok df
         ∧ Pandas.get_column (Str "Conformation") (df_columns df)
             = Some [Int 4; Int 7])
  ∧ (∃ df, build_ic_dataframe Example.ase Example.data Example.data
             ["1,0,2,3"; "0,1"] = Ok df
           ∧ Pandas.get_column (Str "Conformation") (df_columns df)
               = Some [Int 4; Int 7])
  ∧ (∃ df, data_to_plot Example.np Example.ui Example.data "Polarizability" = Ok df
           ∧ Pandas.get_column (Str "Conformation") (df_columns df)
               = Some [Int 4; Int 7; Int 4; Int 7])
  ∧ (∃ df,
       data_to_plot Example.np (mkSidebar (fun _ => 2%nat)) Example.data
         "Mulliken charges" = Ok df
       ∧ Pandas.get_column (Str "atom_labels") (df_columns df)
           = Some [Str "H1"; Str "H1"]
       ∧ Pandas.get_column (Str "Conformation") (df_columns df)
           = Some [Int 4; Int 7]).
Proof.
  destruct (conformation_column Example.np Example.ui Example.ase Example.data)
    as (Hper & Hic & Hpolar & _).
  destruct (conformation_column Example.np (mkSidebar (fun _ => 2%nat))
              Example.ase Example.data) as (_ & _ & _ & Hmulliken).
  split; [|split; [|split]].
  - eexists. split; [vm_compute; reflexivity|].
    apply (Hper "Forces"); [simpl; tauto | vm_compute; reflexivity].
  - eexists. split; [vm_compute; reflexivity|].
    apply (Hic Example.data ["1,0,2,3"; "0,1"]). vm_compute; reflexivity.
  - eexists. split; [vm_compute; reflexivity|].
    apply Hpolar. vm_compute; reflexivity.
  - eexists. split; [vm_compute; reflexivity|].
    edestruct Hmulliken
      as (labels & uniq & col_names & Hlabels & Huniq & Hlen & Hnames & Hrows);
      [vm_compute; reflexivity|].
    vm_compute in Hlabels. apply Ok_inj in Hlabels as <-.
    vm_compute in Huniq. apply Ok_inj in Huniq as <-.
    assert (col_names = ["H1"; "C2"; "N3"; "O4"]) as ->.
    { destruct col_names as [|n1 [|n2 [|n3 [|n4 [|n5 rest]]]]]; try discriminate Hlen.
      destruct (Hnames 0%nat n1 eq_refl) as (s1 & H1 & ->).
      destruct (Hnames 1%nat n2 eq_refl) as (s2 & H2 & ->).
      destruct (Hnames 2%nat n3 eq_refl) as (s3 & H3 & ->).
      destruct (Hnames 3%nat n4 eq_refl) as (s4 & H4 & ->).
      vm_compute in H1, H2, H3, H4.
      injection H1 as <-. injection H2 as <-. injection H3 as <-.
      injection H4 as <-. reflexivity. }
    cbv zeta in Hrows. destruct Hrows as [Hlab Hconf]. split.
    + rewrite Hlab. vm_compute. reflexivity.
    + rewrite Hconf. vm_compute. reflexivity.
Defined.

(** C6 as stated fails for the long-form tables: with two conformations and
    two polarizability components the conformation column has four entries,
    CONF twice over. *)
Lemma conformation_column_counterexample :
  Int <$> flatten (ds_CONF Example.data) = [Int 4; Int 7]
  ∧ ∃ df, data_to_plot Example.np Example.ui Example.data "Polarizability" = Ok df
          ∧ Pandas.get_column (Str "Conformation") (df_columns df)
              = Some [Int 4; Int 7; Int 4; Int 7].
Proof.
  split; [reflexivity|]. eexists. split; vm_compute; reflexivity.
Qed.

(** ** binary64 arithmetic *)

Section Float64Facts.

Local Open Scope Q_scope.

Lemma pow2_pos (e : Z) : 0 < Float64.pow2 e.
Proof. apply Qpower_0_lt. reflexivity. Qed.

Lemma pow2_add (a b : Z) :
  Float64.pow2 (a + b) == Float64.pow2 a * Float64.pow2 b.
Proof. apply Qpower_plus. discriminate. Qed.

Lemma pow2_succ (e : Z) : Float64.pow2 (e + 1) == 2 * Float64.pow2 e.
Proof. rewrite pow2_add. change (Float64.pow2 1) with 2. ring. Qed.

Lemma pow2_le (a b : Z) : (a <= b)%Z → Float64.pow2 a <= Float64.pow2 b.
Proof. intros H. apply Qpower_le_compat_l; [done|discriminate]. Qed.

Lemma pow2_lt (a b : Z) : (a < b)%Z → Float64.pow2 a < Float64.pow2 b.
Proof. intros H. apply Qpower_lt_compat_l; [done|reflexivity]. Qed.

Lemma pow2_lt_inv (a b : Z) : Float64.pow2 a < Float64.pow2 b → (a < b)%Z.
Proof. intros H. eapply Qpower_lt_compat_l_inv; [exact H|reflexivity]. Qed.

Lemma pow2_Z (n : Z) : (0 <= n)%Z → Float64.pow2 n == inject_Z (2 ^ n).
Proof. intros H. unfold Float64.pow2. by rewrite Zpower_Qpower. Qed.

(** A positive rational lies in the binade its logarithm names. *)
Lemma ilog2_spec (x : Q) :
  0 < x →
  Float64.pow2 (Float64.ilog2 x) <= x ∧ x < Float64.pow2 (Float64.ilog2 x + 1).
Proof.
  intros Hx. unfold Float64.ilog2.
  set (a := Z.log2 (Qnum x)). set (b := Z.log2 (Zpos (Qden x))).
  assert (0 < Qnum x)%Z as Hn.
  { destruct x as [n d]. unfold Qlt in Hx. simpl in *. lia. }
  destruct (Z.log2_spec (Qnum x) Hn) as [Ha1 Ha2]. fold a in Ha1, Ha2.
  destruct (Z.log2_spec (Zpos (Qden x))) as [Hb1 Hb2]; [done|]. fold b in Hb1, Hb2.
  assert (0 <= a)%Z as Ha0 by apply Z.log2_nonneg.
  assert (0 <= b)%Z as Hb0 by apply Z.log2_nonneg.
  assert (x == inject_Z (Qnum x) / inject_Z (Zpos (Qden x))) as Hq
    by (destruct x; apply Qmake_Qdiv).
  assert (Float64.pow2 a <= inject_Z (Qnum x)) as HA1
    by (rewrite pow2_Z by done; by rewrite <- Zle_Qle).
  assert (inject_Z (Qnum x) < Float64.pow2 (a + 1)) as HA2
    by (rewrite pow2_Z by lia; by rewrite <- Zlt_Qlt).
  assert (Float64.pow2 b <= inject_Z (Zpos (Qden x))) as HB1
    by (rewrite pow2_Z by done; by rewrite <- Zle_Qle).
  assert (inject_Z (Zpos (Qden x)) < Float64.pow2 (b + 1)) as HB2
    by (rewrite pow2_Z by lia; by rewrite <- Zlt_Qlt).
  rewrite pow2_succ in HA2, HB2.
  set (N := inject_Z (Qnum x)) in *. set (D := inject_Z (Zpos (Qden x))) in *.
  assert (0 < D) as HD by (unfold D; by rewrite <- (Zlt_Qlt 0)).
  assert (Float64.pow2 a == Float64.pow2 (a - b) * Float64.pow2 b) as HAB
    by (rewrite <- pow2_add; by replace (a - b + b)%Z with a by lia).
  pose proof (pow2_pos b) as HB0. pose proof (pow2_pos (a - b)) as HL0.
  set (A := Float64.pow2 a) in *. set (B := Float64.pow2 b) in *.
  set (L := Float64.pow2 (a - b)) in *.
  assert (x * D == N) as HxD by (rewrite Hq; field; lra).
  (* L / 2 < x < 2 L *)
  assert (L < 2 * x) as Hlo.
  { apply Qnot_le_lt. intros H.
    assert (2 * x * D <= L * D) by (apply Qmult_le_compat_r; lra).
    assert (L * D < L * (2 * B)) by (apply Qmult_lt_l; lra).
    lra. }
  assert (x < 2 * L) as Hhi.
  { apply Qnot_le_lt. intros H.
    assert (2 * L * B <= 2 * L * D) by (apply Qmult_le_l; lra).
    assert (2 * L * D <= x * D) by (apply Qmult_le_compat_r; lra).
    lra. }
  destruct (Qle_bool L x) eqn:E.
  - apply Qle_bool_iff in E. split; [done|]. by rewrite pow2_succ.
  - assert (x < L) as Hlt.
    { apply Qnot_le_lt. intros H. apply Qle_bool_iff in H. congruence. }
    replace (a - b - 1 + 1)%Z with (a - b)%Z by lia. split; [|done].
    assert (L == 2 * Float64.pow2 (a - b - 1)) as HL
      by (rewrite <- pow2_succ; by replace (a - b - 1 + 1)%Z with (a - b)%Z by lia).
    fold L in HL. lra.
Qed.

Lemma ilog2_unique (x : Q) (l : Z) :
  Float64.pow2 l <= x → x < Float64.pow2 (l + 1) → Float64.ilog2 x = l.
Proof.
  intros H1 H2. pose proof (pow2_pos l) as Hl.
  destruct (ilog2_spec x) as [H3 H4]; [lra|].
  assert (Float64.ilog2 x < l + 1)%Z
    by (apply pow2_lt_inv; lra).
  assert (l < Float64.ilog2 x + 1)%Z
    by (apply pow2_lt_inv; lra).
  lia.
Qed.

Lemma ilog2_le (x y : Q) :
  0 < x → x <= y → (Float64.ilog2 x <= Float64.ilog2 y)%Z.
Proof.
  intros Hx Hxy.
  destruct (ilog2_spec x Hx) as [H1 H2].
  destruct (ilog2_spec y) as [H3 H4]; [lra|].
  assert (Float64.ilog2 x < Float64.ilog2 y + 1)%Z
    by (apply pow2_lt_inv; lra).
  lia.
Qed.

Lemma nearest_even_comp (x y : Q) :
  x == y → Float64.nearest_even x = Float64.nearest_even y.
Proof.
  intros H. unfold Float64.nearest_even.
  rewrite (Qfloor_comp _ _ H).
  assert (x - inject_Z (Qfloor y) == y - inject_Z (Qfloor y)) as ->
    by (by rewrite H).
  done.
Qed.

Lemma nearest_even_Z (k : Z) : Float64.nearest_even (inject_Z k) = k.
Proof.
  unfold Float64.nearest_even. rewrite Qfloor_Z.
  assert (inject_Z k - inject_Z k == 0) as -> by ring. done.
Qed.

(** The nearest integer is the floor or the integer after it, by the
    fractional part. *)
Lemma nearest_even_cases (x : Q) :
  let f := Qfloor x in
  (Float64.nearest_even x = f ∧ x - inject_Z f <= 1 # 2
   ∧ (x - inject_Z f == 1 # 2 → Z.even f = true))
  ∨ (Float64.nearest_even x = (f + 1)%Z ∧ 1 # 2 <= x - inject_Z f
     ∧ (x - inject_Z f == 1 # 2 → Z.even f = false)).
Proof.
  intros f. unfold Float64.nearest_even. fold f.
  destruct (Qcompare_spec (x - inject_Z f) (1 # 2)) as [E|E|E].
  - destruct (Z.even f) eqn:Hf; [left|right]; (split; [done|]);
      (split; [by rewrite E|done]).
  - left. split; [done|]. split; [lra|]. intros E'. rewrite E' in E.
    by apply Qlt_irrefl in E.
  - right. split; [done|]. split; [lra|]. intros E'. rewrite E' in E.
    by apply Qlt_irrefl in E.
Qed.

Lemma nearest_even_le (x y : Q) :
  x <= y → (Float64.nearest_even x <= Float64.nearest_even y)%Z.
Proof.
  intros Hxy. pose proof (Qfloor_resp_le _ _ Hxy) as Hf.
  pose proof (Qfloor_le x) as Hx1. pose proof (Qlt_floor x) as Hx2.
  pose proof (Qfloor_le y) as Hy1. pose proof (Qlt_floor y) as Hy2.
  rewrite inject_Z_plus in Hx2, Hy2. change (inject_Z 1) with 1 in Hx2, Hy2.
  destruct (nearest_even_cases x) as [(-> & Hx & Hxe)|(-> & Hx & Hxe)];
    destruct (nearest_even_cases y) as [(-> & Hy & Hye)|(-> & Hy & Hye)];
    try lia.
  destruct (decide (Qfloor x = Qfloor y)) as [E|E]; [|lia].
  exfalso. rewrite E in *.
  assert (x - inject_Z (Qfloor y) == 1 # 2) as Ex by lra.
  assert (y - inject_Z (Qfloor y) == 1 # 2) as Ey by lra.
  specialize (Hxe Ex). specialize (Hye Ey). congruence.
Qed.

Lemma nearest_even_nonneg (x : Q) : 0 <= x → (0 <= Float64.nearest_even x)%Z.
Proof.
  intros H. rewrite <- (nearest_even_Z 0). by apply nearest_even_le.
Qed.

Lemma round_at_comp (e : Z) (x y : Q) :
  x == y → Float64.round_at e x == Float64.round_at e y.
Proof.
  intros H. unfold Float64.round_at.
  rewrite (nearest_even_comp (x / Float64.pow2 e) (y / Float64.pow2 e));
    [reflexivity|by rewrite H].
Qed.

Lemma round_at_le (e : Z) (x y : Q) :
  x <= y → Float64.round_at e x <= Float64.round_at e y.
Proof.
  intros H. unfold Float64.round_at. pose proof (pow2_pos e) as He.
  apply Qmult_le_compat_r; [|lra]. rewrite <- Zle_Qle.
  apply nearest_even_le. apply Qmult_le_compat_r; [done|].
  apply Qlt_le_weak, Qinv_lt_0_compat, He.
Qed.

(** A multiple of a coarser power of two is on the grid. *)
Lemma round_at_grid (e e' k : Z) :
  (e <= e')%Z →
  Float64.round_at e (inject_Z k * Float64.pow2 e') == inject_Z k * Float64.pow2 e'.
Proof.
  intros He. pose proof (pow2_pos e) as Hpos.
  assert (Float64.pow2 e' == inject_Z (2 ^ (e' - e)) * Float64.pow2 e) as Hsplit.
  { rewrite <- pow2_Z by lia. rewrite <- pow2_add.
    by replace (e' - e + e)%Z with e' by lia. }
  unfold Float64.round_at.
  rewrite (nearest_even_comp _ (inject_Z (k * 2 ^ (e' - e)))).
  - rewrite nearest_even_Z, inject_Z_mult, Hsplit. ring.
  - rewrite inject_Z_mult, Hsplit. field. lra.
Qed.

Lemma round_at_nonneg (e : Z) (x : Q) : 0 <= x → 0 <= Float64.round_at e x.
Proof.
  intros H. unfold Float64.round_at. pose proof (pow2_pos e) as He.
  apply Qmult_le_0_compat; [|lra]. rewrite <- (Zle_Qle 0).
  apply nearest_even_nonneg. apply Qle_shift_div_l; [done|]. lra.
Qed.

Lemma ulp_exp_le (x y : Q) :
  0 < x → x <= y → (Float64.ulp_exp x <= Float64.ulp_exp y)%Z.
Proof.
  intros Hx Hxy. unfold Float64.ulp_exp.
  pose proof (ilog2_le x y Hx Hxy). lia.
Qed.

Lemma ulp_exp_comp (x y : Q) :
  0 < x → x == y → Float64.ulp_exp x = Float64.ulp_exp y.
Proof.
  intros Hx Hxy.
  assert (Float64.ulp_exp x <= Float64.ulp_exp y)%Z
    by (apply ulp_exp_le; [done|by rewrite Hxy; apply Qle_refl]).
  assert (Float64.ulp_exp y <= Float64.ulp_exp x)%Z
    by (apply ulp_exp_le; [by rewrite <- Hxy|by rewrite Hxy; apply Qle_refl]).
  lia.
Qed.

Lemma round_pos_comp (x y : Q) :
  0 < x → x == y → Float64.round_pos x == Float64.round_pos y.
Proof.
  intros Hx Hxy. unfold Float64.round_pos.
  rewrite (ulp_exp_comp x y Hx Hxy). by apply round_at_comp.
Qed.

Lemma round_pos_nonneg (x : Q) : 0 <= x → 0 <= Float64.round_pos x.
Proof. apply round_at_nonneg. Qed.

(** Rounding keeps the order of positive numbers: within a binade by the
    order of the nearest integers, across binades through the power of two
    between them, which is on both grids. *)
Lemma round_pos_le (x y : Q) :
  0 < x → x <= y → Float64.round_pos x <= Float64.round_pos y.
Proof.
  intros Hx Hxy. unfold Float64.round_pos.
  pose proof (ulp_exp_le x y Hx Hxy) as He.
  destruct (decide (Float64.ulp_exp x = Float64.ulp_exp y)) as [E|E].
  - rewrite E. by apply round_at_le.
  - destruct (ilog2_spec x Hx) as [Hx1 Hx2].
    destruct (ilog2_spec y) as [Hy1 Hy2]; [lra|].
    set (ly := Float64.ilog2 y) in *.
    assert (Float64.ulp_exp x < Float64.ulp_exp y)%Z as Hlt by lia.
    assert (Float64.ulp_exp y = ly - 52)%Z as Hey
      by (unfold Float64.ulp_exp in *; fold ly in Hlt |- *; lia).
    assert (Float64.ilog2 x < ly)%Z as Hl
      by (unfold Float64.ulp_exp in Hlt; fold ly in Hlt; lia).
    assert (Float64.pow2 (Float64.ilog2 x + 1) <= Float64.pow2 ly) as Hp
      by (apply pow2_le; lia).
    assert (Float64.pow2 ly == inject_Z 1 * Float64.pow2 ly) as HP
      by (change (inject_Z 1) with 1; ring).
    apply Qle_trans with (Float64.pow2 ly).
    + apply Qle_trans
        with (Float64.round_at (Float64.ulp_exp x) (inject_Z 1 * Float64.pow2 ly)).
      * apply round_at_le. lra.
      * rewrite round_at_grid by lia. lra.
    + apply Qle_trans
        with (Float64.round_at (Float64.ulp_exp y) (inject_Z 1 * Float64.pow2 ly)).
      * rewrite round_at_grid by lia. lra.
      * apply round_at_le. lra.
Qed.

Lemma Qnum_pos (x : Q) : 0 < x ↔ (0 < Qnum x)%Z.
Proof. destruct x as [n d]. unfold Qlt. simpl. lia. Qed.

Lemma Qnum_neg (x : Q) : x < 0 ↔ (Qnum x < 0)%Z.
Proof. destruct x as [n d]. unfold Qlt. simpl. lia. Qed.

Lemma Qnum_zero (x : Q) : x == 0 ↔ Qnum x = 0%Z.
Proof. destruct x as [n d]. unfold Qeq. simpl. lia. Qed.

Lemma round_pos_case (x : Q) : 0 < x → Float64.round x == Float64.round_pos x.
Proof.
  intros H. apply Qnum_pos in H. unfold Float64.round.
  destruct (Qnum x); try lia. apply Qred_correct.
Qed.

Lemma round_neg_case (x : Q) :
  x < 0 → Float64.round x == - Float64.round_pos (- x).
Proof.
  intros H. apply Qnum_neg in H. unfold Float64.round.
  destruct (Qnum x); try lia. apply Qred_correct.
Qed.

Lemma round_zero_case (x : Q) : x == 0 → Float64.round x = 0.
Proof.
  intros H. apply Qnum_zero in H. unfold Float64.round. by rewrite H.
Qed.

Lemma round_comp (x y : Q) : x == y → Float64.round x == Float64.round y.
Proof.
  intros H. destruct (Q_dec x 0) as [[Hx|Hx]|Hx].
  - rewrite !round_neg_case by lra. apply Qopp_comp.
    apply round_pos_comp; [lra|by rewrite H].
  - rewrite !round_pos_case by lra. by apply round_pos_comp.
  - rewrite !round_zero_case by (by rewrite <- ?H). reflexivity.
Qed.

#[global] Instance round_proper : Proper (Qeq ==> Qeq) Float64.round.
Proof. intros x y. apply round_comp. Qed.

Lemma round_nonneg (x : Q) : 0 <= x → 0 <= Float64.round x.
Proof.
  intros H. destruct (Q_dec x 0) as [[Hx|Hx]|Hx]; [lra| |].
  - rewrite round_pos_case by done. apply round_pos_nonneg. lra.
  - rewrite round_zero_case by done. apply Qle_refl.
Qed.

Lemma round_opp (x : Q) : Float64.round (- x) == - Float64.round x.
Proof.
  destruct (Q_dec x 0) as [[Hx|Hx]|Hx].
  - rewrite (round_neg_case x), (round_pos_case (- x)) by lra. ring.
  - rewrite (round_pos_case x), (round_neg_case (- x)) by lra.
    apply Qopp_comp, round_pos_comp; [lra|ring].
  - rewrite !round_zero_case by lra. reflexivity.
Qed.

(** Rounding keeps the order. *)
Lemma round_le (x y : Q) : x <= y → Float64.round x <= Float64.round y.
Proof.
  intros H. destruct (Q_dec x 0) as [[Hx|Hx]|Hx].
  - destruct (Qlt_le_dec y 0) as [Hy|Hy].
    + rewrite (round_neg_case x), (round_neg_case y) by done.
      apply Qopp_le_compat. apply round_pos_le; lra.
    + apply Qle_trans with 0; [|by apply round_nonneg].
      rewrite round_neg_case by done.
      pose proof (round_pos_nonneg (- x)). lra.
  - rewrite (round_pos_case x), (round_pos_case y) by lra.
    by apply round_pos_le.
  - rewrite (round_zero_case x) by done. apply round_nonneg. lra.
Qed.

Lemma round_0 : Float64.round 0 = 0.
Proof. reflexivity. Qed.

Lemma ilog2_pow2 (e : Z) : Float64.ilog2 (Float64.pow2 e) = e.
Proof. apply ilog2_unique; [apply Qle_refl|apply pow2_lt; lia]. Qed.

(** A positive number on the grid of its last place is a binary64 number. *)
Lemma round_grid (x : Q) (k e : Z) :
  0 < x → x == inject_Z k * Float64.pow2 e → (Float64.ulp_exp x <= e)%Z →
  Float64.round x == x.
Proof.
  intros Hx Hk He. rewrite round_pos_case by done. unfold Float64.round_pos.
  rewrite (round_at_comp _ _ _ Hk), round_at_grid by done. by rewrite Hk.
Qed.

Lemma is_float_pow2 (e : Z) : (-1074 <= e)%Z → Float64.is_float (Float64.pow2 e).
Proof.
  intros He. apply (round_grid _ 1 e); [apply pow2_pos| |].
  - change (inject_Z 1) with 1. ring.
  - unfold Float64.ulp_exp. rewrite ilog2_pow2. lia.
Qed.

Lemma is_float_opp (x : Q) : Float64.is_float x → Float64.is_float (- x).
Proof. unfold Float64.is_float. intros H. by rewrite round_opp, H. Qed.

(** A positive binary64 number is a multiple of the unit in its last
    place. *)
Lemma is_float_pos_grid (x : Q) :
  0 < x → Float64.is_float x →
  ∃ k, x == inject_Z k * Float64.pow2 (Float64.ulp_exp x).
Proof.
  intros Hx H. unfold Float64.is_float in H. rewrite round_pos_case in H by done.
  eexists. rewrite <- H at 1. reflexivity.
Qed.

Lemma ulp_exp_double (x : Q) :
  0 < x → (Float64.ulp_exp (2 * x) <= Float64.ulp_exp x + 1)%Z.
Proof.
  intros Hx. destruct (ilog2_spec x Hx) as [H1 H2].
  assert (Float64.ilog2 (2 * x) = Float64.ilog2 x + 1)%Z as E.
  { apply ilog2_unique; rewrite !pow2_succ in *; lra. }
  unfold Float64.ulp_exp. rewrite E. lia.
Qed.

(** Twice a binary64 number is one. *)
Lemma is_float_double (x : Q) : Float64.is_float x → Float64.is_float (2 * x).
Proof.
  assert (∀ y, 0 < y → Float64.is_float y → Float64.is_float (2 * y)) as Hpos.
  { intros y Hy H. destruct (is_float_pos_grid y Hy H) as [k Hk].
    apply (round_grid _ k (Float64.ulp_exp y + 1)); [lra| |by apply ulp_exp_double].
    rewrite pow2_succ. rewrite Hk at 1. ring. }
  intros H. destruct (Q_dec x 0) as [[Hx|Hx]|Hx].
  - assert (2 * x == - (2 * - x)) as E by ring.
    unfold Float64.is_float. rewrite E.
    apply is_float_opp, Hpos; [lra|by apply is_float_opp].
  - by apply Hpos.
  - unfold Float64.is_float. rewrite round_zero_case by lra. lra.
Qed.

(** Every binary64 number is a multiple of [2^-1074]. *)
Lemma is_float_grid (x : Q) :
  Float64.is_float x → ∃ k, x == inject_Z k * Float64.pow2 (-1074).
Proof.
  assert (∀ y, 0 < y → Float64.is_float y →
            ∃ k, y == inject_Z k * Float64.pow2 (-1074)) as Hpos.
  { intros y Hy H. destruct (is_float_pos_grid y Hy H) as [k Hk].
    set (e := Float64.ulp_exp y) in *.
    assert (-1074 <= e)%Z as He by (unfold e, Float64.ulp_exp; lia).
    exists (k * 2 ^ (e + 1074))%Z.
    rewrite Hk, inject_Z_mult, <- pow2_Z by lia.
    rewrite <- Qmult_assoc, <- pow2_add.
    by replace (e + 1074 + -1074)%Z with e by lia. }
  intros H. destruct (Q_dec x 0) as [[Hx|Hx]|Hx].
  - destruct (Hpos (- x)) as [k Hk]; [lra|by apply is_float_opp|].
    exists (- k)%Z. rewrite inject_Z_opp. lra.
  - by apply Hpos.
  - exists 0%Z. rewrite Hx. change (inject_Z 0) with 0. ring.
Qed.

(** A positive difference of binary64 numbers is at least [2^-1074]. *)
Lemma float_gap (a b : Q) :
  Float64.is_float a → Float64.is_float b → a < b →
  Float64.pow2 (-1074) <= b - a.
Proof.
  intros Ha Hb Hab.
  destruct (is_float_grid a Ha) as [ka Hka], (is_float_grid b Hb) as [kb Hkb].
  pose proof (pow2_pos (-1074)) as Hu.
  assert (b - a == inject_Z (kb - ka) * Float64.pow2 (-1074)) as E
    by (unfold Z.sub; rewrite inject_Z_plus, inject_Z_opp, Hka, Hkb; ring).
  assert (0 < kb - ka)%Z as Hk.
  { apply Z.lt_nge. intros Hle. rewrite Zle_Qle in Hle.
    change (inject_Z 0) with 0 in Hle.
    assert (inject_Z (kb - ka) * Float64.pow2 (-1074) <= 0 * Float64.pow2 (-1074))
      by (apply Qmult_le_compat_r; lra).
    lra. }
  assert (1 <= inject_Z (kb - ka)) as Hk1
    by (change 1 with (inject_Z 1); rewrite <- Zle_Qle; lia).
  rewrite E.
  assert (1 * Float64.pow2 (-1074) <= inject_Z (kb - ka) * Float64.pow2 (-1074))
    by (apply Qmult_le_compat_r; lra).
  lra.
Qed.

Lemma round_le_float (x y : Q) :
  Float64.is_float y → x <= y → Float64.round x <= y.
Proof.
  intros Hy H. unfold Float64.is_float in Hy.
  apply Qle_trans with (Float64.round y); [by apply round_le|].
  rewrite Hy. apply Qle_refl.
Qed.

Lemma round_ge_float (x y : Q) :
  Float64.is_float x → x <= y → x <= Float64.round y.
Proof.
  intros Hx H. unfold Float64.is_float in Hx.
  apply Qle_trans with (Float64.round x); [|by apply round_le].
  rewrite Hx. apply Qle_refl.
Qed.

(** The rounded half of a rounded difference does not exceed the
    difference: the step on which the interpolation of two binary64 numbers
    stays between them. *)
Lemma round_part_le (a b s : Q) :
  Float64.is_float a → Float64.is_float b → a <= b → 0 <= s → s <= 1 # 2 →
  0 <= Float64.mul (Float64.sub b a) s ∧ Float64.mul (Float64.sub b a) s <= b - a.
Proof.
  intros Ha Hb Hab Hs0 Hs1. unfold Float64.mul, Float64.sub.
  assert (0 <= Float64.round (b - a)) as Hd0 by (apply round_nonneg; lra).
  split; [apply round_nonneg, Qmult_le_0_compat; lra|].
  destruct (Qlt_le_dec a b) as [Hlt|Hge].
  - pose proof (float_gap a b Ha Hb Hlt) as Hgap.
    pose proof (pow2_pos (-1074)) as Hu.
    destruct (ilog2_spec (b - a)) as [H1 H2]; [lra|].
    set (l := Float64.ilog2 (b - a)) in *.
    assert (-1074 <= l)%Z as Hl.
    { assert (-1074 < l + 1)%Z; [|lia]. apply pow2_lt_inv. lra. }
    assert (Float64.round (b - a) <= Float64.pow2 (l + 1)) as Hd1.
    { apply round_le_float; [apply is_float_pow2; lia|lra]. }
    rewrite pow2_succ in Hd1. pose proof (pow2_pos l) as Hpl.
    assert (Float64.round (b - a) * s <= Float64.pow2 l) as Hp.
    { assert (Float64.round (b - a) * s <= Float64.round (b - a) * (1 # 2))
        by (rewrite !(Qmult_comm (Float64.round (b - a)));
            apply Qmult_le_compat_r; lra).
      lra. }
    apply Qle_trans with (Float64.pow2 l); [|done].
    apply round_le_float; [by apply is_float_pow2|done].
  - assert (b - a == 0) as -> by lra.
    rewrite round_0.
    assert (0 * s == 0) as -> by ring. rewrite round_0. lra.
Qed.

End Float64Facts.

(** ** Summary statistics *)

Section Unique.
Context {A : Type} (cmp : A → A → comparison).
Hypothesis cmp_eq : ∀ x y, cmp x y = Eq → x = y.

Lemma insert_uniq_In x y l :
  In y (Numpy.insert_uniq cmp x l) ↔ y = x ∨ In y l.
Proof.
  induction l as [|z l IH]; simpl; [intuition|].
  destruct (cmp x z) eqn:E; simpl.
  - apply cmp_eq in E as ->. intuition.
  - intuition.
  - rewrite IH. intuition.
Qed.

Lemma unique_In y l : In y (Numpy.unique cmp l) ↔ In y l.
Proof.
  unfold Numpy.unique. induction l as [|x l IH]; simpl; [done|].
  rewrite insert_uniq_In, IH. intuition.
Qed.
End Unique.

Lemma insert_uniq_sorted (x : Z) (l : list Z) :
  StronglySorted Z.lt l → StronglySorted Z.lt (Numpy.insert_uniq Z.compare x l).
Proof.
  induction 1 as [|y l Hl IH Hy]; simpl.
  - repeat constructor.
  - destruct (Z.compare_spec x y) as [->|Hlt|Hgt].
    + by constructor.
    + constructor; [by constructor|]. constructor; [done|].
      eapply Forall_impl; [exact Hy|]. intros z Hz. simpl in *. lia.
    + constructor; [done|]. apply Forall_forall. intros z Hz.
      apply list_elem_of_In, insert_uniq_In in Hz; [|apply Z.compare_eq].
      destruct Hz as [->|Hz]; [lia|].
      rewrite Forall_forall in Hy. by apply Hy, list_elem_of_In.
Qed.

Lemma unique_sorted (l : list Z) : StronglySorted Z.lt (Numpy.unique Z.compare l).
Proof.
  unfold Numpy.unique. induction l as [|x l IH]; simpl; [constructor|].
  by apply insert_uniq_sorted.
Qed.

Lemma sorted_NoDup (l : list Z) : StronglySorted Z.lt l → List.NoDup l.
Proof.
  induction 1 as [|y l Hl IH Hy]; constructor; [|done].
  intros Hin. rewrite Forall_forall in Hy.
  apply list_elem_of_In, Hy in Hin. lia.
Qed.

Lemma Qfloor_half (m : Z) : Qfloor ((1 # 2) * inject_Z m) = m / 2.
Proof.
  unfold Qfloor, Qmult, inject_Z. cbn [Qnum Qden].
  rewrite Z.mul_1_l. reflexivity.
Qed.

Lemma Qle_bool_false (x y : Q) : (y < x)%Q → Qle_bool x y = false.
Proof.
  intros H. apply not_true_iff_false. rewrite Qle_bool_iff. by apply Qlt_not_le.
Qed.

Lemma Qle_bool_true (x y : Q) : (x <= y)%Q → Qle_bool x y = true.
Proof. apply Qle_bool_iff. Qed.

Lemma insert_sorted_In (x y : Q) (l : list Q) :
  In y (Stats.insert_sorted x l) ↔ y = x ∨ In y l.
Proof.
  induction l as [|z l IH]; simpl; [intuition|].
  destruct (Qle_bool x z); simpl; [intuition|]. rewrite IH. intuition.
Qed.

Lemma insert_sorted_length (x : Q) (l : list Q) :
  length (Stats.insert_sorted x l) = S (length l).
Proof.
  induction l as [|z l IH]; simpl; [done|].
  destruct (Qle_bool x z); simpl; [done|]. by rewrite IH.
Qed.

Lemma insert_sorted_sorted (x : Q) (l : list Q) :
  StronglySorted Qle l → StronglySorted Qle (Stats.insert_sorted x l).
Proof.
  induction 1 as [|z l Hl IH Hz]; simpl.
  - repeat constructor.
  - destruct (Qle_bool x z) eqn:E.
    + apply Qle_bool_iff in E. constructor; [by constructor|].
      constructor; [done|]. eapply Forall_impl; [exact Hz|].
      intros y Hy. simpl in *. by eapply Qle_trans.
    + assert (z <= x)%Q as Hzx.
      { apply Qlt_le_weak, Qnot_le_lt. intros H. apply Qle_bool_iff in H.
        congruence. }
      constructor; [done|]. apply Forall_forall. intros y Hy.
      apply list_elem_of_In, insert_sorted_In in Hy as [->|Hy]; [done|].
      rewrite Forall_forall in Hz. by apply Hz, list_elem_of_In.
Qed.

Lemma sort_In (y : Q) (l : list Q) : In y (Stats.sort l) ↔ In y l.
Proof.
  unfold Stats.sort. induction l as [|x l IH]; simpl; [done|].
  rewrite insert_sorted_In, IH. intuition.
Qed.

Lemma sort_length (l : list Q) : length (Stats.sort l) = length l.
Proof.
  unfold Stats.sort. induction l as [|x l IH]; simpl; [done|].
  by rewrite insert_sorted_length, IH.
Qed.

Lemma sort_sorted (l : list Q) : StronglySorted Qle (Stats.sort l).
Proof.
  unfold Stats.sort. induction l as [|x l IH]; simpl; [constructor|].
  by apply insert_sorted_sorted.
Qed.

Lemma insert_sorted_Permutation (x : Q) (l : list Q) :
  Stats.insert_sorted x l ≡ₚ x :: l.
Proof.
  induction l as [|y l IH]; simpl; [done|].
  destruct (Qle_bool x y); [done|]. rewrite IH. apply Permutation_swap.
Qed.

(** Sorting rearranges the values and drops none. *)
Lemma sort_Permutation (l : list Q) : Stats.sort l ≡ₚ l.
Proof.
  unfold Stats.sort. induction l as [|x l IH]; simpl; [done|].
  by rewrite insert_sorted_Permutation, IH.
Qed.

(** The group of a conformation holds the values of its rows. *)
Lemma group_In (k : Z) (keys : list (option Z)) (values : list (option Q)) (y : Q) :
  In y (Stats.group k (zip keys values))
  ↔ ∃ r, keys !! r = Some (Some k) ∧ values !! r = Some (Some y).
Proof.
  unfold Stats.group. rewrite <- list_elem_of_In, list_elem_of_omap. split.
  - intros ([key value] & Hin & Hy). simpl in Hy.
    apply list_elem_of_lookup in Hin as [r Hr].
    apply lookup_zip_with_Some in Hr as (key' & value' & [= <- <-] & Hk & Hv).
    destruct key as [k'|]; [|done].
    destruct (Z.eqb_spec k' k) as [->|]; [|done]. subst value. by exists r.
  - intros (r & Hk & Hv). exists (Some k, Some y). split.
    + apply list_elem_of_lookup. exists r. apply lookup_zip_with_Some.
      by exists (Some k), (Some y).
    + simpl. by rewrite Z.eqb_refl.
Qed.

Lemma round_half : Float64.round (1 # 2) = (1 # 2)%Q.
Proof. vm_compute. reflexivity. Qed.

(** A group with an odd number of values: the median is the middle value,
    and the 50th percentile is the middle value after the additions of the
    interpolation, that is, rounded. *)
Lemma median_quantile_odd (s : list Q) :
  (length s mod 2 = 1)%nat →
  ∃ a p, s !! (length s / 2)%nat = Some a
         ∧ Stats.median s = Num a
         ∧ Stats.quantile (1 # 2) s = Num p
         ∧ (p == Float64.round a)%Q.
Proof.
  intros Hodd. destruct s as [|x0 s']; [done|].
  unfold Stats.median, Stats.quantile. cbv zeta.
  set (l := x0 :: s') in *. set (n := length l) in *.
  assert (n = S (length s')) as Hn by done.
  set (k := (n / 2)%nat).
  assert (n = (2 * k + 1)%nat) as Hk
    by (unfold k; rewrite (Nat.div_mod_eq n 2) at 1; lia).
  destruct (lookup_lt_is_Some_2 l k) as [a Ha]; [fold n; lia|].
  rewrite Hodd. cbn [Nat.eqb].
  unfold Stats.of_nat. rewrite Qfloor_half. clearbody n k.
  assert (Z.of_nat (n - 1) / 2 = Z.of_nat k) as ->
    by (symmetry; apply Z.div_unique with 0; lia).
  assert (Z.of_nat (n - 1) = 2 * Z.of_nat k) as -> by lia.
  rewrite Nat2Z.id, (nth_lookup_Some _ _ _ _ Ha).
  exists a. eexists. split; [done|]. split; [done|]. split; [reflexivity|].
  assert ((1 # 2) * inject_Z (2 * Z.of_nat k) - inject_Z (Z.of_nat k) == 0)%Q
    as Hgamma.
  { rewrite inject_Z_mult. ring. }
  unfold Stats.lerp. rewrite Qle_bool_false by (rewrite Hgamma; reflexivity).
  unfold Float64.add, Float64.mul.
  rewrite (round_zero_case (_ * _)) by (rewrite Hgamma; ring).
  apply round_comp. ring.
Qed.

(** A group with an even number of values, [a] and [b] the two in the
    middle: the median is [(b + a) / 2] and the 50th percentile is
    [b - (b - a) * 0.5], each operation rounded. *)
Lemma median_quantile_even (s : list Q) :
  s ≠ [] → (length s mod 2 = 0)%nat →
  ∃ a b p, s !! (length s / 2 - 1)%nat = Some a
           ∧ s !! (length s / 2)%nat = Some b
           ∧ Stats.median s = Num (Float64.div (Float64.add b a) 2)
           ∧ Stats.quantile (1 # 2) s = Num p
           ∧ (p == Float64.sub b (Float64.mul (Float64.sub b a) (1 # 2)))%Q.
Proof.
  intros Hne Heven. destruct s as [|x0 s']; [done|].
  unfold Stats.median, Stats.quantile. cbv zeta.
  set (l := x0 :: s') in *. set (n := length l) in *.
  assert (n = S (length s')) as Hn by done.
  set (k := (n / 2)%nat).
  assert (n = (2 * k)%nat) as Hk
    by (unfold k; rewrite (Nat.div_mod_eq n 2) at 1; lia).
  destruct (lookup_lt_is_Some_2 l (k - 1)) as [a Ha]; [fold n; lia|].
  destruct (lookup_lt_is_Some_2 l k) as [b Hb]; [fold n; lia|].
  rewrite Heven. cbn [Nat.eqb].
  unfold Stats.of_nat. rewrite Qfloor_half. clearbody n k.
  assert (Z.of_nat (n - 1) / 2 = Z.of_nat k - 1) as ->
    by (symmetry; apply Z.div_unique with 1; lia).
  assert (Z.of_nat (n - 1) = 2 * (Z.of_nat k - 1) + 1) as -> by lia.
  replace (Z.to_nat (Z.of_nat k - 1)) with (k - 1)%nat by lia.
  replace ((k - 1 + 1) `min` (n - 1))%nat with k by lia.
  rewrite (nth_lookup_Some _ _ _ _ Ha), (nth_lookup_Some _ _ _ _ Hb).
  exists a, b. eexists. do 3 (split; [done|]). split; [reflexivity|].
  assert ((1 # 2) * inject_Z (2 * (Z.of_nat k - 1) + 1)
            - inject_Z (Z.of_nat k - 1) == 1 # 2)%Q as Hgamma.
  { rewrite inject_Z_plus, inject_Z_mult. ring. }
  unfold Stats.lerp. rewrite Qle_bool_true by (rewrite Hgamma; apply Qle_refl).
  unfold Float64.sub at 1 3. unfold Float64.mul.
  apply round_comp.
  assert (Float64.sub 1 ((1 # 2) * inject_Z (2 * (Z.of_nat k - 1) + 1)
                         - inject_Z (Z.of_nat k - 1)) == 1 # 2)%Q as ->; [|done].
  unfold Float64.sub. rewrite <- round_half at 2. apply round_comp.
  rewrite Hgamma. reflexivity.
Qed.

Lemma sorted_ext (l1 l2 : list Z) :
  StronglySorted Z.lt l1 → StronglySorted Z.lt l2 →
  (∀ x, In x l1 ↔ In x l2) → l1 = l2.
Proof.
  intros H1. revert l2. induction H1 as [|a l1 Hs1 IH Ha]; intros l2 H2 Hext.
  - destruct l2 as [|b l2]; [done|]. exfalso. apply (Hext b). by left.
  - destruct H2 as [|b l2 Hs2 Hb]; [exfalso; apply (Hext a); by left|].
    rewrite Forall_forall in Ha, Hb.
    assert (a = b) as <-.
    { destruct (proj1 (Hext a) (or_introl eq_refl)) as [->|Hin]; [done|].
      destruct (proj2 (Hext b) (or_introl eq_refl)) as [->|Hin']; [done|].
      apply list_elem_of_In, Hb in Hin. apply list_elem_of_In, Ha in Hin'. lia. }
    f_equal. apply IH; [done|]. intros x. split; intros Hx.
    + destruct (proj1 (Hext x) (or_intror Hx)) as [<-|]; [|done].
      apply list_elem_of_In, Ha in Hx. lia.
    + destruct (proj2 (Hext x) (or_intror Hx)) as [<-|]; [|done].
      apply list_elem_of_In, Hb in Hx. lia.
Qed.

Section Records.

Context (described : list (Z * list (string * cell))).
Let records := Stats.unstack_reset described.
Let value (name : string) (kd : Z * list (string * cell)) : cell :=
  default NaN (dict_get kd.2 name).

Lemma records_elem_of r :
  r ∈ records ↔
  ∃ name kd, name ∈ Stats.describe_names ∧ kd ∈ described
             ∧ r = (name, kd.1, value name kd).
Proof.
  unfold records, Stats.unstack_reset. rewrite list_elem_of_bind. split.
  - intros (name & Hr & Hname). apply list_elem_of_fmap in Hr as (kd & -> & Hkd).
    by exists name, kd.
  - intros (name & kd & Hname & Hkd & ->). exists name. split; [|done].
    apply list_elem_of_fmap. by exists kd.
Qed.

Lemma records_keys x :
  described ≠ [] → In x (records.*1.*2) ↔ In x (described.*1).
Proof.
  intros Hne. rewrite <- !list_elem_of_In, !list_elem_of_fmap. split.
  - intros ([name k] & -> & Hnk). apply list_elem_of_fmap in Hnk as (r & Hr & Hin).
    apply records_elem_of in Hin as (name' & kd & _ & Hkd & ->).
    injection Hr as -> ->. exists kd. by split.
  - intros (kd & -> & Hkd). exists ("count", kd.1). split; [done|].
    apply list_elem_of_fmap. exists ("count", kd.1, value "count" kd).
    split; [done|]. apply records_elem_of. exists "count", kd.
    split; [|done]. by left.
Qed.

Lemma records_names name :
  described ≠ [] → In name Stats.describe_names →
  In name (records.*1.*1).
Proof.
  intros Hne Hname.
  assert (∃ kd, kd ∈ described) as [kd Hkd].
  { clear -Hne. destruct described as [|kd rest]; [done|]. exists kd. by left. }
  rewrite <- list_elem_of_In, !list_elem_of_fmap.
  exists (name, kd.1). split; [done|].
  apply list_elem_of_fmap. exists (name, kd.1, value name kd). split; [done|].
  apply records_elem_of. exists name, kd.
  split; [by apply list_elem_of_In|]. by split.
Qed.

Lemma records_NoDup : NoDup (described.*1) → NoDup (records.*1).
Proof.
  intros Hkeys. unfold records, Stats.unstack_reset.
  assert (NoDup Stats.describe_names) as Hnames
    by (apply (bool_decide_unpack _); by vm_compute).
  induction Hnames as [|name names Hfresh _ IH]; [constructor|].
  rewrite bind_cons, fmap_app. apply NoDup_app. split; [|split; [|exact IH]].
  - rewrite <- list_fmap_compose.
    replace (described.*1) with ((snd ∘ (fun kd : Z * list (string * cell) =>
                                           (name, kd.1))) <$> described)
      in Hkeys by (by apply list_fmap_ext).
    rewrite list_fmap_compose in Hkeys. eapply NoDup_fmap_1.
    erewrite list_fmap_ext; [exact Hkeys|done].
  - intros [n k] Hin Hin'. apply Hfresh.
    apply list_elem_of_fmap in Hin as (r & Hr & Hin).
    apply list_elem_of_fmap in Hin as (kd & -> & _).
    apply list_elem_of_fmap in Hin' as (r' & Hr' & Hin').
    apply list_elem_of_bind in Hin' as (name' & Hin' & Hname').
    apply list_elem_of_fmap in Hin' as (kd' & -> & _).
    simpl in *. by simplify_eq.
Qed.

(** Looking up the statistic [name] of the group [kd] in the long table. *)
Lemma records_find name kd :
  In name Stats.describe_names → In kd described → NoDup (described.*1) →
  default NaN
    (snd <$> List.find (fun r : string * Z * cell =>
                          String.eqb r.1.1 name && (r.1.2 =? kd.1)) records)
  = value name kd.
Proof.
  intros Hname Hkd Hkeys.
  destruct (List.find _ records) as [r|] eqn:Hfind.
  - apply find_some in Hfind as [Hin Hr].
    apply andb_true_iff in Hr as [Hn Hk].
    apply String.eqb_eq in Hn. apply Z.eqb_eq in Hk.
    apply list_elem_of_In, records_elem_of in Hin as (name' & kd' & _ & Hkd' & ->).
    simpl in *. subst name'.
    assert (kd' = kd) as ->; [|done].
    apply list_elem_of_In in Hkd.
    apply list_elem_of_lookup in Hkd as [i Hi], Hkd' as [j Hj].
    assert (i = j) as ->; [|congruence].
    eapply NoDup_lookup; [exact Hkeys| |].
    + by rewrite list_lookup_fmap, Hi.
    + rewrite list_lookup_fmap, Hj. simpl. by rewrite Hk.
  - pose proof (find_none _ _ Hfind (name, kd.1, value name kd)) as Hnone.
    cbn [fst snd] in Hnone. rewrite String.eqb_refl, Z.eqb_refl in Hnone.
    discriminate Hnone.
    apply list_elem_of_In, records_elem_of. exists name, kd.
    split; [by apply list_elem_of_In|]. split; [by apply list_elem_of_In|done].
Qed.

End Records.

Lemma dict_get_fmap {V} (f : string → V) (names : list string) (name : string) :
  In name names →
  dict_get ((fun n => (n, f n)) <$> names) name = Some (f name).
Proof.
  induction names as [|n names IH]; [done|]. rewrite fmap_cons. cbn [dict_get].
  destruct (String.eqb_spec name n) as [->|Hne]; [done|].
  intros [->|Hin]; [done|]. by apply IH.
Qed.

Lemma dict_get_replaced {V} (l : list (string * V)) (name name' : string) (v : V) :
  dict_get (List.filter (fun c : string * V => negb (String.eqb c.1 name)) l
            ++ [(name, v)]) name'
  = if String.eqb name' name then Some v else dict_get l name'.
Proof.
  induction l as [|[n w] l IH]; cbn [List.filter app dict_get fst].
  - by destruct (String.eqb name' name).
  - destruct (String.eqb_spec n name) as [->|Hne]; cbn [negb app dict_get].
    + rewrite IH. by destruct (String.eqb_spec name' name).
    + rewrite IH. destruct (String.eqb_spec name' n) as [->|]; [|done].
      by rewrite (proj2 (String.eqb_neq n name) Hne).
Qed.

Lemma unstack_reset_nil : Stats.unstack_reset [] = [].
Proof. reflexivity. Qed.

(** The pivoted table of the described groups: its index is the list of
    groups, and each statistic is a column. *)
Lemma pivot_described (G : list Z) (D : Z → list (string * cell)) :
  StronglySorted Z.lt G →
  ∃ cols,
    Stats.pivot (Stats.unstack_reset ((fun k => (k, D k)) <$> G))
      = Ok (mkStatsTable G cols)
    ∧ (G ≠ [] → ∀ name, In name Stats.describe_names →
         dict_get cols name
           = Some ((fun k => default NaN (dict_get (D k) name)) <$> G)).
Proof.
  intros Hsorted. set (described := (fun k => (k, D k)) <$> G).
  assert (described.*1 = G) as Hkeys.
  { unfold described. rewrite <- list_fmap_compose. apply list_fmap_id. }
  assert (NoDup (described.*1)) as Hnodup
    by (rewrite Hkeys; by apply NoDup_ListNoDup, sorted_NoDup).
  unfold Stats.pivot.
  rewrite (bool_decide_eq_true_2 _ (records_NoDup described Hnodup)).
  assert (Numpy.unique Z.compare ((Stats.unstack_reset described).*1.*2) = G)
    as ->.
  { destruct (decide (described = [])) as [Hnil|Hne].
    - rewrite Hnil in *. rewrite unstack_reset_nil. by rewrite <- Hkeys.
    - apply sorted_ext; [apply unique_sorted|done|]. intros x.
      rewrite unique_In by apply Z.compare_eq.
      by rewrite records_keys, Hkeys. }
  eexists. split; [reflexivity|]. intros HG name Hname.
  assert (described ≠ []) as Hne
    by (intros E; apply HG; by rewrite <- Hkeys, E).
  rewrite dict_get_fmap.
  - f_equal. apply Forall_fmap_ext_1, Forall_forall. intros k Hk.
    apply (records_find described name (k, D k)); [done| |done].
    apply list_elem_of_In, list_elem_of_fmap. by exists k.
  - apply unique_In; [apply String.compare_eq_iff|].
    by apply records_names.
Qed.

Lemma key_of_In keys keys' z :
  mapM Stats.key_of keys = Ok keys' → In (Some z) keys' ↔ In (Int z) keys.
Proof.
  revert keys'. induction keys as [|c keys IH]; intros keys'; simpl.
  - by intros [= <-].
  - intros H. invert_binds. injection H as <-. simpl.
    rewrite (IH _ Hx0). destruct c; simpl in Hx; try discriminate;
      injection Hx as <-; intuition congruence.
Qed.

Section BuildStatsFacts.

Variable np : Numpy.Impl.

(** What [build_stats] computes once its two columns are read. *)
Lemma build_stats_eq dataframe feature values keys keys' values' :
  Pandas.get_column (Str feature) (df_columns dataframe) = Some values →
  Pandas.get_column (Str "Conformation") (df_columns dataframe) = Some keys →
  feature ≠ "Conformation" →
  mapM Stats.key_of keys = Ok keys' →
  mapM Stats.number_of values = Ok values' →
  ∃ stats med,
    build_stats np dataframe feature = Ok stats
    ∧ StronglySorted Z.lt (st_index stats)
    ∧ (∀ z, In z (st_index stats) ↔ In (Int z) keys)
    ∧ Stats.column "median" stats = Some med
    ∧ length med = length (st_index stats).
Proof.
  intros Hvalues Hkeys Hfeature Hkeys' Hvalues'.
  unfold build_stats. rewrite Hvalues, Hkeys. rsimpl.
  rewrite (proj2 (String.eqb_neq _ _) Hfeature), Hkeys', Hvalues'. rsimpl.
  set (rows := zip keys' values').
  set (G := Numpy.unique Z.compare (omap id keys')).
  set (D := fun k => Stats.describe np (Stats.group k rows)).
  destruct (pivot_described G D (unique_sorted _)) as (cols & Hpivot & Hcols).
  change ((fun k => (k, Stats.describe np (Stats.group k rows))) <$> G)
    with ((fun k => (k, D k)) <$> G).
  rewrite Hpivot. rsimpl. unfold Stats.setitem. cbn [st_index st_columns].
  rewrite length_fmap, Nat.eqb_refl.
  eexists _, _. split; [reflexivity|]. cbn [st_index].
  split; [apply unique_sorted|]. split; [|split].
  - intros z. unfold G. rewrite unique_In by apply Z.compare_eq.
    rewrite <- (key_of_In keys keys' z Hkeys'), <- !list_elem_of_In.
    rewrite list_elem_of_omap. split.
    + by intros ([z'|] & Hin & [= ->]).
    + intros Hin. by exists (Some z).
  - unfold Stats.column. cbn [st_columns]. by rewrite dict_get_replaced.
  - by rewrite length_fmap.
Qed.

Lemma pivot_names records t name :
  Stats.pivot records = Ok t → is_Some (dict_get (st_columns t) name) →
  In name (records.*1.*1).
Proof.
  unfold Stats.pivot. case_bool_decide; [|done]. intros <-%Ok_inj.
  cbn [st_columns]. intros [col Hcol].
  apply (unique_In String.compare String.compare_eq_iff).
  induction (Numpy.unique String.compare (records.*1.*1)) as [|n names IH];
    [done|].
  rewrite fmap_cons in Hcol. cbn [dict_get] in Hcol.
  destruct (String.eqb_spec name n) as [->|]; [by left|right; by apply IH].
Qed.

Lemma unstack_reset_names described name :
  In name ((Stats.unstack_reset described).*1.*1) → In name Stats.describe_names.
Proof.
  rewrite <- !list_elem_of_In, !list_elem_of_fmap.
  intros ([n k] & -> & Hnk). apply list_elem_of_fmap in Hnk as (r & Hr & Hin).
  apply records_elem_of in Hin as (name' & kd & Hname & _ & ->).
  by injection Hr as -> ->.
Qed.

(** What [build_stats] returns once its two columns are read and
    converted: every statistic of [describe] is a column, the median is one
    more, and there is no other. *)
Lemma build_stats_columns dataframe feature values keys keys' values' :
  Pandas.get_column (Str feature) (df_columns dataframe) = Some values →
  Pandas.get_column (Str "Conformation") (df_columns dataframe) = Some keys →
  feature ≠ "Conformation" →
  mapM Stats.key_of keys = Ok keys' →
  mapM Stats.number_of values = Ok values' →
  ∃ stats,
    build_stats np dataframe feature = Ok stats
    ∧ st_index stats = Numpy.unique Z.compare (omap id keys')
    ∧ Stats.column "median" stats
      = Some ((fun k => Stats.median (Stats.sort (Stats.group k (zip keys' values'))))
                <$> st_index stats)
    ∧ (st_index stats ≠ [] → ∀ name, In name Stats.describe_names →
         Stats.column name stats
         = Some ((fun k => default NaN
                    (dict_get (Stats.describe np (Stats.group k (zip keys' values')))
                              name)) <$> st_index stats))
    ∧ (∀ name, is_Some (Stats.column name stats) →
         In name (Stats.describe_names ++ ["median"])).
Proof.
  intros Hvalues Hkeys Hfeature Hkeys' Hvalues'.
  unfold build_stats. rewrite Hvalues, Hkeys. rsimpl.
  rewrite (proj2 (String.eqb_neq _ _) Hfeature), Hkeys', Hvalues'. rsimpl.
  set (rows := zip keys' values').
  set (G := Numpy.unique Z.compare (omap id keys')).
  set (D := fun k => Stats.describe np (Stats.group k rows)).
  destruct (pivot_described G D (unique_sorted _)) as (cols & Hpivot & Hcols).
  change ((fun k => (k, Stats.describe np (Stats.group k rows))) <$> G)
    with ((fun k => (k, D k)) <$> G).
  rewrite Hpivot. rsimpl. unfold Stats.setitem. cbn [st_index st_columns].
  rewrite length_fmap, Nat.eqb_refl.
  eexists. split; [reflexivity|]. cbn [st_index]. split; [done|].
  unfold Stats.column. cbn [st_columns]. split; [|split].
  - by rewrite dict_get_replaced.
  - intros HG name Hname. rewrite dict_get_replaced.
    destruct (String.eqb_spec name "median") as [->|_].
    { simpl in Hname. intuition discriminate. }
    by apply Hcols.
  - intros name. rewrite dict_get_replaced. rewrite in_app_iff.
    destruct (String.eqb_spec name "median") as [->|_]; [intros _; right; by left|].
    intros Hsome. left.
    apply (unstack_reset_names ((fun k => (k, D k)) <$> G)).
    by eapply (pivot_names _ _ _ Hpivot).
Qed.

Lemma build_stats_inv dataframe feature stats :
  build_stats np dataframe feature = Ok stats →
  ∃ values keys keys' values',
    Pandas.get_column (Str feature) (df_columns dataframe) = Some values
    ∧ Pandas.get_column (Str "Conformation") (df_columns dataframe) = Some keys
    ∧ feature ≠ "Conformation"
    ∧ mapM Stats.key_of keys = Ok keys'
    ∧ mapM Stats.number_of values = Ok values'.
Proof.
  unfold build_stats. intros H.
  apply bind_Ok in H as (values & Hvalues & H).
  apply bind_Ok in H as (keys & Hkeys & H).
  destruct (Pandas.get_column (Str feature) (df_columns dataframe))
    as [values0|] eqn:Hvalues0; [apply Ok_inj in Hvalues as ->|done].
  destruct (Pandas.get_column (Str "Conformation") (df_columns dataframe))
    as [keys0|] eqn:Hkeys0; [apply Ok_inj in Hkeys as ->|done].
  destruct (String.eqb_spec feature "Conformation") as [Heq|Hne]; [done|].
  apply bind_Ok in H as (keys' & Hkeys' & H).
  apply bind_Ok in H as (values' & Hvalues' & H).
  by exists values, keys, keys', values'.
Qed.

End BuildStatsFacts.

Lemma describe_50 (np : Numpy.Impl) (l : list Q) :
  dict_get (Stats.describe np l) "50%" = Some (Stats.quantile (1 # 2) (Stats.sort l)).
Proof. reflexivity. Qed.

(** C8 (as amended).  The table [build_stats] returns has one row per
    distinct conformation identifier of the input: its index has no repetition
    and holds exactly the identifiers of the 'Conformation' column.  The row
    of a conformation is computed from the values on the rows of that
    conformation, in ascending order.  When these are binary64 numbers below
    2^1023 in magnitude:
    - an odd number of values: the 'median' entry and the '50%' entry are
      both the middle value;
    - an even number of values, [a <= b] the two in the middle: the 'median'
      entry is [(b + a) / 2] and the '50%' entry is [b - (b - a) * 0.5], every
      operation rounded to binary64.
    The table is returned whenever the value column holds numbers and the
    conformation column integers. *)
Theorem build_stats_rows_median (np : Numpy.Impl) (dataframe : DataFrame)
    (feature : string) :
  (∀ stats, build_stats np dataframe feature = Ok stats →
     ∃ keys values keys' values',
       Pandas.get_column (Str "Conformation") (df_columns dataframe) = Some keys
       ∧ Pandas.get_column (Str feature) (df_columns dataframe) = Some values
       ∧ mapM Stats.key_of keys = Ok keys'
       ∧ mapM Stats.number_of values = Ok values'
       ∧ NoDup (st_index stats)
       ∧ (∀ z, In z (st_index stats) ↔ In (Int z) keys)
       ∧ ∀ i k, st_index stats !! i = Some k →
           let group := Stats.group k (zip keys' values') in
           let sorted := Stats.sort group in
           let n := length sorted in
           (∀ y, In y group ↔
                 ∃ r, keys' !! r = Some (Some k) ∧ values' !! r = Some (Some y))
           ∧ StronglySorted Qle sorted ∧ sorted ≡ₚ group
           ∧ (Forall Float64.moderate sorted →
              ((n mod 2 = 1)%nat →
                 ∃ a p, sorted !! (n / 2)%nat = Some a
                        ∧ stat_at stats "median" i = Some (Num a)
                        ∧ stat_at stats "50%" i = Some (Num p)
                        ∧ (p == a)%Q)
              ∧ (n ≠ 0%nat → (n mod 2 = 0)%nat →
                 ∃ a b p, sorted !! (n / 2 - 1)%nat = Some a
                          ∧ sorted !! (n / 2)%nat = Some b
                          ∧ stat_at stats "median" i
                            = Some (Num (Float64.div (Float64.add b a) 2))
                          ∧ stat_at stats "50%" i = Some (Num p)
                          ∧ (p == Float64.sub b
                                    (Float64.mul (Float64.sub b a) (1 # 2)))%Q)))
  ∧ (∀ values keys,
       Pandas.get_column (Str feature) (df_columns dataframe) = Some values →
       Pandas.get_column (Str "Conformation") (df_columns dataframe) = Some keys →
       feature ≠ "Conformation" →
       Forall (fun c => ∃ q, c = Num q) values →
       Forall (fun c => ∃ z, c = Int z) keys →
       ∃ stats, build_stats np dataframe feature = Ok stats).
Proof.
  split.
  - intros stats Hrun.
    destruct (build_stats_inv np _ _ _ Hrun)
      as (values & keys & keys' & values' & Hvalues & Hkeys & Hfeature
          & Hkeys' & Hvalues').
    exists keys, values, keys', values'. do 4 (split; [done|]).
    destruct (build_stats_eq np dataframe feature values keys keys' values')
      as (stats' & med & Hrun' & Hsorted & Hindex & _); [done..|].
    rewrite Hrun in Hrun'. apply Ok_inj in Hrun' as <-.
    split; [by apply NoDup_ListNoDup, sorted_NoDup|]. split; [done|].
    destruct (build_stats_columns np _ _ _ _ _ _ Hvalues Hkeys Hfeature
                Hkeys' Hvalues')
      as (stats' & Hrun' & _ & Hmed & Hcols & _).
    rewrite Hrun in Hrun'. apply Ok_inj in Hrun' as <-.
    intros i k Hi. cbv zeta.
    set (group := Stats.group k (zip keys' values')).
    assert (st_index stats ≠ []) as Hne by (intros E; by rewrite E in Hi).
    assert (stat_at stats "median" i = Some (Stats.median (Stats.sort group)))
      as Hmedian.
    { unfold stat_at. rewrite Hmed. cbn [mbind option_bind].
      by rewrite list_lookup_fmap, Hi. }
    assert (stat_at stats "50%" i
            = Some (Stats.quantile (1 # 2) (Stats.sort group))) as H50.
    { unfold stat_at. rewrite (Hcols Hne "50%") by (simpl; tauto).
      cbn [mbind option_bind]. rewrite list_lookup_fmap, Hi. cbn [fmap option_fmap option_map].
      by rewrite describe_50. }
    split; [apply group_In|]. split; [apply sort_sorted|].
    split; [apply sort_Permutation|].
    intros Hfloat. split.
    + intros Hodd.
      destruct (median_quantile_odd _ Hodd) as (a & p & Ha & Hm & Hq & Hp).
      exists a, p. split; [done|]. split; [by rewrite Hmedian, Hm|].
      split; [by rewrite H50, Hq|].
      rewrite Hp. rewrite Forall_forall in Hfloat.
      apply (Hfloat a). by eapply list_elem_of_lookup_2.
    + intros Hn Heven.
      destruct (median_quantile_even (Stats.sort group))
        as (a & b & p & Ha & Hb & Hm & Hq & Hp); [by intros E; rewrite E in Hn|done|].
      exists a, b, p. do 2 (split; [done|]). split; [by rewrite Hmedian, Hm|].
      split; [by rewrite H50, Hq|done].
  - intros values keys Hvalues Hkeys Hne Hnum Hint.
    destruct (mapM_total Stats.key_of keys) as [keys' Hkeys'].
    { eapply Forall_impl; [exact Hint|]. intros c [z ->]. by eexists. }
    destruct (mapM_total Stats.number_of values) as [values' Hvalues'].
    { eapply Forall_impl; [exact Hnum|]. intros c [q ->]. by eexists. }
    destruct (build_stats_eq np dataframe feature values keys keys' values')
      as (stats & _ & Hrun & _); [done..|].
    by exists stats.
Qed.

(** The conformations 4, with the values 10 and 20, and 7, with the values
    1, 2 and 3: the median and the 50% are 15 on the first row and 2 on the
    second. *)
Lemma build_stats_rows_median_witness :
  ∃ stats p q,
    build_stats Example.np Example.table "value" = Ok stats
    ∧ st_index stats = [4; 7]
    ∧ stat_at stats "median" 0 = Some (Num 15)
    ∧ stat_at stats "50%" 0 = Some (Num p) ∧ (p == 15)%Q
    ∧ stat_at stats "median" 1 = Some (Num 2)
    ∧ stat_at stats "50%" 1 = Some (Num q) ∧ (q == 2)%Q.
Proof.
  destruct (build_stats_rows_median Example.np Example.table "value")
    as [Hinv Htotal].
  destruct (Htotal [Num 1; Num 2; Num 3; Num 10; Num 20]%Q
                   [Int 7; Int 7; Int 7; Int 4; Int 4]) as [stats Hrun];
    [reflexivity | reflexivity | discriminate
    | repeat (apply Forall_cons_2; [by eexists|]); apply Forall_nil_2
    | repeat (apply Forall_cons_2; [by eexists|]); apply Forall_nil_2 |].
  destruct (Hinv stats Hrun)
    as (keys & values & keys' & values' & Hkeys & Hvalues & Hkeys' & Hvalues'
        & _ & _ & Hrows).
  vm_compute in Hkeys. injection Hkeys as <-.
  vm_compute in Hvalues. injection Hvalues as <-.
  vm_compute in Hkeys'. injection Hkeys' as <-.
  vm_compute in Hvalues'. injection Hvalues' as <-.
  assert (st_index stats = [4; 7]) as Hindex.
  { vm_compute in Hrun. by injection Hrun as <-. }
  destruct (Hrows 0%nat 4) as (_ & _ & _ & Hrow0); [by rewrite Hindex|].
  destruct (Hrows 1%nat 7) as (_ & _ & _ & Hrow1); [by rewrite Hindex|].
  destruct Hrow0 as [_ Heven].
  { replace (Stats.sort _) with [10; 20]%Q by (vm_compute; reflexivity).
    repeat (apply Forall_cons_2;
              [split; [vm_compute; reflexivity|split; vm_compute; reflexivity]|]).
    apply Forall_nil_2. }
  destruct Hrow1 as [Hodd _].
  { replace (Stats.sort _) with [1; 2; 3]%Q by (vm_compute; reflexivity).
    repeat (apply Forall_cons_2;
              [split; [vm_compute; reflexivity|split; vm_compute; reflexivity]|]).
    apply Forall_nil_2. }
  destruct Heven as (a & b & p & Ha & Hb & Hm & H50 & Hp);
    [discriminate | reflexivity |].
  vm_compute in Ha. injection Ha as <-. vm_compute in Hb. injection Hb as <-.
  destruct Hodd as (c & q & Hc & Hm' & H50' & Hq); [reflexivity|].
  vm_compute in Hc. injection Hc as <-.
  exists stats, p, q. split; [exact Hrun|]. split; [exact Hindex|].
  split; [exact Hm|]. split; [exact H50|]. split; [exact Hp|].
  split; [exact Hm'|]. split; [exact H50'|exact Hq].
Defined.

(** C8 as stated fails in binary64: for the two values -5.0 and 2.6 of one
    conformation the median is (2.6 + -5.0) / 2 = -1.2 (0x1.3333333333333p+0
    in magnitude) and the 50% is 2.6 - (2.6 - -5.0) * 0.5 =
    -1.1999999999999997, one unit in the last place apart. *)
Lemma build_stats_rows_median_counterexample :
  ∃ stats med p50,
    build_stats Example.np Example.pair_table "value" = Ok stats
    ∧ st_index stats = [7]
    ∧ Stats.column "median" stats = Some [Num med]
    ∧ Stats.column "50%" stats = Some [Num p50]
    ∧ med = (-5404319552844595 # 4503599627370496)%Q
    ∧ p50 = (-2702159776422297 # 2251799813685248)%Q
    ∧ ¬ (med == p50)%Q.
Proof.
  eexists _, _, _. split; [vm_compute; reflexivity|].
  split; [reflexivity|]. split; [reflexivity|]. split; [reflexivity|].
  split; [reflexivity|]. split; [reflexivity|]. discriminate.
Qed.

(** * More of the script

    Properties of the functions beyond the statements above, and of the
    functions those statements do not reach. *)



(** ** Internal coordinates: distances, angles, failures *)

(** X15.  With two atom indices [get_internal_coords] returns, for every
    conformation in order, the distance the geometry library computes for
    them, and with three the angle; neither is folded or changed in any way,
    so that an angle above 180 stays as the library gives it. *)
Theorem get_internal_coords_distance_angle (ase : Ase.Impl)
    (coords : list (list (list Q))) (labels : list pyobj) (a0 a1 a2 : Z) :
  get_internal_coords ase coords labels [a0; a1]
    = mapM (fun xyz => mol ← Ase.Atoms ase labels xyz;
                       Ase.get_distance ase mol a0 a1) coords
  ∧ get_internal_coords ase coords labels [a0; a1; a2]
    = mapM (fun xyz => mol ← Ase.Atoms ase labels xyz;
                       Ase.get_angle ase mol a0 a1 a2) coords.
Proof. split; apply get_internal_coords_mapM. Qed.

Lemma mapM_app_Raise {A B} (f : A → result B) pre x post e :
  Forall (fun c => is_ok (f c) = true) pre → f x = Raise e →
  mapM f (pre ++ x :: post) = Raise e.
Proof.
  intros Hpre Hx. induction Hpre as [|c pre Hc _ IH]; simpl.
  - by rewrite Hx.
  - destruct (f c); [|done]. simpl. by rewrite IH.
Qed.

(** X16.  [get_internal_coords] returns all the values or none: a result has
    one value per conformation, in order, each the value of its conformation;
    and the first conformation whose value cannot be computed makes the whole
    call raise that conformation's exception, whatever comes after it. *)
Theorem get_internal_coords_all_or_nothing (ase : Ase.Impl)
    (coords : list (list (list Q))) (labels : list pyobj) (indices : list Z) :
  (∀ vals, get_internal_coords ase coords labels indices = Ok vals →
     length vals = length coords
     ∧ ∀ i xyz, coords !! i = Some xyz →
         ∃ v, vals !! i = Some v ∧ internal_coord ase labels indices xyz = Ok v)
  ∧ (∀ pre xyz post e,
       coords = pre ++ xyz :: post →
       Forall (fun c => is_ok (internal_coord ase labels indices c) = true) pre →
       internal_coord ase labels indices xyz = Raise e →
       get_internal_coords ase coords labels indices = Raise e).
Proof.
  rewrite get_internal_coords_mapM. split.
  - intros vals Hrun. split; [by eapply mapM_Ok_length|].
    intros i xyz Hi. by eapply mapM_Ok_lookup.
  - intros pre xyz post e -> Hpre Hxyz. by apply mapM_app_Raise.
Qed.

Lemma get_internal_coords_all_or_nothing_witness :
  (∃ v, [1; 2; 3]%Q !! 1%nat = Some v
        ∧ internal_coord Example.ase [] [0; 1] [[2; 110; 90]]%Q = Ok v)
  ∧ get_internal_coords Example.ase [[[1; 100; 200]]; []; [[3; 120; 180]]]%Q
      [] [0; 1] = Raise (ValueError "no atoms").
Proof.
  split.
  - destruct (get_internal_coords_all_or_nothing Example.ase Example.coords
                [] [0; 1]) as [Hok _].
    destruct (Hok [1; 2; 3]%Q eq_refl) as [_ Hvals].
    apply (Hvals 1%nat [[2; 110; 90]]%Q eq_refl).
  - destruct (get_internal_coords_all_or_nothing Example.ase
                [[[1; 100; 200]]; []; [[3; 120; 180]]]%Q [] [0; 1]) as [_ Hfail].
    apply (Hfail [[[1; 100; 200]]]%Q [] [[[3; 120; 180]]]%Q);
      [reflexivity | by repeat constructor | reflexivity].
Defined.

(** ** Rectangular tables *)

Lemma set_column_rect label values cols n :
  length values = n →
  Forall (fun lv : cell * list cell => length lv.2 = n) cols →
  Forall (fun lv : cell * list cell => length lv.2 = n)
         (Pandas.set_column label values cols).
Proof.
  intros Hv. induction 1 as [|[l v] cols Hl Hcols IH]; simpl.
  - constructor; [done|constructor].
  - destruct (cell_eqb label l); constructor; simpl in *; auto.
Qed.

Lemma setitem_len df label values df' :
  Pandas.setitem df label values = Ok df' → df_len df' = length values.
Proof.
  unfold Pandas.setitem. destruct (_ && _); [by intros [= <-]|].
  destruct (Nat.eqb_spec (length values) (df_len df)); [|done].
  by intros [= <-].
Qed.

Lemma setitem_rect df label values df' :
  rectangular df → Pandas.setitem df label values = Ok df' → rectangular df'.
Proof.
  unfold rectangular, Pandas.setitem. intros Hrect.
  destruct (_ && _).
  - intros [= <-]. simpl. apply set_column_rect; [done|].
    apply Forall_fmap, Forall_true. intros lv. simpl. by rewrite length_replicate.
  - destruct (Nat.eqb_spec (length values) (df_len df)); [|done].
    intros [= <-]. simpl. by apply set_column_rect.
Qed.

Lemma of_dict_rect items df : Pandas.of_dict items = Ok df → rectangular df.
Proof.
  unfold Pandas.of_dict, rectangular. destruct items as [|[k a] items].
  { intros [= <-]. constructor. }
  destruct (forallb _ _) eqn:Hall; [|done]. intros [= <-]. simpl.
  rewrite forallb_forall in Hall.
  assert (∀ l cols,
            (∀ kv, In kv l → In kv ((k, a) :: items)) →
            Forall (fun lv : cell * list cell => length lv.2 = length a) cols →
            Forall (fun lv : cell * list cell => length lv.2 = length a)
              (foldl (fun cols (kv : string * list cell) =>
                        Pandas.set_column (Str kv.1) kv.2 cols) cols l)) as Hfold.
  { induction l as [|kv l IH]; intros cols Hsub Hcols; simpl; [done|].
    apply IH; [intros kv' Hin; apply Hsub; by right|].
    apply set_column_rect; [|done]. apply Nat.eqb_eq, Hall, Hsub. by left. }
  apply Hfold; [intros kv Hkv; by right|].
  constructor; [done|constructor].
Qed.

Lemma of_array_rect a names df : Pandas.of_array a names = Ok df → rectangular df.
Proof.
  unfold Pandas.of_array, rectangular. destruct (negb _); [done|].
  intros H. invert_binds. injection H as <-. simpl.
  apply Forall_forall. intros [l v] Hin. simpl.
  apply list_elem_of_lookup in Hin as [i Hi].
  apply lookup_zip_with_Some in Hi as (l' & v' & [= <- <-] & _ & Hv).
  rewrite list_lookup_fmap in Hv.
  destruct (x !! i) as [c|] eqn:Hc; [|done]. injection Hv as <-.
  rewrite length_fmap.
  assert (i < length (seq 0 (Pandas.shape1 a)))%nat as Hlt.
  { apply mapM_Ok_length in Hx. rewrite <- Hx. by eapply lookup_lt_Some. }
  destruct (lookup_lt_is_Some_2 _ _ Hlt) as [j Hj].
  destruct (mapM_Ok_lookup _ _ _ _ _ Hx Hj) as (c' & Hc' & Hcol).
  rewrite Hc in Hc'. injection Hc' as <-.
  by apply mapM_Ok_length in Hcol.
Qed.

Lemma get_column_In label cols values :
  Pandas.get_column label cols = Some values → ∃ l, In (l, values) cols.
Proof.
  induction cols as [|[l v] cols IH]; [done|]. simpl.
  destruct (cell_eqb label l).
  - intros [= ->]. exists l. by left.
  - intros H. destruct (IH H) as [l' Hl']. exists l'. by right.
Qed.

Lemma length_concat_const {A} (ls : list (list A)) n :
  Forall (fun l => length l = n) ls → length (concat ls) = (length ls * n)%nat.
Proof. apply length_flatten_rect. Qed.

Lemma melt_rect df id var value df' :
  rectangular df → Pandas.melt df id var value = Ok df' → rectangular df'.
Proof.
  unfold rectangular, Pandas.melt. intros Hrect.
  destruct (Pandas.get_column _ _) as [id_data|] eqn:Hid; [|done].
  intros [= <-]. simpl.
  set (frame := List.filter _ _).
  assert (Forall (fun lv : cell * list cell => length lv.2 = df_len df) frame)
    as Hframe.
  { apply Forall_forall. intros lv Hlv. rewrite Forall_forall in Hrect.
    apply Hrect. apply list_elem_of_In. apply list_elem_of_In in Hlv.
    unfold frame in Hlv. apply filter_In in Hlv as [Hlv _]. done. }
  assert (length id_data = df_len df) as Hlen.
  { destruct (get_column_In _ _ _ Hid) as [l Hl].
    rewrite Forall_forall in Hrect.
    by apply list_elem_of_In, Hrect in Hl. }
  repeat constructor; simpl.
  - rewrite (length_concat_const _ (df_len df)).
    + rewrite length_replicate. lia.
    + by apply Forall_replicate.
  - rewrite (length_concat_const _ (df_len df)).
    + rewrite length_fmap. lia.
    + apply Forall_fmap, Forall_true. intros lv. simpl. by rewrite length_replicate.
  - rewrite (length_concat_const _ (df_len df)).
    + rewrite length_fmap. lia.
    + by apply Forall_fmap.
Qed.

Lemma length_select {A B} (mask : list bool) (l : list A) (l' : list B) :
  length l = length l' →
  length (Pandas.select mask l) = length (Pandas.select mask l').
Proof.
  revert l l'. induction mask as [|b mask IH]; intros [|x l] [|y l']; simpl;
    try done.
  intros [= Hlen]. destruct b; simpl; auto.
Qed.

Lemma filter_rows_rect df mask : rectangular df → rectangular (Pandas.filter_rows df mask).
Proof.
  unfold rectangular, Pandas.filter_rows. simpl. intros Hrect.
  apply Forall_fmap. eapply Forall_impl; [exact Hrect|].
  intros [l v] Hv. simpl in *. apply length_select. by rewrite length_seq.
Qed.

(** ** The tables of the property extractor, column by column *)

Lemma of_dict_single (name : string) (v : list cell) :
  Pandas.of_dict [(name, v)] = Ok (mkDataFrame (length v) [(Str name, v)]).
Proof. unfold Pandas.of_dict. cbn [forallb snd andb]. by rewrite Nat.eqb_refl. Qed.

Lemma of_dict_pair (name : string) (v ids : list cell) df :
  String.eqb "Conformation" name = false →
  Pandas.of_dict [(name, v); ("Conformation", ids)] = Ok df →
  df = mkDataFrame (length v) [(Str name, v); (Str "Conformation", ids)]
  ∧ length ids = length v.
Proof.
  intros Hne. unfold Pandas.of_dict. cbn [forallb snd fst andb foldl].
  rewrite Nat.eqb_refl. cbn [andb].
  destruct (Nat.eqb_spec (length ids) (length v)) as [Hlen|]; [|done].
  cbn [andb Pandas.set_column]. rewrite cell_eqb_Str, Hne.
  cbn [Pandas.set_column]. by intros <-%Ok_inj.
Qed.

Lemma attach_single data (name : string) (v : list cell) df :
  String.eqb "Conformation" name = false →
  attach_conformation data (mkDataFrame (length v) [(Str name, v)]) = Ok df →
  ∃ col,
    df = mkDataFrame (length (conf data))
           [(Str name, col); (Str "Conformation", Int <$> conf data)]
    ∧ ((col = v ∧ length v = length (conf data))
       ∨ (v = [] ∧ col = replicate (length (conf data)) NaN)).
Proof.
  intros Hne. unfold attach_conformation, Pandas.label_in, Pandas.columns.
  cbn [df_columns fmap list_fmap fst existsb]. rewrite cell_eqb_Str, Hne.
  cbn [orb negb]. unfold Pandas.setitem. cbn [df_len df_columns].
  rewrite length_fmap.
  destruct (Nat.eqb_spec (length v) 0) as [Hv|Hv];
    destruct (Nat.eqb_spec (length (conf data)) 0) as [Hc|Hc]; cbn [andb negb].
  - rewrite Hv, Hc. cbn [Nat.eqb Pandas.set_column]. rewrite cell_eqb_Str, Hne.
    intros <-%Ok_inj. exists v. split; [done|]. left. split; [done|]. lia.
  - cbn [fmap list_fmap Pandas.set_column fst]. rewrite cell_eqb_Str, Hne.
    intros <-%Ok_inj. eexists. split; [done|]. right.
    split; [|done]. by destruct v.
  - destruct (Nat.eqb_spec (length (conf data)) (length v)) as [Hlen|]; [|done].
    rewrite <- Hlen in Hv. done.
  - destruct (Nat.eqb_spec (length (conf data)) (length v)) as [Hlen|]; [|done].
    cbn [Pandas.set_column]. rewrite cell_eqb_Str, Hne. intros <-%Ok_inj.
    exists v. rewrite Hlen. split; [done|]. by left.
Qed.

Lemma attach_pair data (name : string) (v ids : list cell) n df :
  attach_conformation data
    (mkDataFrame n [(Str name, v); (Str "Conformation", ids)]) = Ok df →
  df = mkDataFrame n [(Str name, v); (Str "Conformation", ids)].
Proof.
  unfold attach_conformation, Pandas.label_in, Pandas.columns.
  cbn [df_columns fmap list_fmap fst existsb].
  rewrite (cell_eqb_Str "Conformation" "Conformation"), String.eqb_refl.
  rewrite orb_true_r. cbn [orb negb]. by intros <-%Ok_inj.
Qed.

Lemma numeric_Num (v : list Q) : Forall numeric (Num <$> v).
Proof. by apply Forall_fmap, Forall_true. Qed.

Lemma numeric_NaN (n : nat) : Forall numeric (replicate n NaN).
Proof. by apply Forall_replicate. Qed.

Ltac single_dict :=
  match goal with
  | H : Pandas.of_dict [_] = Ok _ |- _ =>
      rewrite of_dict_single in H; apply Ok_inj in H as <-
  end.

(** The table of a property with a single value per conformation. *)
Lemma data_to_plot_per_conformation_table np ui data property df :
  In property per_conformation →
  data_to_plot np ui data property = Ok df →
  ∃ col,
    df = mkDataFrame (length (conf data))
           [(Str property, col); (Str "Conformation", Int <$> conf data)]
    ∧ length col = length (conf data) ∧ Forall numeric col.
Proof.
  intros Hin. simpl in Hin.
  destruct Hin as [<-|[<-|[<-|[<-|[<-|[<-|[]]]]]]].
  - change (data_to_plot np ui data "Potential energy") with
      ((m ← Numpy.min (flatten (ds_E data));
        Pandas.of_dict [("Potential energy",
                         Num <$> ((fun e => e - m)%Q <$> flatten (ds_E data)))])
       ≫= attach_conformation data).
    intros H. invert_binds. single_dict.
    apply attach_single in H as (col & -> & Hcol); [|done].
    exists col. split; [done|].
    destruct Hcol as [[-> ?]|[_ ->]];
      [split; [done|apply numeric_Num]
      |split; [apply length_replicate|apply numeric_NaN]].
  - change (data_to_plot np ui data "Forces") with
      (process_force_data np ui data data ≫= attach_conformation data).
    intros H. invert_binds. unfold process_force_data in Hx.
    invert_binds. cbv zeta in Hx. destruct (dict_get _ _); [|done].
    invert_binds. apply of_dict_pair in Hx as [-> Hlen]; [|done].
    apply attach_pair in H as ->. rewrite !length_fmap in Hlen.
    rewrite !length_fmap, <- Hlen. eexists. split; [done|].
    split; [by rewrite !length_fmap|apply numeric_Num].
  - change (data_to_plot np ui data "Dipole moment") with
      (process_dipole_data np ui data data ≫= attach_conformation data).
    intros H. invert_binds. unfold process_dipole_data in Hx.
    invert_binds. cbv zeta in Hx.
    apply of_dict_pair in Hx as [-> Hlen]; [|done].
    apply attach_pair in H as ->. rewrite length_fmap in Hlen.
    rewrite <- Hlen. eexists. split; [done|]. split; [done|].
    destruct (dict_get _ _); [apply numeric_Num|apply numeric_NaN].
  - change (data_to_plot np ui data "Quadrupole moment") with
      (process_quadrupole_data np ui data data ≫= attach_conformation data).
    intros H. invert_binds. unfold process_quadrupole_data in Hx.
    invert_binds. cbv zeta in Hx.
    apply of_dict_pair in Hx as [-> Hlen]; [|done].
    apply attach_pair in H as ->. rewrite length_fmap in Hlen.
    rewrite <- Hlen. eexists. split; [done|]. split; [done|].
    destruct (dict_get _ _); [apply numeric_Num|apply numeric_NaN].
  - change (data_to_plot np ui data "HOMO-LUMO gap") with
      ((lumo ← Pandas.column_of 1 (ds_HL data);
        homo ← Pandas.column_of 0 (ds_HL data);
        Pandas.of_dict [("HOMO-LUMO gap", Num <$> zip_with Qminus lumo homo)])
       ≫= attach_conformation data).
    intros H. invert_binds. single_dict.
    apply attach_single in H as (col & -> & Hcol); [|done].
    exists col. split; [done|].
    destruct Hcol as [[-> ?]|[_ ->]];
      [split; [done|apply numeric_Num]
      |split; [apply length_replicate|apply numeric_NaN]].
  - change (data_to_plot np ui data "Electronic spatial extent") with
      (Pandas.of_dict [("Electronic spatial extent", Num <$> flatten (ds_R2 data))]
       ≫= attach_conformation data).
    intros H. invert_binds. single_dict.
    apply attach_single in H as (col & -> & Hcol); [|done].
    exists col. split; [done|].
    destruct Hcol as [[-> ?]|[_ ->]];
      [split; [done|apply numeric_Num]
      |split; [apply length_replicate|apply numeric_NaN]].
Qed.

(** ** Column names of the internal-coordinate table *)

Lemma has_digit_app (s t : string) :
  has_digit (s +:+ t) = has_digit s || has_digit t.
Proof.
  induction s as [|c s IH]; [done|]. simpl.
  by rewrite IH, orb_assoc.
Qed.

Lemma pretty_N_go_has_digit (x : N) (s : string) :
  has_digit s = true → has_digit (pretty_N_go x s) = true.
Proof.
  revert s. induction (N.lt_wf_0 x) as [x _ IH]; intros s Hs.
  destruct (decide (x = 0)%N) as [->|Hx]; [by rewrite pretty_N_go_0|].
  rewrite pretty_N_go_step by lia. apply IH.
  - apply N.div_lt; lia.
  - simpl. by rewrite pretty_N_char_digit.
Qed.

Lemma pretty_N_has_digit (x : N) : has_digit (pretty x) = true.
Proof.
  unfold pretty, pretty_N. case_decide; [done|].
  rewrite pretty_N_go_step by lia. apply pretty_N_go_has_digit.
  simpl. by rewrite pretty_N_char_digit.
Qed.

Lemma pretty_Z_has_digit (z : Z) : has_digit (pretty z) = true.
Proof.
  unfold pretty, pretty_Z. destruct z as [|p|p]; [done| |].
  - apply pretty_N_has_digit.
  - exact (pretty_N_has_digit (N.pos p)).
Qed.

Lemma join_has_digit (sep : string) (labels : list string) :
  labels ≠ [] → Forall (fun s => has_digit s = true) labels →
  has_digit (PyStr.join sep labels) = true.
Proof.
  intros Hne Hall. destruct Hall as [|s labels Hs Hall]; [done|]. clear Hne.
  revert s Hs. induction Hall as [|t labels Ht _ IH]; intros s Hs; [done|].
  change (PyStr.join sep (s :: t :: labels))
    with (s +:+ sep +:+ PyStr.join sep (t :: labels)).
  by rewrite has_digit_app, Hs.
Qed.

Lemma split_from_ne (sep : ascii) (cur s : string) :
  PyStr.split_from sep cur s ≠ [].
Proof.
  revert cur. induction s as [|c s IH]; intros cur; simpl; [done|].
  destruct (Ascii.eqb c sep); [done|apply IH].
Qed.

Lemma ic_col_name_has_digit dataset ic name :
  ic_col_name dataset ic = Ok name → has_digit name = true.
Proof.
  unfold ic_col_name. intros H. invert_binds. injection H as <-.
  rename x into indices, x0 into all_labels, x1 into atom_labels, x2 into labels.
  apply join_has_digit.
  - pose proof (mapM_Ok_length _ _ _ Hx) as H1.
    pose proof (mapM_Ok_length _ _ _ Hx1) as H2.
    pose proof (mapM_Ok_length _ _ _ Hx2) as H3.
    rewrite length_zip in H3.
    pose proof (split_from_ne "," EmptyString (PyStr.strip ic)) as Hne.
    unfold PyStr.split in H1.
    destruct (PyStr.split_from _ _ _); [done|]. destruct labels; [|done].
    simpl in *. lia.
  - apply Forall_forall. intros s Hs.
    apply list_elem_of_lookup in Hs as [i Hi].
    assert (i < length (zip atom_labels indices))%nat as Hlt.
    { apply mapM_Ok_length in Hx2. rewrite <- Hx2. by eapply lookup_lt_Some. }
    destruct (lookup_lt_is_Some_2 _ _ Hlt) as [[a b] Hab].
    destruct (mapM_Ok_lookup _ _ _ _ _ Hx2 Hab) as (s' & Hs' & Hjoin).
    rewrite Hi in Hs'. injection Hs' as <-.
    destruct a as [t|]; [|done]. injection Hjoin as <-.
    rewrite has_digit_app, pretty_Z_has_digit. apply orb_true_r.
Qed.

(** One turn of the loop of [build_ic_dataframe] sets the column named by
    [ic_col_name] to the values of [get_internal_coords]. *)
Lemma build_ic_column_eq ase dataset df ic :
  build_ic_column ase dataset df ic =
  (atom_indices ← mapM PyStr.int (PyStr.split "," (PyStr.strip ic));
   atom_labels ← z_to_labels dataset;
   values ← get_internal_coords ase (ds_R dataset) atom_labels atom_indices;
   name ← ic_col_name dataset ic;
   Pandas.setitem df (Str name) (Num <$> values)).
Proof.
  unfold build_ic_column, ic_col_name.
  destruct (mapM PyStr.int _) as [indices|]; [|done]. rsimpl.
  destruct (z_to_labels dataset) as [labels|]; [|done]. rsimpl.
  destruct (get_internal_coords _ _ _ _) as [values|]; [|done]. rsimpl.
  destruct (mapM (index_Z labels) indices) as [atom_labels|]; [|done]. rsimpl.
  by destruct (mapM _ (zip atom_labels indices)).
Qed.

Lemma build_ic_column_inv ase dataset df ic df' :
  build_ic_column ase dataset df ic = Ok df' →
  ∃ indices labels values name,
    mapM PyStr.int (PyStr.split "," (PyStr.strip ic)) = Ok indices
    ∧ z_to_labels dataset = Ok labels
    ∧ get_internal_coords ase (ds_R dataset) labels indices = Ok values
    ∧ ic_col_name dataset ic = Ok name
    ∧ Pandas.setitem df (Str name) (Num <$> values) = Ok df'.
Proof.
  rewrite build_ic_column_eq. intros H. invert_binds. by eexists _, _, _, _.
Qed.

Lemma cell_eqb_Str_eq (s : string) (l : cell) :
  cell_eqb (Str s) l = true → l = Str s.
Proof.
  destruct l as [| |t|]; simpl; try done. intros H. apply String.eqb_eq in H.
  by subst.
Qed.

Lemma label_in_Str (s : string) (names : list string) :
  Pandas.label_in (Str s) (Str <$> names) = true ↔ In s names.
Proof.
  unfold Pandas.label_in. rewrite existsb_exists. split.
  - intros (l & Hl & Heq). apply cell_eqb_Str_eq in Heq as ->.
    apply list_elem_of_In, list_elem_of_fmap in Hl as (t & [= ->] & Ht).
    by apply list_elem_of_In.
  - intros Hin. exists (Str s). split.
    + apply list_elem_of_In, list_elem_of_fmap. exists s.
      split; [done|by apply list_elem_of_In].
    + simpl. apply String.eqb_refl.
Qed.

(** Setting a column keeps the labels, or appends the new one. *)
Lemma set_column_labels label values cols :
  (Pandas.set_column label values cols).*1
  = if Pandas.label_in label (cols.*1) then cols.*1 else cols.*1 ++ [label].
Proof.
  unfold Pandas.label_in. induction cols as [|[l v] cols IH]; [done|].
  cbn [Pandas.set_column fmap list_fmap existsb fst].
  destruct (cell_eqb label l); [done|]. cbn [orb fmap list_fmap fst].
  fold (fmap (M := list) (@fst cell (list cell))). rewrite IH.
  by destruct (existsb _ _).
Qed.

Lemma setitem_labels df (name : string) values df' (names : list string) :
  Pandas.setitem df (Str name) values = Ok df' →
  Pandas.columns df = Str <$> names →
  Pandas.columns df'
  = Str <$> (if bool_decide (name ∈ names) then names else names ++ [name]).
Proof.
  intros Hset Hnames. destruct (setitem_inv _ _ _ _ Hset) as (cols & Hcols & Hl).
  unfold Pandas.columns in *. rewrite Hcols, set_column_labels, Hl, Hnames.
  destruct (Pandas.label_in _ _) eqn:E.
  - apply label_in_Str, list_elem_of_In in E. by rewrite bool_decide_eq_true_2.
  - rewrite bool_decide_eq_false_2; [by rewrite fmap_app|].
    intros Hin. apply list_elem_of_In, label_in_Str in Hin. congruence.
Qed.

Section BuildIcFacts.

Variable ase : Ase.Impl.
Variable dataset : Dataset.

Lemma build_ic_loop_inv specs df df' names0 :
  build_ic_loop ase dataset specs df = Ok df' →
  rectangular df → Pandas.columns df = Str <$> names0 →
  rectangular df'
  ∧ ∃ names,
      Pandas.columns df' = Str <$> names
      ∧ (length names ≤ length names0 + length specs)%nat
      ∧ (∀ name, In name names0 → In name names)
      ∧ (∀ ic, In ic specs → ∃ name, ic_col_name dataset ic = Ok name ∧ In name names)
      ∧ (∀ name, In name names →
           In name names0 ∨ ∃ ic, In ic specs ∧ ic_col_name dataset ic = Ok name).
Proof.
  revert df names0. induction specs as [|ic specs IH]; intros df names0; simpl.
  - intros [= <-] Hrect Hnames. split; [done|]. exists names0.
    split; [done|]. split; [lia|]. split; [done|]. split; [by intros ? []|].
    intros name Hname. by left.
  - intros H Hrect Hnames. apply bind_Ok in H as (df1 & Hcol & Hloop).
    apply build_ic_column_inv in Hcol
      as (indices & labels & values & name & _ & _ & _ & Hname & Hset).
    pose proof (setitem_rect _ _ _ _ Hrect Hset) as Hrect1.
    pose proof (setitem_labels _ _ _ _ _ Hset Hnames) as Hnames1.
    destruct (IH _ _ Hloop Hrect1 Hnames1)
      as (Hrect' & names & Hcols & Hlen & Hkeep & Hall & Hfrom).
    split; [done|]. exists names. split; [done|].
    assert (∀ n, In n (if bool_decide (name ∈ names0) then names0
                       else names0 ++ [name]) ↔ In n names0 ∨ n = name) as Hin1.
    { intros n. case_bool_decide as Hd.
      - apply list_elem_of_In in Hd. split; [by left|]. by intros [?| ->].
      - rewrite in_app_iff. simpl. intuition. }
    split; [|split; [|split]].
    + case_bool_decide; rewrite ?length_app in Hlen; simpl in Hlen; lia.
    + intros n Hn. apply Hkeep, Hin1. by left.
    + intros ic' [<-|Hic'].
      * exists name. split; [done|]. apply Hkeep, Hin1. by right.
      * by apply Hall.
    + intros n Hn. destruct (Hfrom n Hn) as [Hn0|(ic' & Hic' & Hn')].
      * apply Hin1 in Hn0 as [Hn0| ->]; [by left|]. right. exists ic.
        split; [by left|done].
      * right. exists ic'. split; [by right|done].
Qed.

End BuildIcFacts.

(** X17.  The table of [build_ic_dataframe], whenever it is returned, has one
    row per conformation identifier and is rectangular; its columns are the
    coordinate columns, at most one per selected coordinate and each named as
    lines 275-277 name it, followed by 'Conformation'. *)
Theorem build_ic_dataframe_shape (ase : Ase.Impl) (data dataset : Dataset)
    (selected_coords : list string) (df : DataFrame) :
  build_ic_dataframe ase data dataset selected_coords = Ok df →
  df_len df = length (conf data)
  ∧ rectangular df
  ∧ ∃ names,
      Pandas.columns df = (Str <$> names) ++ [Str "Conformation"]
      ∧ (length names ≤ length selected_coords)%nat
      ∧ (∀ ic, In ic selected_coords →
           ∃ name, ic_col_name dataset ic = Ok name ∧ In name names)
      ∧ (∀ name, In name names →
           ∃ ic, In ic selected_coords ∧ ic_col_name dataset ic = Ok name).
Proof.
  unfold build_ic_dataframe. intros H. apply bind_Ok in H as (df0 & Hloop & Hset).
  destruct (build_ic_loop_inv ase dataset selected_coords Pandas.empty df0 [])
    as (Hrect & names & Hcols & Hlen & _ & Hall & Hfrom);
    [done | constructor | done |].
  split; [|split; [by eapply setitem_rect|]].
  { erewrite setitem_len by done. by rewrite length_fmap. }
  exists names. rewrite (setitem_labels _ _ _ _ _ Hset Hcols).
  assert (∀ name, In name names →
            ∃ ic, In ic selected_coords ∧ ic_col_name dataset ic = Ok name)
    as Hfrom'.
  { intros name Hname. by destruct (Hfrom name Hname) as [[]|]. }
  rewrite bool_decide_eq_false_2.
  - rewrite fmap_app. split; [done|]. split; [simpl in Hlen; lia|]. done.
  - intros Hin. apply list_elem_of_In in Hin.
    destruct (Hfrom' _ Hin) as (ic & _ & Hname).
    apply ic_col_name_has_digit in Hname. by vm_compute in Hname.
Qed.

Lemma build_ic_dataframe_shape_witness :
  ∃ df, build_ic_dataframe Example.ase Example.data Example.data
          ["1,0,2,3"; "0,1"] = Ok df
        ∧ df_len df = 2%nat
        ∧ Pandas.columns df = [Str "C1-H0-N2-O3"; Str "H0-C1"; Str "Conformation"].
Proof.
  eexists. split; [vm_compute; reflexivity|].
  destruct (build_ic_dataframe_shape Example.ase Example.data Example.data
              ["1,0,2,3"; "0,1"] _ eq_refl) as (Hlen & _ & _).
  split; [exact Hlen | reflexivity].
Defined.

(** X18.  With one selected coordinate and at least one conformation, the
    table that is returned is the column of the values of
    [get_internal_coords], under the name of the coordinate, beside the
    conformation identifiers; there are as many identifiers as geometries. *)
Theorem build_ic_dataframe_single (ase : Ase.Impl) (data dataset : Dataset)
    (ic : string) (df : DataFrame) :
  ds_R dataset ≠ [] →
  build_ic_dataframe ase data dataset [ic] = Ok df →
  ∃ indices labels values name,
    mapM PyStr.int (PyStr.split "," (PyStr.strip ic)) = Ok indices
    ∧ z_to_labels dataset = Ok labels
    ∧ get_internal_coords ase (ds_R dataset) labels indices = Ok values
    ∧ ic_col_name dataset ic = Ok name
    ∧ length (conf data) = length (ds_R dataset)
    ∧ df = mkDataFrame (length (ds_R dataset))
             [ (Str name, Num <$> values);
               (Str "Conformation", Int <$> conf data) ].
Proof.
  intros HR. unfold build_ic_dataframe. cbn [build_ic_loop]. intros H.
  apply bind_Ok in H as (df0 & H0 & Hset).
  apply bind_Ok in H0 as (df1 & Hcol & [= ->]).
  apply build_ic_column_inv in Hcol
    as (indices & labels & values & name & Hidx & Hlabels & Hvals & Hname & Hset1).
  exists indices, labels, values, name. repeat (split; [done|]).
  assert (length values = length (ds_R dataset)) as Hlen.
  { rewrite get_internal_coords_mapM in Hvals. by eapply mapM_Ok_length. }
  assert (length (ds_R dataset) ≠ 0%nat) as Hne by (by destruct (ds_R dataset)).
  unfold Pandas.setitem in Hset1. cbn [Pandas.empty df_len df_columns] in Hset1.
  rewrite length_fmap, Hlen in Hset1.
  rewrite (proj2 (Nat.eqb_neq _ _) Hne) in Hset1. cbn in Hset1.
  injection Hset1 as <-.
  assert (cell_eqb (Str "Conformation") (Str name) = false) as Hfresh.
  { rewrite cell_eqb_Str. apply ic_col_name_has_digit in Hname.
    destruct (String.eqb_spec "Conformation" name) as [<-|]; [|done].
    by vm_compute in Hname. }
  unfold Pandas.setitem in Hset. cbn [df_len df_columns] in Hset.
  rewrite length_fmap in Hset.
  rewrite (proj2 (Nat.eqb_neq (length (ds_R dataset)) 0) Hne) in Hset.
  cbn [andb] in Hset.
  destruct (Nat.eqb_spec (length (conf data)) (length (ds_R dataset)))
    as [Hconf|]; [|done].
  split; [done|]. cbn [Pandas.set_column] in Hset. rewrite Hfresh in Hset.
  by injection Hset as <-.
Qed.

Lemma build_ic_dataframe_single_witness :
  ∃ values,
    get_internal_coords Example.ase (ds_R Example.data)
      [PStr "H"; PStr "C"; PStr "N"; PStr "O"] [0; 1] = Ok values
    ∧ build_ic_dataframe Example.ase Example.data Example.data ["0,1"]
      = Ok (mkDataFrame 2 [ (Str "H0-C1", Num <$> values);
                            (Str "Conformation", [Int 4; Int 7]) ]).
Proof.
  destruct (build_ic_dataframe_single Example.ase Example.data Example.data "0,1"
              (mkDataFrame 2 [ (Str "H0-C1", [Num 0; Num 0]%Q);
                               (Str "Conformation", [Int 4; Int 7]) ]))
    as (indices & labels & values & name & Hidx & Hlabels & Hvals & Hname & _ & Hdf);
    [discriminate | vm_compute; reflexivity |].
  vm_compute in Hidx. injection Hidx as <-.
  vm_compute in Hlabels. injection Hlabels as <-.
  vm_compute in Hname. injection Hname as <-.
  exists values. split; [exact Hvals|].
  injection Hdf as Hdf. rewrite <- Hdf. vm_compute. reflexivity.
Defined.

(** Setting a column twice to the same values is setting it once. *)
Lemma set_column_idem (name : string) values cols :
  Pandas.set_column (Str name) values (Pandas.set_column (Str name) values cols)
  = Pandas.set_column (Str name) values cols.
Proof.
  induction cols as [|[l v] cols IH]; cbn [Pandas.set_column].
  - by rewrite cell_eqb_Str, String.eqb_refl.
  - destruct (cell_eqb (Str name) l) eqn:E; cbn [Pandas.set_column]; rewrite E.
    + done.
    + by rewrite IH.
Qed.

Lemma setitem_idem df (name : string) values df' :
  Pandas.setitem df (Str name) values = Ok df' →
  Pandas.setitem df' (Str name) values = Ok df'.
Proof.
  unfold Pandas.setitem.
  destruct (Nat.eqb (df_len df) 0) eqn:Hz;
    destruct (Nat.eqb (length values) 0) eqn:Hv; cbn [andb negb];
    try (destruct (Nat.eqb (length values) (df_len df)) eqn:He; [|done]);
    intros [= <-]; cbn [df_len df_columns];
    rewrite ?Hz, ?Hv, ?andb_false_r; cbn [andb negb];
    rewrite ?He, ?Nat.eqb_refl, ?set_column_idem; done.
Qed.

(** X19.  Selecting the same coordinate twice in a row is selecting it once:
    the second turn of the loop rewrites the column the first one wrote. *)
Theorem build_ic_dataframe_repeated (ase : Ase.Impl) (data dataset : Dataset)
    (ic : string) (rest : list string) :
  build_ic_dataframe ase data dataset (ic :: ic :: rest)
  = build_ic_dataframe ase data dataset (ic :: rest).
Proof.
  unfold build_ic_dataframe. cbn [build_ic_loop].
  destruct (build_ic_column ase dataset Pandas.empty ic) as [df1|e] eqn:H1;
    [|done].
  rsimpl. assert (build_ic_column ase dataset df1 ic = Ok df1) as ->; [|done].
  apply build_ic_column_inv in H1
    as (indices & labels & values & name & Hidx & Hlabels & Hvals & Hname & Hset).
  rewrite build_ic_column_eq, Hidx. rsimpl. rewrite Hlabels. rsimpl.
  rewrite Hvals. rsimpl. rewrite Hname. rsimpl. by eapply setitem_idem.
Qed.

Lemma build_ic_loop_Raise ase dataset specs df ic :
  In ic specs → (∀ df', is_ok (build_ic_column ase dataset df' ic) = false) →
  is_ok (build_ic_loop ase dataset specs df) = false.
Proof.
  intros Hin Hbad. revert df. induction specs as [|ic' specs IH]; [done|].
  intros df. cbn [build_ic_loop].
  destruct Hin as [->|Hin].
  - specialize (Hbad df). by destruct (build_ic_column ase dataset df ic).
  - destruct (build_ic_column ase dataset df ic'); [|done]. rsimpl. by apply IH.
Qed.

Lemma split_from_cons (sep : ascii) (s : string) :
  PyStr.split sep (String sep s) = "" :: PyStr.split sep s.
Proof. unfold PyStr.split. simpl. by rewrite Ascii.eqb_refl. Qed.

(** X20.  A selection with an empty coordinate (nothing, or blanks only,
    between two dashes, before the first or after the last one) is refused:
    no table is returned.  In particular a text that starts with a dash, as a
    negative atom index would, fails on [int('')] before anything is computed. *)
Theorem build_ic_dataframe_blank (ase : Ase.Impl) (data dataset : Dataset) :
  (∀ selected_coords ic,
     In ic selected_coords → PyStr.strip ic = "" →
     is_ok (build_ic_dataframe ase data dataset selected_coords) = false)
  ∧ (∀ text, ∃ msg,
       build_ic_dataframe ase data dataset (PyStr.split "-" (String "-" text))
       = Raise (ValueError msg)).
Proof.
  split.
  - intros specs ic Hin Hblank. unfold build_ic_dataframe.
    pose proof (build_ic_loop_Raise ase dataset specs Pandas.empty ic Hin) as H.
    destruct (build_ic_loop _ _ _ _); [|done]. discriminate H.
    intros df'. unfold build_ic_column. by rewrite Hblank.
  - intros text. rewrite split_from_cons. by eexists.
Qed.

Lemma build_ic_dataframe_blank_witness :
  is_ok (build_ic_dataframe Example.ase Example.data Example.data
           (PyStr.split "-" "0,1- -1,2")) = false
  ∧ ∃ msg, build_ic_dataframe Example.ase Example.data Example.data
             (PyStr.split "-" "-1,0") = Raise (ValueError msg).
Proof.
  destruct (build_ic_dataframe_blank Example.ase Example.data Example.data)
    as [Hblank Hdash].
  split.
  - apply (Hblank _ " "); [vm_compute; tauto | reflexivity].
  - apply (Hdash "1,0").
Defined.

(** ** Loader: failures and the life of cache entries *)

Section LoaderMore.

Import Loader.
Variable remote : Remote.

Lemma get_data_zenodo_body_Raise molecule w e :
  (get_data_zenodo_body remote molecule w).1 = Raise e →
  requests_get remote (zenodo_data_path (normalize molecule)) = Raise e
  ∨ (∃ response,
       requests_get remote (zenodo_data_path (normalize molecule)) = Ok response
       ∧ 400 <= status_code response < 600
       ∧ e = HTTPError (status_code response))
  ∨ (∃ response,
       requests_get remote (zenodo_data_path (normalize molecule)) = Ok response
       ∧ ¬ (400 <= status_code response < 600)
       ∧ np_load remote (content response) = Raise e).
Proof.
  unfold get_data_zenodo_body. cbn [fst]. 
  destruct (requests_get remote _) as [response|e'] eqn:Hget; rsimpl.
  - intros H. right. unfold raise_for_status in H.
    destruct (Z.leb_spec 400 (status_code response)) as [Hlo|Hlo];
      destruct (Z.ltb_spec (status_code response) 600) as [Hhi|Hhi];
      cbn [andb mbind result_bind] in H.
    + left. exists response. split; [done|]. split; [lia|congruence].
    + right. exists response. split; [done|]. split; [lia|done].
    + right. exists response. split; [done|]. split; [lia|done].
    + right. exists response. split; [done|]. split; [lia|done].
  - intros [= ->]. by left.
Qed.

End LoaderMore.

(** X1.  A load that fails stores nothing: the cache is as it was, the URL
    of the archive was requested once, and the failure is the one of the
    transport, or the HTTP error for a status from 400 to 599, or the one of
    the archive decoder, in that order.  The name was not cached before. *)
Theorem get_data_zenodo_failure (remote : Loader.Remote) (molecule : string)
    (w w' : Loader.World) (e : exn) :
  Loader.get_data_zenodo remote molecule w = (Raise e, w') →
  Loader.cache w !! molecule = None
  ∧ Loader.cache w' = Loader.cache w
  ∧ Loader.requested w'
    = Loader.requested w ++ [Loader.zenodo_data_path (Loader.normalize molecule)]
  ∧ (Loader.requests_get remote (Loader.zenodo_data_path (Loader.normalize molecule))
       = Raise e
     ∨ (∃ response,
          Loader.requests_get remote
            (Loader.zenodo_data_path (Loader.normalize molecule)) = Ok response
          ∧ 400 <= Loader.status_code response < 600
          ∧ e = HTTPError (Loader.status_code response))
     ∨ (∃ response,
          Loader.requests_get remote
            (Loader.zenodo_data_path (Loader.normalize molecule)) = Ok response
          ∧ ¬ (400 <= Loader.status_code response < 600)
          ∧ Loader.np_load remote (Loader.content response) = Raise e)).
Proof.
  unfold Loader.get_data_zenodo.
  destruct (Loader.cache w !! molecule) as [d|] eqn:Hc; [done|].
  pose proof (get_data_zenodo_body_Raise remote molecule w) as Hbody.
  destruct (Loader.get_data_zenodo_body remote molecule w) as [[d|e'] w1] eqn:Hb;
    [done|].
  intros [= -> <-]. split; [done|].
  assert (w1 = (Loader.get_data_zenodo_body remote molecule w).2) as ->
    by (by rewrite Hb).
  split; [done|]. split; [done|]. by apply Hbody.
Qed.

Lemma get_data_zenodo_failure_witness :
  Loader.get_data_zenodo Scenario.not_found "thymine" Loader.empty_world
    = (Raise (HTTPError 404),
       Loader.mkWorld ∅ [Loader.zenodo_data_path "thymine"])
  ∧ Loader.cache
      (Loader.get_data_zenodo Scenario.not_found "thymine" Loader.empty_world).2
    = ∅.
Proof.
  split; [reflexivity|].
  apply (get_data_zenodo_failure Scenario.not_found "thymine" Loader.empty_world
           (Loader.mkWorld ∅ [Loader.zenodo_data_path "thymine"])
           (HTTPError 404) eq_refl).
Defined.

(** X2.  Cache entries are never dropped or replaced: whatever is loaded
    next, and whether it succeeds, an entry of the cache stays as it is.  A
    name that is cached is answered from the cache without a request, also
    when the server has become unreachable. *)
Theorem get_data_zenodo_cache_stable (remote : Loader.Remote)
    (molecule other : string) (w : Loader.World) (d : Dataset) :
  Loader.cache w !! other = Some d →
  Loader.cache (Loader.get_data_zenodo remote molecule w).2 !! other = Some d
  ∧ Loader.get_data_zenodo remote other w = (Ok d, w).
Proof.
  intros Hd. split; [|unfold Loader.get_data_zenodo; by rewrite Hd].
  unfold Loader.get_data_zenodo.
  destruct (Loader.cache w !! molecule) as [d'|] eqn:Hc; [done|].
  unfold Loader.get_data_zenodo_body.
  destruct (_ ≫= _) as [d'|e]; simpl; [|done].
  rewrite lookup_insert_ne; [done|]. intros <-. congruence.
Qed.

Lemma get_data_zenodo_cache_stable_witness :
  Loader.cache
    (Loader.get_data_zenodo Scenario.unreachable "toluene"
       (Loader.get_data_zenodo Example.remote "urea" Loader.empty_world).2).2
    !! "urea" = Some Example.data
  ∧ Loader.get_data_zenodo Scenario.unreachable "urea"
      (Loader.get_data_zenodo Example.remote "urea" Loader.empty_world).2
    = (Ok Example.data,
       (Loader.get_data_zenodo Example.remote "urea" Loader.empty_world).2).
Proof.
  apply (get_data_zenodo_cache_stable Scenario.unreachable "toluene" "urea"
           (Loader.get_data_zenodo Example.remote "urea" Loader.empty_world).2
           Example.data).
  by vm_compute.
Defined.

(** ** From the coordinate table to its statistics *)

Lemma set_column_numeric label values cols :
  Forall numeric values →
  Forall (fun lv : cell * list cell => Forall numeric lv.2) cols →
  Forall (fun lv : cell * list cell => Forall numeric lv.2)
         (Pandas.set_column label values cols).
Proof.
  intros Hv. induction 1 as [|[l v] cols Hl Hcols IH]; simpl.
  - constructor; [done|constructor].
  - destruct (cell_eqb label l); constructor; simpl in *; auto.
Qed.

Lemma setitem_numeric df label values df' :
  Forall numeric values →
  Forall (fun lv : cell * list cell => Forall numeric lv.2) (df_columns df) →
  Pandas.setitem df label values = Ok df' →
  Forall (fun lv : cell * list cell => Forall numeric lv.2) (df_columns df').
Proof.
  intros Hv Hdf. unfold Pandas.setitem. destruct (_ && _).
  - intros <-%Ok_inj. cbn [df_columns]. apply set_column_numeric; [done|].
    apply Forall_fmap, Forall_true. intros lv. simpl. apply numeric_NaN.
  - destruct (Nat.eqb _ _); [|done]. intros <-%Ok_inj. cbn [df_columns].
    by apply set_column_numeric.
Qed.

Lemma build_ic_loop_numeric ase dataset specs df df' :
  build_ic_loop ase dataset specs df = Ok df' →
  Forall (fun lv : cell * list cell => Forall numeric lv.2) (df_columns df) →
  Forall (fun lv : cell * list cell => Forall numeric lv.2) (df_columns df').
Proof.
  revert df. induction specs as [|ic specs IH]; intros df; simpl.
  - by intros <-%Ok_inj.
  - intros H Hdf. apply bind_Ok in H as (df1 & Hcol & Hloop).
    apply build_ic_column_inv in Hcol
      as (indices & labels & values & name & _ & _ & _ & _ & Hset).
    apply (IH _ Hloop). eapply setitem_numeric; [|exact Hdf|exact Hset].
    apply numeric_Num.
Qed.

Lemma get_column_numeric label cols col :
  Forall (fun lv : cell * list cell => Forall numeric lv.2) cols →
  Pandas.get_column label cols = Some col → Forall numeric col.
Proof.
  intros Hall Hcol. destruct (get_column_In _ _ _ Hcol) as [l Hl].
  rewrite Forall_forall in Hall. by apply list_elem_of_In, Hall in Hl.
Qed.

Lemma get_column_Some label cols :
  In label (cols.*1) → cell_eqb label label = true →
  is_Some (Pandas.get_column label cols).
Proof.
  intros Hin Hrefl. induction cols as [|[l v] cols IH]; [done|].
  cbn [Pandas.get_column]. destruct (cell_eqb label l) eqn:E; [by eexists|].
  apply IH. destruct Hin as [Hin|Hin]; [|done]. simpl in Hin. subst l.
  congruence.
Qed.

Lemma get_set_column_ne label label' values cols :
  cell_eqb label' label = false →
  (∀ l, cell_eqb label l = true → cell_eqb label' l = false) →
  Pandas.get_column label' (Pandas.set_column label values cols)
  = Pandas.get_column label' cols.
Proof.
  intros Hne Hsep. induction cols as [|[l v] cols IH]; cbn [Pandas.set_column].
  - cbn [Pandas.get_column]. by rewrite Hne.
  - destruct (cell_eqb label l) eqn:E; cbn [Pandas.get_column].
    + by rewrite (Hsep l E).
    + by rewrite IH.
Qed.

(** X21.  The geometry panel (lines 332-348): in a coordinate table that has
    rows, every column but 'Conformation' is accepted by [build_stats] as the
    feature; the summary has one row for each conformation identifier. *)
Theorem build_ic_dataframe_build_stats (np : Numpy.Impl) (ase : Ase.Impl)
    (data dataset : Dataset) (selected_coords : list string) (df : DataFrame)
    (coords_name : string) :
  build_ic_dataframe ase data dataset selected_coords = Ok df →
  df_len df ≠ 0%nat →
  In (Str coords_name) (Pandas.columns df) →
  coords_name ≠ "Conformation" →
  ∃ stats,
    build_stats np df coords_name = Ok stats
    ∧ st_index stats ≠ []
    ∧ NoDup (st_index stats)
    ∧ ∀ z, In z (st_index stats) ↔ In z (conf data).
Proof.
  intros Hdf Hrows Hin Hne.
  pose proof (build_ic_dataframe_conformation _ _ _ _ _ Hdf) as Hkeys.
  unfold build_ic_dataframe in Hdf.
  apply bind_Ok in Hdf as (df0 & Hloop & Hset).
  pose proof (build_ic_loop_numeric _ _ _ _ _ Hloop (Forall_nil_2 _)) as Hnum.
  pose proof (setitem_len _ _ _ _ Hset) as Hlen. rewrite length_fmap in Hlen.
  destruct (get_column_Some (Str coords_name) (df_columns df)) as [values Hvalues];
    [done | simpl; apply String.eqb_refl |].
  assert (Forall numeric values) as Hnumeric.
  { unfold Pandas.setitem in Hset.
    assert (∃ cols, df_columns df
                    = Pandas.set_column (Str "Conformation") (Int <$> conf data) cols
                    ∧ Forall (fun lv : cell * list cell => Forall numeric lv.2) cols)
      as (cols & Hcols & Hcolsnum).
    { destruct (_ && _).
      - apply Ok_inj in Hset as <-. eexists. split; [done|].
        apply Forall_fmap, Forall_true. intros lv. simpl. apply numeric_NaN.
      - destruct (Nat.eqb _ _); [|done]. apply Ok_inj in Hset as <-.
        by eexists. }
    rewrite Hcols, get_set_column_ne in Hvalues.
    - by eapply get_column_numeric.
    - rewrite cell_eqb_Str. by apply String.eqb_neq.
    - intros l Hl. apply cell_eqb_Str_eq in Hl as ->. rewrite cell_eqb_Str.
      by apply String.eqb_neq. }
  destruct (mapM_total Stats.key_of (Int <$> conf data)) as [keys' Hkeys'].
  { apply Forall_fmap, Forall_true. intros z. by eexists. }
  destruct (mapM_total Stats.number_of values) as [values' Hvalues'].
  { eapply Forall_impl; [exact Hnumeric|]. intros [q|z|s|]; simpl; try done;
      intros _; by eexists. }
  destruct (build_stats_eq np df coords_name values (Int <$> conf data)
              keys' values')
    as (stats & med & Hrun & Hsorted & Hindex & _); [done..|].
  assert (∀ z, In z (st_index stats) ↔ In z (conf data)) as Hindex'.
  { intros z. rewrite Hindex, <- !list_elem_of_In, list_elem_of_fmap. split.
    - by intros (z' & [= ->] & Hz).
    - intros Hz. by exists z. }
  exists stats. split; [done|]. split; [|split; [|done]].
  - destruct (conf data) as [|z l] eqn:Hconf; [simpl in Hlen; congruence|].
    intros Hnil. assert (In z (st_index stats)) as Hz
      by (apply Hindex'; by left).
    by rewrite Hnil in Hz.
  - by apply NoDup_ListNoDup, sorted_NoDup.
Qed.

Lemma build_ic_dataframe_build_stats_witness :
  ∃ df stats,
    build_ic_dataframe Example.ase Example.data Example.data ["1,0,2,3"] = Ok df
    ∧ build_stats Example.np df "C1-H0-N2-O3" = Ok stats
    ∧ ∀ z, In z (st_index stats) ↔ In z [4; 7].
Proof.
  eexists.
  destruct (build_ic_dataframe_build_stats Example.np Example.ase Example.data
              Example.data ["1,0,2,3"] _ "C1-H0-N2-O3" eq_refl)
    as (stats & Hrun & _ & _ & Hindex);
    [discriminate | vm_compute; tauto | discriminate |].
  exists stats. split; [vm_compute; reflexivity|]. split; [exact Hrun|exact Hindex].
Defined.

(** ** Long-form tables, row by row *)

Lemma process_polar_data_table data dataset df :
  process_polar_data data dataset = Ok df →
  ∃ cols,
    mapM (fun j => Pandas.column_of j (ds_P dataset))
         (seq 0 (Pandas.shape1 (ds_P dataset))) = Ok cols
    ∧ (Pandas.shape1 (ds_P dataset) ≠ 0%nat →
       length (ds_P dataset) = length (conf data))
    ∧ df = mkDataFrame (length (conf data) * Pandas.shape1 (ds_P dataset))
        [ (Str "Conformation",
           concat (replicate (Pandas.shape1 (ds_P dataset)) (Int <$> conf data)));
          (Str "components",
           concat ((fun l => replicate (length (conf data)) l)
                     <$> (Int <$> (Z.of_nat <$> seq 0 (Pandas.shape1 (ds_P dataset))))));
          (Str "Polarizability", concat ((fun c : list Q => Num <$> c) <$> cols)) ].
Proof.
  unfold process_polar_data. intros H.
  apply bind_Ok in H as (df1 & H1 & H). apply bind_Ok in H as (df2 & H2 & H3).
  assert (Forall (fun l => cell_eqb (Str "Conformation") l = false)
            (default (Int <$> (Z.of_nat <$> seq 0 (Pandas.shape1 (ds_P dataset))))
                     None)) as Hfresh
    by (simpl; by apply Forall_fmap, Forall_true).
  destruct (long_form _ None _ _ _ _ _ _ Hfresh H1 H2 H3)
    as (cols & Hcols & Hrows & ->).
  exists cols. rewrite length_fmap in *. done.
Qed.

(** X9.  The polarizability table is in long form, component by component:
    with N conformation identifiers and K components per conformation it has
    N * K rows, and the row j * N + i holds the identifier of conformation i,
    the component number j and the entry P[i][j]. *)
Theorem polarizability_layout (np : Numpy.Impl) (ui : Sidebar) (data : Dataset)
    (df : DataFrame) :
  data_to_plot np ui data "Polarizability" = Ok df →
  df_len df = (length (conf data) * Pandas.shape1 (ds_P data))%nat
  ∧ Pandas.columns df
    = [Str "Conformation"; Str "components"; Str "Polarizability"]
  ∧ ∀ i j, (i < length (conf data))%nat → (j < Pandas.shape1 (ds_P data))%nat →
      ∃ row x c,
        ds_P data !! i = Some row ∧ row !! j = Some x ∧ conf data !! i = Some c
        ∧ cell_at df "Conformation" (j * length (conf data) + i) = Some (Int c)
        ∧ cell_at df "components" (j * length (conf data) + i)
          = Some (Int (Z.of_nat j))
        ∧ cell_at df "Polarizability" (j * length (conf data) + i) = Some (Num x).
Proof.
  change (data_to_plot np ui data "Polarizability") with
    (process_polar_data data data ≫= attach_conformation data).
  intros H. apply bind_Ok in H as (df0 & H0 & Hattach).
  pose proof (process_polar_data_conformation _ _ _ H0) as Hconf.
  apply (attach_conformation_present _ _ _ _ Hconf) in Hattach as ->.
  clear Hconf.
  apply process_polar_data_table in H0 as (cols & Hcols & Hrows & ->).
  set (N := length (conf data)). set (K := Pandas.shape1 (ds_P data)).
  split; [done|]. split; [done|]. intros i j Hi Hj.
  assert (length (ds_P data) = N) as HP by (apply Hrows; fold K; lia).
  destruct (lookup_lt_is_Some_2 (ds_P data) i) as [row Hrow]; [lia|].
  destruct (lookup_lt_is_Some_2 (conf data) i Hi) as [c Hc].
  destruct (columns_lookup _ _ _ _ _ Hcols Hrow Hj)
    as (col & x & Hcol & Hlen & Hx & Hcolx).
  destruct (columns_length _ _ Hcols) as [HlenK Hall].
  exists row, x, c. split; [done|]. split; [done|]. split; [done|].
  unfold cell_at. cbn [df_columns].
  destruct (get_column_long "Conformation" "components" "Polarizability"
              (concat (replicate K (Int <$> conf data)))
              (concat ((fun l => replicate N l)
                         <$> (Int <$> (Z.of_nat <$> seq 0 K))))
              (concat ((fun c : list Q => Num <$> c) <$> cols)))
    as (-> & -> & ->); [done..|].
  cbn [mbind option_bind]. split; [|split].
  - rewrite (lookup_concat_uniform _ N j i (Int <$> conf data)); [| | |done].
    + by rewrite list_lookup_fmap, Hc.
    + apply Forall_replicate. by rewrite length_fmap.
    + by apply lookup_replicate_2.
  - rewrite (lookup_concat_uniform _ N j i (replicate N (Int (Z.of_nat j))));
      [| | |done].
    + by apply lookup_replicate_2.
    + apply Forall_fmap, Forall_true. intros l. simpl. apply length_replicate.
    + rewrite !list_lookup_fmap, lookup_seq_lt by done. done.
  - rewrite (lookup_concat_uniform _ N j i (Num <$> col)); [| | |done].
    + by rewrite list_lookup_fmap, Hcolx.
    + apply Forall_fmap. eapply Forall_impl; [exact Hall|].
      intros c' Hc'. simpl. rewrite length_fmap. congruence.
    + by rewrite list_lookup_fmap, Hcol.
Qed.

Lemma polarizability_layout_witness :
  ∃ df, data_to_plot Example.np Example.ui Example.data "Polarizability" = Ok df
        ∧ df_len df = 4%nat
        ∧ cell_at df "Conformation" 3 = Some (Int 7)
        ∧ cell_at df "components" 3 = Some (Int 1)
        ∧ cell_at df "Polarizability" 3 = Some (Num 4).
Proof.
  eexists. split; [vm_compute; reflexivity|].
  destruct (polarizability_layout Example.np Example.ui Example.data _ eq_refl)
    as (Hlen & _ & Hrows).
  split; [exact Hlen|].
  destruct (Hrows 1%nat 1%nat) as (row & x & c & Hrow & Hx & Hc & H1 & H2 & H3);
    [simpl; lia | simpl; lia |].
  vm_compute in Hrow. injection Hrow as <-.
  vm_compute in Hx. injection Hx as <-.
  vm_compute in Hc. injection Hc as <-.
  split; [exact H1|]. split; [exact H2|exact H3].
Defined.

(** ** Charges per atom: labels and the atom-type filter *)

Lemma atom_types_symbol (z : Z) (s : string) :
  atom_types !! z = Some s → In s ["H"; "C"; "N"; "O"].
Proof.
  rewrite atom_types_lookup. repeat case_decide; intros [= <-]; simpl; tauto.
Qed.

(** On known elements the labels are the symbols of the lookup. *)
Lemma z_to_labels_symbols dataset :
  flatten (ds_Z dataset) ≠ [] →
  Forall (fun z => is_Some (atom_types !! z)) (flatten (ds_Z dataset)) →
  ∃ names,
    z_to_labels dataset = Ok (PStr <$> names)
    ∧ Forall2 (fun z s => atom_types !! z = Some s) (flatten (ds_Z dataset)) names.
Proof.
  intros Hne Hknown. unfold z_to_labels.
  assert (∀ l, Forall (fun z => is_Some (atom_types !! z)) l →
            ∃ names, (fun z => PStr (py_str (atom_types_get z))) <$> l
                      = PStr <$> names ∧ atom_types_get <$> l = PStr <$> names
                      ∧ Forall2 (fun z s => atom_types !! z = Some s) l names)
    as Hall.
  { induction 1 as [|z l [s Hs] _ (names & IH1 & IH2 & IH3)].
    - exists []. by repeat split.
    - exists (s :: names).
      assert (atom_types_get z = PStr s) as Hz
        by (unfold atom_types_get; by rewrite Hs).
      rewrite !fmap_cons, Hz, IH1, IH2. simpl. repeat split. by constructor. }
  destruct (Hall _ Hknown) as (names & H1 & H2 & H3).
  exists names. split; [|done].
  destruct (flatten (ds_Z dataset)) as [|z0 l]; [done|].
  unfold np_vectorize. destruct (atom_types_get z0); by rewrite ?H1, ?H2.
Qed.

Lemma mapM_seq_imap {B} (f : nat → result B) (g : nat → B) (n : nat) :
  (∀ i, (i < n)%nat → f i = Ok (g i)) → mapM f (seq 0 n) = Ok (g <$> seq 0 n).
Proof.
  intros Hf. assert (∀ s, (s + n <= n + s)%nat →
    ∀ m, (∀ i, (s <= i < s + m)%nat → f i = Ok (g i)) →
         mapM f (seq s m) = Ok (g <$> seq s m)) as Hgen.
  { intros s _ m. revert s. induction m as [|m IH]; intros s Hs; [done|].
    cbn [seq mapM fmap list_fmap]. rewrite Hs by lia. rsimpl.
    rewrite IH by (intros i Hi; apply Hs; lia). done. }
  apply (Hgen 0%nat); [lia|]. intros i Hi. apply Hf. lia.
Qed.

(** The column names of the charge table of a molecule of known elements:
    symbol and one-based position. *)
Lemma mulliken_col_names (names : list string) :
  mapM (fun i => label ← index (PStr <$> names) i;
                 label_plus label (pretty (i + 1)%nat))
       (seq 0 (length names))
  = Ok (imap (fun j s => s +:+ pretty (j + 1)%nat) names).
Proof.
  rewrite (mapM_seq_imap _
             (fun i => default "" (names !! i) +:+ pretty (i + 1)%nat)).
  - f_equal. apply list_eq. intros i.
    rewrite list_lookup_fmap, list_lookup_imap.
    destruct (decide (i < length names)%nat) as [Hi|Hi].
    + rewrite lookup_seq_lt by done. cbn [Nat.add option_fmap fmap option_map].
      destruct (lookup_lt_is_Some_2 names i Hi) as [s ->]. done.
    + rewrite lookup_seq_ge by lia. by rewrite lookup_ge_None_2 by lia.
  - intros i Hi. destruct (lookup_lt_is_Some_2 names i Hi) as [s Hs].
    unfold index. rewrite list_lookup_fmap, Hs. done.
Qed.

Lemma contains_letter_digits (c : ascii) (d : string) :
  PyStr.digit_of c = None → digits_only d = true →
  PyStr.contains (String c EmptyString) d = false.
Proof.
  intros Hc. induction d as [|a d IH]; [done|]. cbn [digits_only PyStr.contains].
  intros Hd. apply andb_true_iff in Hd as [Ha Hd]. rewrite (IH Hd), orb_false_r.
  cbn [String.prefix]. destruct (ascii_dec c a) as [->|]; [|done].
  rewrite Hc in Ha. done.
Qed.

Lemma append_single (c : ascii) (t : string) :
  String c EmptyString +:+ t = String c t.
Proof. reflexivity. Qed.

Lemma contains_symbol (choice s : string) (n : nat) :
  In choice ["H"; "C"; "N"; "O"] → In s ["H"; "C"; "N"; "O"] →
  PyStr.contains choice (s +:+ pretty n) = String.eqb s choice.
Proof.
  intros Hc Hs. pose proof (pretty_nat_digits n) as Hd.
  simpl in Hc, Hs.
  destruct Hc as [<-|[<-|[<-|[<-|[]]]]]; destruct Hs as [<-|[<-|[<-|[<-|[]]]]];
    rewrite append_single; cbn [PyStr.contains];
    rewrite contains_letter_digits by done;
    cbn [String.prefix]; destruct (ascii_dec _ _) as [E|E]; try discriminate E;
    try (exfalso; by apply E); by destruct (pretty n).
Qed.

(** The number of entries a mask keeps. *)
Lemma length_select_count {A} (mask : list bool) (l : list A) :
  length l = length mask →
  length (Pandas.select mask l) = length (List.filter id mask).
Proof.
  revert l. induction mask as [|b mask IH]; intros [|x l]; simpl; try done.
  intros [= Hlen]. destruct b; simpl; auto.
Qed.

Lemma filter_concat_replicate (n : nat) (bits : list bool) :
  length (List.filter id (concat ((fun b => replicate n b) <$> bits)))
  = (n * length (List.filter id bits))%nat.
Proof.
  assert (∀ b, length (List.filter id (replicate n b)) = if b then n else 0%nat)
    as Hrep.
  { intros b. induction n as [|m IHm]; [by destruct b|].
    destruct b; simpl in *; by rewrite IHm. }
  induction bits as [|b bits IH]; [simpl; lia|].
  rewrite fmap_cons. cbn [concat].
  rewrite List.filter_app, length_app, IH, Hrep. destruct b; simpl; lia.
Qed.

Lemma str_contains_concat (pat : string) (n : nat) (names : list string) :
  str_contains pat (concat ((fun l => replicate n l) <$> (Str <$> names)))
  = concat ((fun b => replicate n b) <$> (PyStr.contains pat <$> names)).
Proof.
  unfold str_contains. induction names as [|s names IH]; [done|].
  rewrite !fmap_cons. cbn [concat]. rewrite fmap_app, IH. f_equal.
  by rewrite fmap_replicate.
Qed.

Lemma filter_eqb_count (names : list string) (choice : string) :
  length (List.filter id ((fun s => String.eqb s choice) <$> names))
  = count_occ string_dec names choice.
Proof.
  induction names as [|s names IH]; [done|]. rewrite fmap_cons. simpl.
  destruct (String.eqb_spec s choice) as [->|Hne]; simpl.
  - destruct (string_dec choice choice); [|done]. by rewrite IH.
  - destruct (string_dec s choice); [done|]. by rewrite IH.
Qed.

Lemma well_formed_mulliken ui data df :
  well_formed data →
  process_mulliken_data ui data data = Ok df →
  ∃ names cols,
    Forall2 (fun z s => atom_types !! z = Some s) (flatten (ds_Z data)) names
    ∧ Pandas.shape1 (ds_Q data) = length names
    ∧ mapM (fun j => Pandas.column_of j (ds_Q data))
           (seq 0 (Pandas.shape1 (ds_Q data))) = Ok cols
    ∧ length (ds_Q data) = length (conf data)
    ∧ df = (let full :=
              mkDataFrame (length (conf data) * length names)
                [ (Str "Conformation",
                   concat (replicate (length names) (Int <$> conf data)));
                  (Str "atom_labels",
                   concat ((fun l => replicate (length (conf data)) l)
                             <$> (Str <$> imap (fun j s => s +:+ pretty (j + 1)%nat)
                                               names)));
                  (Str "Mulliken charges",
                   concat ((fun c : list Q => Num <$> c) <$> cols)) ] in
            let choice := st_radio ui "Atom type filter"
                            ("None" :: Numpy.unique String.compare names) in
            if String.eqb choice "None" then full
            else Pandas.filter_rows full
                   (str_contains choice
                      (concat ((fun l => replicate (length (conf data)) l)
                                 <$> (Str <$> imap (fun j s => s +:+ pretty (j + 1)%nat)
                                                   names))))).
Proof.
  intros Hwf Hdf.
  destruct (process_mulliken_data_table _ _ _ _ Hdf)
    as (labels & atom_charges & col_names & cols & uniq
        & Hlabels & Hcharges & Hnames & Hshape & Hcols & Hlen & Huniq & ->).
  destruct Hwf as (HN & Hn & Hknown & _ & _ & _ & [HlenQ Hrows] & _).
  destruct (z_to_labels_symbols data) as (names & Hlabels' & Hsym);
    [by intros E; rewrite E in Hn | done |].
  rewrite Hlabels' in Hlabels. apply Ok_inj in Hlabels as <-.
  assert (Pandas.shape1 (ds_Q data) = length names) as HK.
  { rewrite <- (Forall2_length _ _ _ Hsym).
    destruct (ds_Q data) as [|row rows]; [by rewrite <- HlenQ in HN|].
    simpl. by apply Forall_inv in Hrows. }
  rewrite reshape_rows_rect in Hcharges;
    [|by rewrite HK, <- (Forall2_length _ _ _ Hsym)
     |by rewrite HK, <- (Forall2_length _ _ _ Hsym)].
  apply Ok_inj in Hcharges as <-.
  rewrite HK, mulliken_col_names in Hnames. apply Ok_inj in Hnames as <-.
  unfold unique_labels in Huniq. rewrite (mapM_fmap _ PStr id) in Huniq by done.
  cbn [mbind result_bind] in Huniq. apply Ok_inj in Huniq as <-.
  rewrite list_fmap_id. exists names, cols.
  split; [done|]. split; [done|]. split; [done|]. split; [done|].
  by rewrite HK.
Qed.

(** X7.  The table of Mulliken charges of a well-formed dataset, when the
    atom-type filter is left at 'None', is in long form, atom by atom: with N
    conformations and n atoms it has N * n rows, and the row j * N + i holds
    the identifier of conformation i, the label of atom j (its element symbol
    followed by j + 1) and the charge Q[i][j]. *)
Theorem mulliken_layout (np : Numpy.Impl) (ui : Sidebar) (data : Dataset)
    (df : DataFrame) :
  well_formed data →
  radio_index ui "Atom type filter" = 0%nat →
  data_to_plot np ui data "Mulliken charges" = Ok df →
  df_len df = (length (conf data) * length (flatten (ds_Z data)))%nat
  ∧ ∀ i j, (i < length (conf data))%nat → (j < length (flatten (ds_Z data)))%nat →
      ∃ z s row q c,
        flatten (ds_Z data) !! j = Some z ∧ atom_types !! z = Some s
        ∧ ds_Q data !! i = Some row ∧ row !! j = Some q
        ∧ conf data !! i = Some c
        ∧ cell_at df "Conformation" (j * length (conf data) + i) = Some (Int c)
        ∧ cell_at df "atom_labels" (j * length (conf data) + i)
          = Some (Str (s +:+ pretty (j + 1)%nat))
        ∧ cell_at df "Mulliken charges" (j * length (conf data) + i)
          = Some (Num q).
Proof.
  intros Hwf Hui.
  change (data_to_plot np ui data "Mulliken charges") with
    (process_mulliken_data ui data data ≫= attach_conformation data).
  intros H. apply bind_Ok in H as (df0 & H0 & Hattach).
  destruct (process_mulliken_data_conformation _ _ _ _ H0)
    as (? & ? & ? & _ & _ & Hconf).
  apply (attach_conformation_present _ _ _ _ Hconf) in Hattach as ->.
  clear Hconf.
  destruct (well_formed_mulliken _ _ _ Hwf H0)
    as (names & cols & Hsym & HK & Hcols & HlenQ & ->).
  assert (st_radio ui "Atom type filter"
            ("None" :: Numpy.unique String.compare names) = "None") as Hchoice
    by (unfold st_radio; by rewrite Hui).
  cbv zeta. rewrite Hchoice. rewrite String.eqb_refl.
  set (N := length (conf data)).
  pose proof (Forall2_length _ _ _ Hsym) as Hn. rewrite Hn.
  split; [done|]. intros i j Hi Hj.
  destruct (lookup_lt_is_Some_2 names j Hj) as [s Hs].
  destruct (lookup_lt_is_Some_2 (flatten (ds_Z data)) j) as [z Hz]; [lia|].
  destruct (lookup_lt_is_Some_2 (ds_Q data) i) as [row Hrow]; [lia|].
  destruct (lookup_lt_is_Some_2 (conf data) i Hi) as [c Hc].
  destruct (columns_lookup _ _ _ j _ Hcols Hrow)
    as (col & q & Hcol & Hlen & Hq & Hcolq); [lia|].
  destruct (columns_length _ _ Hcols) as [HlenK Hall].
  exists z, s, row, q, c.
  split; [done|]. split; [exact (Forall2_lookup_lr _ _ _ _ _ _ Hsym Hz Hs)|].
  repeat (split; [done|]).
  unfold cell_at. cbn [df_columns].
  match goal with
  | |- context [[(Str "Conformation", ?ci); (Str "atom_labels", ?cv);
                 (Str "Mulliken charges", ?cx)]] =>
      destruct (get_column_long "Conformation" "atom_labels" "Mulliken charges"
                  ci cv cx) as (-> & -> & ->); [done..|]
  end.
  cbn [mbind option_bind]. split; [|split].
  - rewrite (lookup_concat_uniform _ N j i (Int <$> conf data)); [| | |done].
    + by rewrite list_lookup_fmap, Hc.
    + apply Forall_replicate. by rewrite length_fmap.
    + by apply lookup_replicate_2.
  - rewrite (lookup_concat_uniform _ N j i
               (replicate N (Str (s +:+ pretty (j + 1)%nat)))); [| | |done].
    + by apply lookup_replicate_2.
    + apply Forall_fmap, Forall_true. intros l. simpl. apply length_replicate.
    + rewrite !list_lookup_fmap, list_lookup_imap, Hs. done.
  - rewrite (lookup_concat_uniform _ N j i (Num <$> col)); [| | |done].
    + by rewrite list_lookup_fmap, Hcolq.
    + apply Forall_fmap. eapply Forall_impl; [exact Hall|].
      intros c' Hc'. simpl. rewrite length_fmap. unfold N. congruence.
    + by rewrite list_lookup_fmap, Hcol.
Qed.

Lemma mulliken_layout_witness :
  ∃ df, data_to_plot Example.np Example.ui Example.data "Mulliken charges" = Ok df
        ∧ df_len df = 8%nat
        ∧ cell_at df "Conformation" 5 = Some (Int 7)
        ∧ cell_at df "atom_labels" 5 = Some (Str "N3")
        ∧ cell_at df "Mulliken charges" 5 = Some (Num (-3 # 10)).
Proof.
  eexists. split; [vm_compute; reflexivity|].
  destruct (mulliken_layout Example.np Example.ui Example.data _
              example_well_formed eq_refl eq_refl) as (Hlen & Hrows).
  split; [exact Hlen|].
  destruct (Hrows 1%nat 2%nat)
    as (z & s & row & q & c & Hz & Hs & Hrow & Hq & Hc & H1 & H2 & H3);
    [simpl; lia | simpl; lia |].
  vm_compute in Hz. injection Hz as <-.
  vm_compute in Hs. injection Hs as <-.
  vm_compute in Hrow. injection Hrow as <-.
  vm_compute in Hq. injection Hq as <-.
  vm_compute in Hc. injection Hc as <-.
  split; [exact H1|]. split; [exact H2|exact H3].
Defined.

(** X8.  With an element picked in the atom-type filter, the table of Mulliken
    charges of a well-formed dataset keeps the rows of the atoms of that
    element and no others: it has N rows for each such atom, and at least
    N rows, the picked element being one of the molecule's. *)
Theorem mulliken_filter_rows (np : Numpy.Impl) (ui : Sidebar) (data : Dataset)
    (df : DataFrame) :
  well_formed data →
  data_to_plot np ui data "Mulliken charges" = Ok df →
  ∃ names,
    Forall2 (fun z s => atom_types !! z = Some s) (flatten (ds_Z data)) names
    ∧ In (st_radio ui "Atom type filter"
            ("None" :: Numpy.unique String.compare names))
         ("None" :: names)
    ∧ (st_radio ui "Atom type filter"
         ("None" :: Numpy.unique String.compare names) ≠ "None" →
       df_len df
       = (length (conf data)
          * count_occ string_dec names
              (st_radio ui "Atom type filter"
                 ("None" :: Numpy.unique String.compare names)))%nat
       ∧ (length (conf data) <= df_len df)%nat).
Proof.
  intros Hwf.
  change (data_to_plot np ui data "Mulliken charges") with
    (process_mulliken_data ui data data ≫= attach_conformation data).
  intros H. apply bind_Ok in H as (df0 & H0 & Hattach).
  destruct (process_mulliken_data_conformation _ _ _ _ H0)
    as (? & ? & ? & _ & _ & Hconf).
  apply (attach_conformation_present _ _ _ _ Hconf) in Hattach as ->.
  clear Hconf.
  destruct (well_formed_mulliken _ _ _ Hwf H0)
    as (names & cols & Hsym & HK & Hcols & HlenQ & ->).
  exists names. split; [done|].
  set (choice := st_radio ui "Atom type filter"
                   ("None" :: Numpy.unique String.compare names)).
  assert (In choice ("None" :: names)) as Hin.
  { pose proof (st_radio_In ui "Atom type filter"
                  ("None" :: Numpy.unique String.compare names)) as Hin.
    destruct Hin as [Hin|Hin]; [done|by left|right].
    by apply unique_In in Hin; [|apply String.compare_eq_iff]. }
  split; [done|]. intros Hne. cbv zeta. fold choice.
  rewrite (proj2 (String.eqb_neq _ _) Hne).
  destruct Hin as [Hin|Hin]; [congruence|].
  assert (In choice ["H"; "C"; "N"; "O"]) as Hchoice.
  { apply list_elem_of_In, list_elem_of_lookup in Hin as [j Hj].
    destruct (Forall2_lookup_r _ _ _ _ _ Hsym Hj) as (z & _ & Hz).
    by eapply atom_types_symbol. }
  assert (df_len (Pandas.filter_rows
            {| df_len := length (conf data) * length names;
               df_columns := _ |} _)
          = (length (conf data) * count_occ string_dec names choice)%nat) as ->.
  { unfold Pandas.filter_rows. cbn [df_len].
    rewrite str_contains_concat, length_select_count.
    - rewrite filter_concat_replicate. f_equal.
      rewrite fmap_imap.
      rewrite (imap_ext _ (fun _ s => String.eqb s choice)).
      + rewrite (imap_const (fun s => String.eqb s choice)).
        apply filter_eqb_count.
      + intros j s Hs. simpl. apply contains_symbol; [done|].
        destruct (Forall2_lookup_r _ _ _ _ _ Hsym Hs) as (z & _ & Hz).
        by eapply atom_types_symbol.
    - rewrite length_seq.
      rewrite (length_concat_const _ (length (conf data))).
      + rewrite !length_fmap, length_imap. lia.
      + apply Forall_fmap, Forall_true. intros b. simpl. apply length_replicate. }
  split; [done|].
  assert (0 < count_occ string_dec names choice)%nat
    by (by apply count_occ_In).
  nia.
Qed.

Lemma mulliken_filter_rows_witness :
  ∃ df, data_to_plot Example.np (mkSidebar (fun _ => 2%nat)) Example.data
          "Mulliken charges" = Ok df
        ∧ df_len df = 2%nat.
Proof.
  eexists. split; [vm_compute; reflexivity|].
  destruct (mulliken_filter_rows Example.np (mkSidebar (fun _ => 2%nat))
              Example.data _ example_well_formed eq_refl)
    as (names & Hsym & _ & Hcount).
  assert (names = ["H"; "C"; "N"; "O"]) as ->.
  { apply Forall2_cons_inv_l in Hsym as (s1 & n1 & H1 & Hsym & ->).
    apply Forall2_cons_inv_l in Hsym as (s2 & n2 & H2 & Hsym & ->).
    apply Forall2_cons_inv_l in Hsym as (s3 & n3 & H3 & Hsym & ->).
    apply Forall2_cons_inv_l in Hsym as (s4 & n4 & H4 & Hsym & ->).
    apply Forall2_nil_inv_l in Hsym as ->.
    vm_compute in H1, H2, H3, H4. congruence. }
  destruct Hcount as [Hlen _]; [discriminate|]. exact Hlen.
Defined.

(** ** What every table of the extractor has *)

Lemma Forall_select {A} (P : A → Prop) (mask : list bool) (l : list A) :
  Forall P l → Forall P (Pandas.select mask l).
Proof.
  intros Hl. revert mask. induction Hl as [|x l Hx _ IH]; intros [|b mask];
    simpl; try constructor.
  destruct b; [constructor; [done|apply IH]|apply IH].
Qed.

Lemma long_table_rect (id var value : string) (ids : list cell)
    (labels : list cell) (cols : list (list cell)) :
  length labels = length cols →
  Forall (fun c => length c = length ids) cols →
  rectangular
    (mkDataFrame (length ids * length cols)
       [ (Str id, concat (replicate (length cols) ids));
         (Str var, concat ((fun l => replicate (length ids) l) <$> labels));
         (Str value, concat cols) ]).
Proof.
  intros Hlabels Hcols. unfold rectangular. cbn [df_len df_columns].
  repeat constructor; cbn [snd].
  - rewrite (length_concat_const _ (length ids)).
    + rewrite length_replicate. lia.
    + by apply Forall_replicate.
  - rewrite (length_concat_const _ (length ids)).
    + rewrite length_fmap. lia.
    + apply Forall_fmap, Forall_true. intros l. simpl. apply length_replicate.
  - rewrite (length_concat_const _ (length ids)); [lia|done].
Qed.

Lemma Forall_concat_replicate {A} (P : A → Prop) (n : nat) (l : list A) :
  Forall P l → Forall P (concat (replicate n l)).
Proof.
  intros Hl. induction n as [|n IH]; simpl; [constructor|].
  by apply Forall_app.
Qed.

Lemma Forall_concat_Num (cols : list (list Q)) :
  Forall numeric (concat ((fun c : list Q => Num <$> c) <$> cols)).
Proof.
  induction cols as [|c cols IH]; [constructor|]. rewrite fmap_cons.
  cbn [concat]. apply Forall_app. split; [apply numeric_Num|done].
Qed.

Lemma conf_keys data :
  Forall (fun c => ∃ z, c = Int z ∧ In z (conf data)) (Int <$> conf data).
Proof.
  apply Forall_fmap, Forall_forall. intros z Hz. exists z.
  split; [done|]. by apply list_elem_of_In.
Qed.

(** The two columns [build_stats] reads, in any table [data_to_plot]
    returns. *)
Lemma data_to_plot_columns np ui data property df :
  data_to_plot np ui data property = Ok df →
  In property properties
  ∧ rectangular df
  ∧ ∃ values keys,
      Pandas.get_column (Str property) (df_columns df) = Some values
      ∧ Pandas.get_column (Str "Conformation") (df_columns df) = Some keys
      ∧ Forall numeric values
      ∧ Forall (fun c => ∃ z, c = Int z ∧ In z (conf data)) keys.
Proof.
  intros Hdf.
  assert (In property properties) as Hin.
  { destruct (decide (property ∈ properties)) as [Hin|Hnot];
      [by apply list_elem_of_In|].
    rewrite data_to_plot_unknown in Hdf; [done|].
    intros Hin. by apply Hnot, list_elem_of_In. }
  split; [done|].
  assert (In property per_conformation ∨ property = "Polarizability"
          ∨ property = "Mulliken charges") as [Hper|[-> | ->]].
  { simpl in Hin |- *. intuition. }
  - destruct (data_to_plot_per_conformation_table _ _ _ _ _ Hper Hdf)
      as (col & -> & Hlen & Hnum).
    split.
    { unfold rectangular. cbn [df_len df_columns].
      repeat constructor; cbn [snd]; [done|by rewrite length_fmap]. }
    exists col, (Int <$> conf data). cbn [df_columns Pandas.get_column].
    rewrite !cell_eqb_Str, !String.eqb_refl.
    assert (String.eqb "Conformation" property = false) as ->.
    { simpl in Hper.
      destruct Hper as [<-|[<-|[<-|[<-|[<-|[<-|[]]]]]]]; reflexivity. }
    split; [done|]. split; [done|]. split; [done|]. apply conf_keys.
  - change (data_to_plot np ui data "Polarizability") with
      (process_polar_data data data ≫= attach_conformation data) in Hdf.
    apply bind_Ok in Hdf as (df0 & H0 & Hattach).
    pose proof (process_polar_data_conformation _ _ _ H0) as Hconf.
    apply (attach_conformation_present _ _ _ _ Hconf) in Hattach as ->.
    clear Hconf.
    apply process_polar_data_table in H0 as (cols & Hcols & Hrows & ->).
    destruct (columns_length _ _ Hcols) as [HlenK Hall].
    split.
    { rewrite <- HlenK at 1 2.
      rewrite <- (length_fmap (fun c : list Q => Num <$> c) cols).
      rewrite <- (length_fmap Int (conf data)).
      apply long_table_rect.
      - rewrite !length_fmap, length_seq. done.
      - apply Forall_fmap. apply Forall_forall. intros c Hc. simpl.
        rewrite !length_fmap. destruct (decide (Pandas.shape1 (ds_P data) = 0%nat))
          as [Hz|Hnz].
        + rewrite Hz in HlenK. destruct cols; [|done]. by apply elem_of_nil in Hc.
        + rewrite Forall_forall in Hall. rewrite (Hall c Hc). by apply Hrows. }
    eexists _, _. cbn [df_columns].
    destruct (get_column_long "Conformation" "components" "Polarizability"
                (concat (replicate (Pandas.shape1 (ds_P data)) (Int <$> conf data)))
                (concat ((fun l => replicate (length (conf data)) l)
                   <$> (Int <$> (Z.of_nat <$> seq 0 (Pandas.shape1 (ds_P data))))))
                (concat ((fun c : list Q => Num <$> c) <$> cols)))
      as (-> & _ & ->); [done..|].
    split; [done|]. split; [done|].
    split; [apply Forall_concat_Num|apply Forall_concat_replicate, conf_keys].
  - change (data_to_plot np ui data "Mulliken charges") with
      (process_mulliken_data ui data data ≫= attach_conformation data) in Hdf.
    apply bind_Ok in Hdf as (df0 & H0 & Hattach).
    destruct (process_mulliken_data_conformation _ _ _ _ H0)
      as (? & ? & ? & _ & _ & Hconf).
    apply (attach_conformation_present _ _ _ _ Hconf) in Hattach as ->.
    clear Hconf.
    destruct (process_mulliken_data_table _ _ _ _ H0)
      as (labels & atom_charges & col_names & cols & uniq
          & Hlabels & Hcharges & Hnames & Hshape & Hcols & Hlen & Huniq & ->).
    destruct (columns_length _ _ Hcols) as [HlenK Hall].
    rewrite Hshape in HlenK.
    pose proof (mapM_Ok_length _ _ _ Hnames) as Hn. rewrite length_seq in Hn.
    set (full := mkDataFrame _ _).
    assert (rectangular full) as Hrect.
    { unfold full. rewrite <- HlenK at 1 2.
      rewrite <- (length_fmap (fun c : list Q => Num <$> c) cols).
      rewrite <- (length_fmap Int (conf data)).
      apply long_table_rect.
      - rewrite !length_fmap. congruence.
      - apply Forall_fmap. eapply Forall_impl; [exact Hall|].
        intros c Hc. simpl. rewrite !length_fmap. congruence. }
    destruct (get_column_long "Conformation" "atom_labels" "Mulliken charges"
                (concat (replicate (Pandas.shape1 (ds_Q data)) (Int <$> conf data)))
                (concat ((fun l => replicate (length (conf data)) l)
                           <$> (Str <$> col_names)))
                (concat ((fun c : list Q => Num <$> c) <$> cols)))
      as (Hid & _ & Hval); [done..|].
    cbv zeta. destruct (String.eqb _ "None").
    + split; [done|]. eexists _, _. split; [exact Hval|]. split; [exact Hid|].
      split; [apply Forall_concat_Num|apply Forall_concat_replicate, conf_keys].
    + split; [by apply filter_rows_rect|]. eexists _, _.
      rewrite !get_column_filter_rows. unfold full. cbn [df_columns].
      rewrite Hval, Hid. split; [done|]. split; [done|].
      split; apply Forall_select;
        [apply Forall_concat_Num|apply Forall_concat_replicate, conf_keys].
Qed.

(** X6.  Every table [data_to_plot] returns is for one of the eight
    properties of the selector, is rectangular, has a column named after the
    property that holds floats (or missing values) only, and a 'Conformation'
    column that holds identifiers of the dataset only.  For the six
    properties with one value per conformation these are the only columns,
    and there is one row per identifier. *)
Theorem data_to_plot_table (np : Numpy.Impl) (ui : Sidebar) (data : Dataset)
    (property : string) (df : DataFrame) :
  data_to_plot np ui data property = Ok df →
  In property properties
  ∧ rectangular df
  ∧ (∃ values,
       Pandas.get_column (Str property) (df_columns df) = Some values
       ∧ Forall numeric values)
  ∧ (∃ keys,
       Pandas.get_column (Str "Conformation") (df_columns df) = Some keys
       ∧ Forall (fun c => ∃ z, c = Int z ∧ In z (conf data)) keys)
  ∧ (In property per_conformation →
     df_len df = length (conf data)
     ∧ Pandas.columns df = [Str property; Str "Conformation"]).
Proof.
  intros Hdf.
  destruct (data_to_plot_columns _ _ _ _ _ Hdf)
    as (Hin & Hrect & values & keys & Hvalues & Hkeys & Hnum & Hids).
  split; [done|]. split; [done|]. split; [by exists values|].
  split; [by exists keys|]. intros Hper.
  by destruct (data_to_plot_per_conformation_table _ _ _ _ _ Hper Hdf)
    as (col & -> & _).
Qed.

Lemma data_to_plot_table_witness :
  ∃ df, data_to_plot Example.np Example.ui Example.data "Dipole moment" = Ok df
        ∧ rectangular df
        ∧ df_len df = 2%nat
        ∧ Pandas.columns df = [Str "Dipole moment"; Str "Conformation"].
Proof.
  eexists. split; [vm_compute; reflexivity|].
  destruct (data_to_plot_table Example.np Example.ui Example.data
              "Dipole moment" _ eq_refl) as (_ & Hrect & _ & _ & Hper).
  split; [exact Hrect|]. apply Hper. simpl. tauto.
Defined.

Lemma column_length_rect df label col :
  rectangular df → Pandas.get_column label (df_columns df) = Some col →
  length col = df_len df.
Proof.
  intros Hrect Hcol. destruct (get_column_In _ _ _ Hcol) as [l Hl].
  unfold rectangular in Hrect. rewrite Forall_forall in Hrect.
  by apply list_elem_of_In, Hrect in Hl.
Qed.

(** X13.  The statistics panel (lines 300 and 323-325): a table returned by
    [data_to_plot] that has rows is accepted by [build_stats] with the
    property as the feature.  The summary has at least one row, its index has
    no repetition and holds conformation identifiers of the dataset only, and
    for a property with one value per conformation it holds all of them. *)
Theorem data_to_plot_build_stats (np : Numpy.Impl) (ui : Sidebar) (data : Dataset)
    (property : string) (df : DataFrame) :
  data_to_plot np ui data property = Ok df →
  df_len df ≠ 0%nat →
  ∃ stats,
    build_stats np df property = Ok stats
    ∧ st_index stats ≠ []
    ∧ NoDup (st_index stats)
    ∧ (∀ z, In z (st_index stats) → In z (conf data))
    ∧ (In property per_conformation →
       ∀ z, In z (conf data) → In z (st_index stats)).
Proof.
  intros Hdf Hrows.
  destruct (data_to_plot_columns _ _ _ _ _ Hdf)
    as (Hin & Hrect & values & keys & Hvalues & Hkeys & Hnum & Hids).
  destruct (mapM_total Stats.key_of keys) as [keys' Hkeys'].
  { eapply Forall_impl; [exact Hids|]. intros c (z & -> & _). by eexists. }
  destruct (mapM_total Stats.number_of values) as [values' Hvalues'].
  { eapply Forall_impl; [exact Hnum|]. intros [q|z|s|]; simpl; try done;
      intros _; by eexists. }
  assert (property ≠ "Conformation") as Hne.
  { intros ->. simpl in Hin. intuition discriminate. }
  destruct (build_stats_eq np df property values keys keys' values')
    as (stats & med & Hrun & Hsorted & Hindex & _); [done..|].
  exists stats. split; [done|]. split; [|split; [|split]].
  - pose proof (column_length_rect _ _ _ Hrect Hkeys) as Hlen.
    destruct keys as [|c keys]; [simpl in Hlen; congruence|].
    apply Forall_inv in Hids as (z & -> & _).
    intros Hnil. assert (In z (st_index stats)) as Hz
      by (apply Hindex; by left).
    by rewrite Hnil in Hz.
  - by apply NoDup_ListNoDup, sorted_NoDup.
  - intros z Hz. apply Hindex in Hz. rewrite Forall_forall in Hids.
    apply list_elem_of_In, Hids in Hz as (z' & [= <-] & Hz'). done.
  - intros Hper z Hz. apply Hindex.
    destruct (data_to_plot_per_conformation_table _ _ _ _ _ Hper Hdf)
      as (col & -> & _).
    assert (keys = Int <$> conf data) as ->.
    { cbn [df_columns Pandas.get_column] in Hkeys.
      rewrite !cell_eqb_Str, String.eqb_refl in Hkeys.
      rewrite (proj2 (String.eqb_neq "Conformation" property)) in Hkeys
        by congruence.
      congruence. }
    apply list_elem_of_In, list_elem_of_fmap. exists z.
    split; [done|]. by apply list_elem_of_In.
Qed.

Lemma data_to_plot_build_stats_witness :
  ∃ df stats,
    data_to_plot Example.np Example.ui Example.data "Polarizability" = Ok df
    ∧ build_stats Example.np df "Polarizability" = Ok stats
    ∧ st_index stats ≠ []
    ∧ NoDup (st_index stats).
Proof.
  eexists.
  destruct (data_to_plot_build_stats Example.np Example.ui Example.data
              "Polarizability" _ eq_refl)
    as (stats & Hrun & Hne & Hnodup & _); [discriminate|].
  exists stats. split; [vm_compute; reflexivity|]. split; [exact Hrun|].
  split; [exact Hne|exact Hnodup].
Defined.

(** X10.  The HOMO-LUMO gap of a conformation is its LUMO energy (second
    entry of its HL row) minus its HOMO energy (first entry): whenever the
    table is returned, row i holds that difference beside the identifier of
    conformation i. *)
Theorem homo_lumo_gap_values (np : Numpy.Impl) (ui : Sidebar) (data : Dataset)
    (df : DataFrame) :
  data_to_plot np ui data "HOMO-LUMO gap" = Ok df →
  ∀ i row, ds_HL data !! i = Some row →
    ∃ homo lumo c,
      row !! 0%nat = Some homo ∧ row !! 1%nat = Some lumo
      ∧ conf data !! i = Some c
      ∧ cell_at df "HOMO-LUMO gap" i = Some (Num (lumo - homo))
      ∧ cell_at df "Conformation" i = Some (Int c).
Proof.
  change (data_to_plot np ui data "HOMO-LUMO gap") with
    ((lumo ← Pandas.column_of 1 (ds_HL data);
      homo ← Pandas.column_of 0 (ds_HL data);
      Pandas.of_dict [("HOMO-LUMO gap", Num <$> zip_with Qminus lumo homo)])
     ≫= attach_conformation data).
  intros H i row Hrow.
  apply bind_Ok in H as (df0 & H0 & Hattach).
  apply bind_Ok in H0 as (lumos & Hlumo & H0).
  apply bind_Ok in H0 as (homos & Hhomo & H0).
  rewrite of_dict_single in H0. apply Ok_inj in H0 as <-.
  apply attach_single in Hattach as (col & -> & Hcol); [|done].
  destruct (column_of_lookup _ _ _ _ _ Hlumo Hrow) as (lumo & Hl & Hli).
  destruct (column_of_lookup _ _ _ _ _ Hhomo Hrow) as (homo & Hh & Hhi).
  assert (zip_with Qminus lumos homos !! i = Some (lumo - homo)%Q) as Hgap.
  { apply lookup_zip_with_Some. by exists lumo, homo. }
  destruct Hcol as [[-> Hlen]|[Hnil _]]; cycle 1.
  { apply (f_equal length) in Hnil. rewrite length_fmap in Hnil.
    apply lookup_lt_Some in Hgap. simpl in Hnil. lia. }
  rewrite length_fmap in Hlen.
  destruct (lookup_lt_is_Some_2 (conf data) i) as [c Hc].
  { rewrite <- Hlen. by eapply lookup_lt_Some. }
  exists homo, lumo, c. repeat (split; [done|]).
  unfold cell_at. cbn [df_columns Pandas.get_column].
  rewrite !cell_eqb_Str.
  change (String.eqb "HOMO-LUMO gap" "HOMO-LUMO gap") with true.
  change (String.eqb "Conformation" "HOMO-LUMO gap") with false.
  change (String.eqb "Conformation" "Conformation") with true.
  cbn [mbind option_bind]. by rewrite !list_lookup_fmap, Hgap, Hc.
Qed.

Lemma homo_lumo_gap_values_witness :
  ∃ df, data_to_plot Example.np Example.ui Example.data "HOMO-LUMO gap" = Ok df
        ∧ cell_at df "HOMO-LUMO gap" 0 = Some (Num ((1 # 10) - (-3 # 10)))
        ∧ cell_at df "Conformation" 0 = Some (Int 4).
Proof.
  eexists. split; [vm_compute; reflexivity|].
  destruct (homo_lumo_gap_values Example.np Example.ui Example.data _ eq_refl
              0%nat [-3 # 10; 1 # 10]%Q eq_refl)
    as (homo & lumo & c & Hh & Hl & Hc & Hgap & Hconf).
  injection Hh as <-. injection Hl as <-. injection Hc as <-.
  split; [exact Hgap|exact Hconf].
Defined.

(** X5.  When the first atom of the molecule is not in the element lookup,
    every label is left as [None] where the lookup has no entry, and building
    the column names of the charge table fails: 'Mulliken charges' raises a
    [TypeError] (for [None + str]) as soon as the charges can be arranged by
    atom. *)
Theorem mulliken_unknown_first_atom (np : Numpy.Impl) (ui : Sidebar)
    (data : Dataset) (z0 : Z) (rest : list Z) :
  flatten (ds_Z data) = z0 :: rest →
  atom_types !! z0 = None →
  is_ok (Numpy.reshape_rows (Pandas.shape1 (ds_Q data)) (ds_Q data)) = true →
  z_to_labels data = Ok (atom_types_get <$> (z0 :: rest))
  ∧ ∃ msg, data_to_plot np ui data "Mulliken charges" = Raise (TypeError msg).
Proof.
  intros HZ Hz0 Hreshape.
  assert (atom_types_get z0 = PNone) as Hnone
    by (unfold atom_types_get; by rewrite Hz0).
  assert (z_to_labels data = Ok (atom_types_get <$> (z0 :: rest))) as Hlabels.
  { unfold z_to_labels. rewrite HZ. unfold np_vectorize. by rewrite Hnone. }
  split; [done|].
  change (data_to_plot np ui data "Mulliken charges") with
    (process_mulliken_data ui data data ≫= attach_conformation data).
  unfold process_mulliken_data. rewrite Hlabels. rsimpl.
  destruct (Numpy.reshape_rows _ _) as [atom_charges|] eqn:Hcharges; [|done].
  rsimpl.
  assert (Pandas.shape1 (ds_Q data) ≠ 0%nat) as Hn.
  { intros Hz. unfold Numpy.reshape_rows in Hcharges. rewrite Hz in Hcharges.
    discriminate Hcharges. }
  destruct (Pandas.shape1 (ds_Q data)) as [|n]; [done|].
  cbn [seq mapM]. unfold index at 1. rewrite fmap_cons. cbn [lookup list_lookup].
  rewrite Hnone. cbn [mbind result_bind label_plus]. by eexists.
Qed.

Lemma mulliken_unknown_first_atom_witness :
  z_to_labels Scenario.data_helium_first = Ok [PNone; PStr "C"; PStr "N"; PStr "O"]
  ∧ ∃ msg, data_to_plot Example.np Example.ui Scenario.data_helium_first
             "Mulliken charges" = Raise (TypeError msg).
Proof.
  apply (mulliken_unknown_first_atom Example.np Example.ui Scenario.data_helium_first
           2 [6; 7; 8]); reflexivity.
Defined.

(** ** Filtering a long-form table by its labels *)

Lemma select_app {A} (m1 m2 : list bool) (l1 l2 : list A) :
  length m1 = length l1 →
  Pandas.select (m1 ++ m2) (l1 ++ l2) = Pandas.select m1 l1 ++ Pandas.select m2 l2.
Proof.
  revert l1. induction m1 as [|b m1 IH]; intros [|x l1]; simpl; try done.
  intros [= Hlen]. destruct b; simpl; by rewrite IH.
Qed.

Lemma select_replicate {A} (b : bool) (l : list A) :
  Pandas.select (replicate (length l) b) l = if b then l else [].
Proof.
  induction l as [|x l IH]; simpl; [by destruct b|].
  rewrite IH. by destruct b.
Qed.

Lemma select_nil_r {A} (mask : list bool) : Pandas.select mask (@nil A) = [].
Proof. by destruct mask. Qed.

(** A mask that is constant on each block keeps whole blocks. *)
Lemma select_concat_blocks {A} (n : nat) (bits : list bool)
    (blocks : list (list A)) :
  Forall (fun c => length c = n) blocks →
  Pandas.select (concat ((fun b => replicate n b) <$> bits)) (concat blocks)
  = concat (Pandas.select bits blocks).
Proof.
  intros Hall. revert bits. induction Hall as [|c blocks Hc _ IH]; intros bits.
  - simpl. by rewrite select_nil_r, select_nil_r.
  - destruct bits as [|b bits]; [done|]. rewrite fmap_cons. cbn [concat].
    rewrite select_app by (by rewrite length_replicate).
    rewrite IH, <- Hc, select_replicate. cbn [Pandas.select].
    by destruct b.
Qed.

Lemma select_fmap {A B} (f : A → B) (mask : list bool) (l : list A) :
  Pandas.select mask (f <$> l) = f <$> Pandas.select mask l.
Proof.
  revert l. induction mask as [|b mask IH]; intros [|x l]; simpl; try done.
  destruct b; simpl; by rewrite IH.
Qed.

Lemma select_length_le {A} (mask : list bool) (l : list A) :
  (length (Pandas.select mask l) <= length l)%nat.
Proof.
  revert l. induction mask as [|b mask IH]; intros [|x l]; simpl; try lia.
  specialize (IH l). destruct b; simpl; lia.
Qed.

Lemma select_replicate_blocks {A} (bits : list bool) (x : A) :
  Pandas.select bits (replicate (length bits) x)
  = replicate (length (Pandas.select bits bits)) x.
Proof.
  induction bits as [|b bits IH]; [done|]. simpl.
  destruct b; simpl; by rewrite IH.
Qed.

(** Filtering a long-form table with a mask that follows its labels gives
    the long-form table of the labels kept. *)
Lemma filter_long_table (id var value : string) (ids labels : list cell)
    (blocks : list (list cell)) (bits : list bool) :
  length bits = length labels → length blocks = length labels →
  Forall (fun c => length c = length ids) blocks →
  Pandas.filter_rows (long_table id var value ids labels blocks)
    (concat ((fun b => replicate (length ids) b) <$> bits))
  = long_table id var value ids (Pandas.select bits labels)
      (Pandas.select bits blocks).
Proof.
  intros Hbits Hblocks Hall. unfold long_table, Pandas.filter_rows.
  cbn [df_len df_columns fmap list_fmap fst snd].
  assert (length (Pandas.select bits labels)
          = length (Pandas.select bits bits)) as Hcount
    by (by apply length_select).
  f_equal; [|f_equal; [|f_equal; [|f_equal]]].
  - rewrite length_select_count.
    + rewrite filter_concat_replicate.
      by rewrite (length_select_count bits labels).
    + rewrite length_seq, (length_concat_const _ (length ids)).
      * rewrite length_fmap. lia.
      * apply Forall_fmap, Forall_true. intros b. simpl. apply length_replicate.
  - f_equal.
    rewrite (select_concat_blocks (length ids))
      by (by apply Forall_replicate).
    rewrite <- Hbits, select_replicate_blocks. by rewrite Hcount.
  - f_equal.
    rewrite (select_concat_blocks (length ids))
      by (apply Forall_fmap, Forall_true; intros l; simpl; apply length_replicate).
    by rewrite select_fmap.
  - f_equal. by apply select_concat_blocks.
Qed.

(** ** The extractors nothing calls *)

Lemma long_form_table a names ids (var value : string) df1 df2 df3 :
  Forall (fun l => cell_eqb (Str "Conformation") l = false)
         (default (Int <$> (Z.of_nat <$> seq 0 (Pandas.shape1 a))) names) →
  Pandas.of_array a names = Ok df1 →
  Pandas.setitem df1 (Str "Conformation") ids = Ok df2 →
  Pandas.melt df2 "Conformation" var value = Ok df3 →
  ∃ cols,
    mapM (fun j => Pandas.column_of j a) (seq 0 (Pandas.shape1 a)) = Ok cols
    ∧ length (default (Int <$> (Z.of_nat <$> seq 0 (Pandas.shape1 a))) names)
      = Pandas.shape1 a
    ∧ (Pandas.shape1 a ≠ 0%nat → length a = length ids)
    ∧ df3 = long_table "Conformation" var value ids
              (default (Int <$> (Z.of_nat <$> seq 0 (Pandas.shape1 a))) names)
              ((fun c : list Q => Num <$> c) <$> cols).
Proof.
  intros Hfresh H1 H2 H3.
  destruct (of_array_inv _ _ _ H1) as (labels & cols0 & _ & -> & Hl & _).
  destruct (long_form _ _ _ _ _ _ _ _ Hfresh H1 H2 H3)
    as (cols & Hcols & Hrows & ->).
  exists cols. split; [done|]. split; [done|]. split; [done|].
  unfold long_table. by rewrite Hl.
Qed.

Lemma select_at_index {A} (l : list A) (s k : nat) :
  Pandas.select ((fun j => Nat.eqb j (s + k)) <$> seq s (length l)) l
  = option_list (l !! k).
Proof.
  revert s k. induction l as [|x l IH]; intros s k; [done|].
  cbn [length seq fmap list_fmap Pandas.select].
  fold (fmap (M := list) (fun j => Nat.eqb j (s + k))).
  destruct k as [|k].
  - rewrite Nat.add_0_r, Nat.eqb_refl. change (option_list ((x :: l) !! 0%nat)) with [x].
    f_equal.
    assert (∀ (l' : list A) s', (s < s')%nat →
              Pandas.select ((fun j => Nat.eqb j s) <$> seq s' (length l')) l' = [])
      as Hnone.
    { induction l' as [|y l' IH']; intros s' Hs'; [done|].
      cbn [length seq fmap list_fmap Pandas.select].
      rewrite (proj2 (Nat.eqb_neq s' s)) by lia. apply IH'. lia. }
    apply Hnone. lia.
  - rewrite (proj2 (Nat.eqb_neq s (s + S k))) by lia.
    replace (s + S k)%nat with (S s + k)%nat by lia. apply IH.
Qed.

Lemma eq_mask_concat (value : cell) (n : nat) (labels : list cell) :
  eq_mask value (concat ((fun l => replicate n l) <$> labels))
  = concat ((fun b => replicate n b)
              <$> ((fun l => cell_eqb l value) <$> labels)).
Proof.
  unfold eq_mask. induction labels as [|l labels IH]; [done|].
  rewrite !fmap_cons. cbn [concat]. rewrite fmap_app, IH. f_equal.
  by rewrite fmap_replicate.
Qed.

Lemma isin_concat (values : list cell) (n : nat) (labels : list cell) :
  isin values (concat ((fun l => replicate n l) <$> labels))
  = concat ((fun b => replicate n b)
              <$> ((fun l => existsb (cell_eqb l) values) <$> labels)).
Proof.
  unfold isin. induction labels as [|l labels IH]; [done|].
  rewrite !fmap_cons. cbn [concat]. rewrite fmap_app, IH. f_equal.
  by rewrite fmap_replicate.
Qed.

(** X11.  [process_freq_data] returns the frequencies of the one mode the
    slider is at, a row per conformation.  The slider runs from 0 to the
    number of modes inclusive, one position more than there are modes: at its
    last position the table has no row at all. *)
Theorem process_freq_data_mode (ui : Controls) (data : Dataset)
    (dataset : Spectra) (df : DataFrame) :
  process_freq_data ui data dataset = Ok df →
  ∃ freq cols,
    ds_FREQ dataset = Some freq
    ∧ mapM (fun j => Pandas.column_of j freq) (seq 0 (Pandas.shape1 freq)) = Ok cols
    ∧ ∃ mode : nat,
        st_slider ui "mode selector" 0 (Z.of_nat (Pandas.shape1 freq))
          = Z.of_nat mode
        ∧ (mode <= Pandas.shape1 freq)%nat
        ∧ df = long_table "Conformation" "modes" "Vibrational frequencies"
                 (Int <$> conf data)
                 (if decide (mode < Pandas.shape1 freq)%nat
                  then [Int (Z.of_nat mode)] else [])
                 (option_list (((fun c : list Q => Num <$> c) <$> cols) !! mode))
        ∧ (mode = Pandas.shape1 freq → df_len df = 0%nat)
        ∧ ((mode < Pandas.shape1 freq)%nat → df_len df = length (conf data)).
Proof.
  unfold process_freq_data. intros H.
  apply bind_Ok in H as (freq & Hfreq & H).
  apply bind_Ok in H as (df1 & H1 & H).
  apply bind_Ok in H as (df2 & H2 & H).
  apply bind_Ok in H as (df3 & H3 & H).
  destruct (ds_FREQ dataset) as [freq'|]; [apply Ok_inj in Hfreq as ->|done].
  assert (Forall (fun l => cell_eqb (Str "Conformation") l = false)
            (default (Int <$> (Z.of_nat <$> seq 0 (Pandas.shape1 freq))) None))
    as Hfresh by (simpl; by apply Forall_fmap, Forall_true).
  destruct (long_form_table _ None _ _ _ _ _ _ Hfresh H1 H2 H3)
    as (cols & Hcols & Hl & Hrows & ->).
  cbn [from_option id] in *. 
  exists freq, cols. split; [done|]. split; [done|].
  set (K := Pandas.shape1 freq) in *.
  set (m := st_slider ui "mode selector" 0 (Z.of_nat K)) in *.
  assert (0 <= m <= Z.of_nat K) as Hm by (unfold m, st_slider; lia).
  exists (Z.to_nat m). split; [lia|]. split; [lia|].
  unfold long_table at 1 in H. cbn [df_columns] in H.
  destruct (get_column_long "Conformation" "modes" "Vibrational frequencies"
              (concat (replicate (length (Int <$> (Z.of_nat <$> seq 0 K)))
                                 (Int <$> conf data)))
              (concat ((fun l => replicate (length (Int <$> conf data)) l)
                         <$> (Int <$> (Z.of_nat <$> seq 0 K))))
              (concat ((fun c : list Q => Num <$> c) <$> cols)))
    as (_ & Hvar & _); [done..|].
  rewrite Hvar in H. apply Ok_inj in H as <-.
  rewrite eq_mask_concat.
  pose proof (columns_length _ _ Hcols) as [HlenK Hall]. fold K in HlenK.
  rewrite filter_long_table; cycle 1.
  { by rewrite !length_fmap. }
  { rewrite !length_fmap, length_seq. done. }
  { apply Forall_fmap. apply Forall_forall. intros c Hc. simpl.
    rewrite (length_fmap Num). rewrite Forall_forall in Hall. rewrite (Hall c Hc).
    apply Hrows. intros Hz. fold K in Hz. rewrite Hz in HlenK.
    destruct cols; [by apply elem_of_nil in Hc|done]. }
  assert ((fun l => cell_eqb l (Int m)) <$> (Int <$> (Z.of_nat <$> seq 0 K))
          = (fun j => Nat.eqb j (0 + Z.to_nat m)) <$> seq 0 K) as ->.
  { rewrite <- !list_fmap_compose. apply list_fmap_ext. intros i j _. simpl.
    destruct (Nat.eqb_spec j (Z.to_nat m)); [apply Z.eqb_eq|apply Z.eqb_neq]; lia. }
  assert (Pandas.select ((fun j => Nat.eqb j (0 + Z.to_nat m)) <$> seq 0 K)
            (Int <$> (Z.of_nat <$> seq 0 K))
          = if decide (Z.to_nat m < K)%nat then [Int (Z.of_nat (Z.to_nat m))]
            else []) as Hlabels.
  { rewrite <- (length_seq K 0) at 1.
    rewrite <- (length_fmap Z.of_nat), <- (length_fmap Int).
    rewrite select_at_index, !list_lookup_fmap.
    case_decide as Hd.
    - by rewrite lookup_seq_lt by done.
    - by rewrite lookup_seq_ge by lia. }
  rewrite Hlabels.
  assert (Pandas.select ((fun j => Nat.eqb j (0 + Z.to_nat m)) <$> seq 0 K)
            ((fun c : list Q => Num <$> c) <$> cols)
          = option_list (((fun c : list Q => Num <$> c) <$> cols) !! Z.to_nat m))
    as ->.
  { rewrite <- HlenK at 1.
    rewrite <- (length_fmap (fun c : list Q => Num <$> c) cols).
    apply select_at_index. }
  split; [done|]. unfold long_table. cbn [df_len]. rewrite length_fmap.
  split.
  - intros Hmax. rewrite decide_False by lia. simpl. lia.
  - intros Hlt. rewrite decide_True by done. simpl. lia.
Qed.

Lemma process_freq_data_mode_witness :
  (∃ df, process_freq_data (Scenario.controls 1 []) Example.data Scenario.spectra
           = Ok df
         ∧ df_len df = 2%nat
         ∧ cell_at df "Vibrational frequencies" 1 = Some (Num 210))
  ∧ (∃ df, process_freq_data (Scenario.controls 3 []) Example.data Scenario.spectra
             = Ok df
           ∧ df_len df = 0%nat).
Proof.
  split.
  - eexists. split; [vm_compute; reflexivity|].
    destruct (process_freq_data_mode (Scenario.controls 1 []) Example.data
                Scenario.spectra _ eq_refl)
      as (freq & cols & Hfreq & Hcols & mode & Hmode & _ & _ & _ & Hlen).
    injection Hfreq as <-. split; [|reflexivity].
    assert (mode = 1%nat) as -> by (apply Nat2Z.inj; rewrite <- Hmode; reflexivity).
    apply Hlen. simpl. lia.
  - eexists. split; [vm_compute; reflexivity|].
    destruct (process_freq_data_mode (Scenario.controls 3 []) Example.data
                Scenario.spectra _ eq_refl)
      as (freq & cols & Hfreq & Hcols & mode & Hmode & _ & _ & Hmax & _).
    injection Hfreq as <-.
    assert (mode = 3%nat) as -> by (apply Nat2Z.inj; rewrite <- Hmode; reflexivity).
    apply Hmax. reflexivity.
Defined.

Lemma isin_energy_types (b1 b2 b3 : bool) :
  (fun l => existsb (cell_eqb l)
              (Str <$> Pandas.select [b1; b2; b3] energy_types))
    <$> (Str <$> energy_types)
  = [b1; b2; b3].
Proof. by destruct b1, b2, b3. Qed.

(** X12.  [process_thermal_data] returns one block of rows, a row per
    conformation, for each energy type whose checkbox is ticked, in the order
    energies, enthalpies, free energies; with no checkbox ticked, as they are
    at first, the table has no rows. *)
Theorem process_thermal_data_types (ui : Controls) (data : Dataset)
    (dataset : Spectra) (df : DataFrame) :
  process_thermal_data ui data dataset = Ok df →
  ∃ eth cols,
    ds_ETH dataset = Some eth
    ∧ Pandas.shape1 eth = 3%nat
    ∧ mapM (fun j => Pandas.column_of j eth) (seq 0 3) = Ok cols
    ∧ df = long_table "Conformation" "types" "Electronic + thermal"
             (Int <$> conf data)
             (Str <$> Pandas.select (st_checkbox ui <$> energy_types) energy_types)
             (Pandas.select (st_checkbox ui <$> energy_types)
                            ((fun c : list Q => Num <$> c) <$> cols))
    ∧ df_len df
      = (length (conf data)
         * length (List.filter (st_checkbox ui) energy_types))%nat.
Proof.
  unfold process_thermal_data. intros H.
  apply bind_Ok in H as (eth & Heth & H).
  apply bind_Ok in H as (df1 & H1 & H).
  apply bind_Ok in H as (df2 & H2 & H).
  apply bind_Ok in H as (df3 & H3 & H).
  destruct (ds_ETH dataset) as [eth'|]; [apply Ok_inj in Heth as ->|done].
  assert (Forall (fun l => cell_eqb (Str "Conformation") l = false)
            (default (Int <$> (Z.of_nat <$> seq 0 (Pandas.shape1 eth)))
                     (Some (Str <$> energy_types))))
    as Hfresh by (cbn; repeat constructor).
  destruct (long_form_table _ _ _ _ _ _ _ _ Hfresh H1 H2 H3)
    as (cols & Hcols & Hl & Hrows & ->).
  cbn [from_option id] in *.
  assert (Pandas.shape1 eth = 3%nat) as HK by (by rewrite <- Hl).
  pose proof (columns_length _ _ Hcols) as [HlenK Hall].
  rewrite HK in *.
  exists eth, cols. split; [done|]. split; [done|]. split; [done|].
  unfold long_table at 1 in H. cbn [df_columns] in H.
  destruct (get_column_long "Conformation" "types" "Electronic + thermal"
              (concat (replicate (length (Str <$> energy_types)) (Int <$> conf data)))
              (concat ((fun l => replicate (length (Int <$> conf data)) l)
                         <$> (Str <$> energy_types)))
              (concat ((fun c : list Q => Num <$> c) <$> cols)))
    as (_ & Hvar & _); [done..|].
  rewrite Hvar in H. apply Ok_inj in H as <-.
  rewrite isin_concat.
  change (st_checkbox ui <$> energy_types)
    with [st_checkbox ui "energies"; st_checkbox ui "enthalpies";
          st_checkbox ui "free energies"].
  rewrite isin_energy_types.
  rewrite filter_long_table; cycle 1.
  { done. }
  { by rewrite !length_fmap. }
  { apply Forall_fmap. apply Forall_forall. intros c Hc. simpl.
    rewrite (length_fmap Num). rewrite Forall_forall in Hall. rewrite (Hall c Hc).
    by apply Hrows. }
  rewrite select_fmap. split; [done|].
  unfold long_table. cbn [df_len]. rewrite !length_fmap.
  unfold energy_types, st_checkbox. cbn [Pandas.select List.filter].
  by destruct (checkbox_ticked ui "energies"),
             (checkbox_ticked ui "enthalpies"),
             (checkbox_ticked ui "free energies").
Qed.

Lemma process_thermal_data_types_witness :
  (∃ df, process_thermal_data (Scenario.controls 0 []) Example.data
           Scenario.spectra = Ok df
         ∧ df_len df = 0%nat)
  ∧ (∃ df, process_thermal_data (Scenario.controls 0 ["enthalpies"; "energies"])
             Example.data Scenario.spectra = Ok df
           ∧ df_len df = 4%nat
           ∧ Pandas.get_column (Str "types") (df_columns df)
             = Some [Str "energies"; Str "energies";
                     Str "enthalpies"; Str "enthalpies"]).
Proof.
  split.
  - eexists. split; [vm_compute; reflexivity|].
    destruct (process_thermal_data_types (Scenario.controls 0 []) Example.data
                Scenario.spectra _ eq_refl)
      as (eth & cols & _ & _ & _ & _ & Hlen).
    exact Hlen.
  - eexists. split; [vm_compute; reflexivity|].
    destruct (process_thermal_data_types
                (Scenario.controls 0 ["enthalpies"; "energies"]) Example.data
                Scenario.spectra _ eq_refl)
      as (eth & cols & _ & _ & _ & _ & Hlen).
    split; [exact Hlen|reflexivity].
Defined.

(** ** Summary statistics of one group *)

(** In a sorted list the entries grow with the position. *)
Lemma sorted_nth_le (s : list Q) (d : Q) (i j : nat) :
  StronglySorted Qle s → (i <= j)%nat → (j < length s)%nat →
  (nth i s d <= nth j s d)%Q.
Proof.
  intros Hs. revert i j. induction Hs as [|x s Hs IH Hx]; intros i j Hij Hj;
    [simpl in Hj; lia|].
  destruct i as [|i], j as [|j]; simpl in *; try lia.
  - apply Qle_refl.
  - rewrite Forall_forall in Hx. apply Hx, list_elem_of_In, nth_In. lia.
  - apply IH; lia.
Qed.

Lemma head_nth {A} (s : list A) (d : A) : head s = Some (nth 0 s d) ∨ s = [].
Proof. destruct s; [by right|by left]. Qed.

Lemma last_nth {A} (s : list A) (d : A) :
  s ≠ [] → last s = Some (nth (length s - 1) s d).
Proof.
  induction s as [|x s IH]; [done|]. intros _.
  destruct s as [|y s]; [done|].
  change (last (x :: y :: s)) with (last (y :: s)). rewrite IH by done.
  simpl. by rewrite Nat.sub_0_r.
Qed.

Lemma is_float_half : Float64.is_float (1 # 2).
Proof. unfold Float64.is_float. by rewrite round_half. Qed.

(** The interpolation of numpy stays between its two ends, with the
    rounding of each of its operations. *)
Lemma lerp_between (a b t : Q) :
  Float64.is_float a → Float64.is_float b →
  (a <= b)%Q → (0 <= t)%Q → (t <= 1)%Q →
  (a <= Stats.lerp a b t)%Q ∧ (Stats.lerp a b t <= b)%Q.
Proof.
  intros Ha Hb Hab H0 H1. unfold Stats.lerp. cbv zeta.
  destruct (Qle_bool (1 # 2) t) eqn:E.
  - apply Qle_bool_iff in E.
    assert (0 <= Float64.sub 1 t)%Q as Hs0
      by (apply round_nonneg; lra).
    assert (Float64.sub 1 t <= 1 # 2)%Q as Hs1
      by (apply round_le_float; [apply is_float_half|lra]).
    destruct (round_part_le a b _ Ha Hb Hab Hs0 Hs1) as [Hp0 Hp1].
    split; [apply round_ge_float|apply round_le_float]; try done; lra.
  - assert (t <= 1 # 2)%Q as Ht.
    { apply Qlt_le_weak, Qnot_le_lt. intros H. apply Qle_bool_iff in H.
      congruence. }
    destruct (round_part_le a b t Ha Hb Hab H0 Ht) as [Hp0 Hp1].
    split; [apply round_ge_float|apply round_le_float]; try done; lra.
Qed.

Lemma of_nat_nonneg (n : nat) : (0 <= Stats.of_nat n)%Q.
Proof.
  unfold Stats.of_nat. change 0%Q with (inject_Z 0). rewrite <- Zle_Qle. lia.
Qed.

(** Every percentile of a sorted, non-empty list of binary64 numbers lies
    between its first and its last entry. *)
Lemma quantile_between (q : Q) (s : list Q) (d : Q) :
  StronglySorted Qle s → s ≠ [] → Forall Float64.is_float s →
  (0 <= q)%Q → (q <= 1)%Q →
  ∃ v, Stats.quantile q s = Num v
       ∧ (nth 0 s d <= v)%Q ∧ (v <= nth (length s - 1) s d)%Q.
Proof.
  intros Hs Hne Hfloat Hq0 Hq1. destruct s as [|x0 s']; [done|].
  set (s := x0 :: s') in *. unfold Stats.quantile. fold s. cbv zeta.
  set (n := length s). assert (n = S (length s')) as Hn by done.
  set (v := (q * Stats.of_nat (n - 1))%Q).
  assert (0 <= v)%Q as Hv0
    by (apply Qmult_le_0_compat; [done|apply of_nat_nonneg]).
  assert (v <= Stats.of_nat (n - 1))%Q as Hv1.
  { unfold v. pose proof (of_nat_nonneg (n - 1)) as Hm.
    assert (0 <= (1 - q) * Stats.of_nat (n - 1))%Q
      by (apply Qmult_le_0_compat; lra).
    lra. }
  assert (0 <= Qfloor v)%Z as Hf0.
  { change 0%Z with (Qfloor 0). by apply Qfloor_resp_le. }
  assert (Qfloor v <= Z.of_nat (n - 1))%Z as Hf1.
  { rewrite <- (Qfloor_Z (Z.of_nat (n - 1))). by apply Qfloor_resp_le. }
  pose proof (Qfloor_le v) as Hfl. pose proof (Qlt_floor v) as Hfu.
  rewrite inject_Z_plus in Hfu.
  set (k := Z.to_nat (Qfloor v)).
  assert (k <= n - 1)%nat as Hk by lia.
  eexists. split; [reflexivity|].
  assert (nth 0 s x0 = nth 0 s d) as <- by done.
  assert (nth (n - 1) s x0 = nth (n - 1) s d) as <-
    by (by apply nth_indep; unfold n; simpl; lia).
  assert (∀ i, (i < n)%nat → Float64.is_float (nth i s x0)) as Hnth.
  { intros i Hi. rewrite Forall_forall in Hfloat.
    apply Hfloat, list_elem_of_In, nth_In. by fold n. }
  destruct (lerp_between (nth k s x0) (nth ((k + 1) `min` (n - 1)) s x0)
              (v - inject_Z (Qfloor v))) as [Hlo Hhi].
  - apply Hnth. lia.
  - apply Hnth. lia.
  - apply sorted_nth_le; [done|lia|fold n; lia].
  - lra.
  - change (inject_Z 1) with 1%Q in Hfu. lra.
  - split.
    + eapply Qle_trans; [|exact Hlo]. apply sorted_nth_le; [done|lia|fold n; lia].
    + eapply Qle_trans; [exact Hhi|].
      apply sorted_nth_le; [done|lia|fold n; lia].
Qed.

(** So does the median: the mean of two binary64 numbers, rounded after the
    addition and after the division, stays between them. *)
Lemma median_between (s : list Q) (d : Q) :
  StronglySorted Qle s → s ≠ [] → Forall Float64.is_float s →
  ∃ v, Stats.median s = Num v
       ∧ (nth 0 s d <= v)%Q ∧ (v <= nth (length s - 1) s d)%Q.
Proof.
  intros Hs Hne Hfloat. destruct s as [|x0 s']; [done|].
  set (s := x0 :: s') in *. unfold Stats.median. fold s.
  set (n := length s). assert (n = S (length s')) as Hn by done.
  assert (nth 0 s x0 = nth 0 s d) as <- by done.
  assert (nth (n - 1) s x0 = nth (n - 1) s d) as <-
    by (by apply nth_indep; unfold n; simpl; lia).
  assert (n / 2 < n)%nat as Hhalf by (apply Nat.div_lt; lia).
  assert (∀ i, (i < n)%nat →
            (nth 0 s x0 <= nth i s x0)%Q ∧ (nth i s x0 <= nth (n - 1) s x0)%Q)
    as Hin.
  { intros i Hi. split; apply sorted_nth_le; try done; fold n; lia. }
  assert (∀ i, (i < n)%nat → Float64.is_float (nth i s x0)) as Hnth.
  { intros i Hi. rewrite Forall_forall in Hfloat.
    apply Hfloat, list_elem_of_In, nth_In. by fold n. }
  destruct (Nat.eqb (n mod 2) 1).
  - eexists. split; [reflexivity|]. by apply Hin.
  - eexists. split; [reflexivity|].
    destruct (Hin (n / 2)%nat Hhalf) as [H1 H2].
    destruct (Hin (n / 2 - 1)%nat) as [H3 H4]; [lia|].
    pose proof (Hnth 0%nat ltac:(lia)) as Hf0.
    pose proof (Hnth (n - 1)%nat ltac:(lia)) as Hf1.
    set (lo := nth 0 s x0) in *. set (hi := nth (n - 1) s x0) in *.
    set (a := nth (n / 2 - 1) s x0) in *. set (b := nth (n / 2) s x0) in *.
    assert (2 * lo <= Float64.add b a)%Q as Hsum0
      by (apply round_ge_float; [by apply is_float_double|lra]).
    assert (Float64.add b a <= 2 * hi)%Q as Hsum1
      by (apply round_le_float; [by apply is_float_double|lra]).
    unfold Float64.div. split.
    + apply round_ge_float; [done|].
      apply Qle_shift_div_l; [reflexivity|]. lra.
    + apply round_le_float; [done|].
      apply Qle_shift_div_r; [reflexivity|]. lra.
Qed.

(** ** The summary table, column by column *)

Section DescribeFacts.

Variable np : Numpy.Impl.

(** The statistics of a non-empty group: its size, its least and its
    greatest value and, for binary64 values, the percentiles and the median
    between them. *)
Lemma describe_bounds (l : list Q) :
  l ≠ [] →
  ∃ a b,
    In a l ∧ In b l ∧ (∀ y, In y l → (a <= y)%Q ∧ (y <= b)%Q)
    ∧ dict_get (Stats.describe np l) "count" = Some (Num (Stats.of_nat (length l)))
    ∧ dict_get (Stats.describe np l) "min" = Some (Num a)
    ∧ dict_get (Stats.describe np l) "max" = Some (Num b)
    ∧ (Forall Float64.is_float l →
       (∀ name, In name ["25%"; "50%"; "75%"] →
          ∃ v, dict_get (Stats.describe np l) name = Some (Num v)
               ∧ (a <= v)%Q ∧ (v <= b)%Q)
       ∧ ∃ v, Stats.median (Stats.sort l) = Num v ∧ (a <= v)%Q ∧ (v <= b)%Q).
Proof.
  intros Hne. pose proof (sort_sorted l) as Hsorted.
  pose proof (sort_length l) as Hlength.
  pose proof (fun y => sort_In y l) as HIn.
  unfold Stats.describe.
  remember (Stats.sort l) as s eqn:Heqs. clear Heqs.
  assert (0 < length s)%nat as Hlen by (rewrite Hlength; destruct l; [done|simpl; lia]).
  assert (s ≠ []) as Hs by (intros ->; simpl in Hlen; lia).
  remember (nth 0 s 0%Q) as a eqn:Heqa.
  remember (nth (length s - 1) s 0%Q) as b eqn:Heqb.
  assert (In a l) as Ha by (subst a; apply HIn, nth_In; lia).
  assert (In b l) as Hb by (subst b; apply HIn, nth_In; lia).
  assert (∀ y, In y l → (a <= y)%Q ∧ (y <= b)%Q) as Hall.
  { intros y Hy. apply HIn in Hy.
    apply (In_nth _ _ 0%Q) in Hy as (i & Hi & <-). subst a b.
    split; apply sorted_nth_le; try done; lia. }
  exists a, b. do 3 (split; [done|]). split; [reflexivity|].
  split; [|split].
  - cbn [dict_get].
    change (String.eqb "min" "count") with false.
    change (String.eqb "min" "mean") with false.
    change (String.eqb "min" "std") with false.
    change (String.eqb "min" "min") with true. cbv iota.
    destruct (head_nth s 0%Q) as [-> |]; [by subst a|done].
  - cbn [dict_get].
    change (String.eqb "max" "count") with false.
    change (String.eqb "max" "mean") with false.
    change (String.eqb "max" "std") with false.
    change (String.eqb "max" "min") with false.
    change (String.eqb "max" "25%") with false.
    change (String.eqb "max" "50%") with false.
    change (String.eqb "max" "75%") with false.
    change (String.eqb "max" "max") with true. cbv iota.
    rewrite (last_nth s 0%Q) by done. by subst b.
  - intros Hfloat.
    assert (Forall Float64.is_float s) as Hfloats.
    { apply Forall_forall. intros y Hy. rewrite Forall_forall in Hfloat.
      apply Hfloat, list_elem_of_In, HIn. by apply list_elem_of_In. }
    split.
    + intros name Hname. simpl in Hname.
      destruct Hname as [<-|[<-|[<-|[]]]].
      * destruct (quantile_between (1 # 4) s 0%Q) as (v & Hv & Hlo & Hhi);
          [done|done|done|discriminate|discriminate|].
        exists v. subst a b. split; [|done]. rewrite <- Hv. reflexivity.
      * destruct (quantile_between (1 # 2) s 0%Q) as (v & Hv & Hlo & Hhi);
          [done|done|done|discriminate|discriminate|].
        exists v. subst a b. split; [|done]. rewrite <- Hv. reflexivity.
      * destruct (quantile_between (3 # 4) s 0%Q) as (v & Hv & Hlo & Hhi);
          [done|done|done|discriminate|discriminate|].
        exists v. subst a b. split; [|done]. rewrite <- Hv. reflexivity.
    + subst a b. by apply median_between.
Qed.

End DescribeFacts.

(** X22.  The summary table of [build_stats], when it has a row, has exactly
    nine statistics: the eight of [describe] and the median; every one of
    them has one entry per row. *)
Theorem build_stats_statistics (np : Numpy.Impl) (dataframe : DataFrame)
    (feature : string) (stats : StatsTable) :
  build_stats np dataframe feature = Ok stats →
  st_index stats ≠ [] →
  (∀ name, is_Some (Stats.column name stats) ↔
           In name ["count"; "mean"; "std"; "min"; "25%"; "50%"; "75%"; "max";
                    "median"])
  ∧ (∀ name col, Stats.column name stats = Some col →
       length col = length (st_index stats)).
Proof.
  intros Hrun Hne.
  destruct (build_stats_inv np _ _ _ Hrun)
    as (values & keys & keys' & values' & Hvalues & Hkeys & Hfeature
        & Hkeys' & Hvalues').
  destruct (build_stats_columns np _ _ _ _ _ _ Hvalues Hkeys Hfeature
              Hkeys' Hvalues')
    as (stats' & Hrun' & Hindex & Hmed & Hcols & Honly).
  rewrite Hrun in Hrun'. apply Ok_inj in Hrun' as <-.
  assert (∀ name col, Stats.column name stats = Some col →
            In name (Stats.describe_names ++ ["median"])
            ∧ length col = length (st_index stats)) as Hall.
  { intros name col Hcol. assert (In name (Stats.describe_names ++ ["median"]))
      as Hin by (apply Honly; by eexists).
    split; [done|]. apply in_app_iff in Hin as [Hin|[<-|[]]].
    - rewrite (Hcols Hne name Hin) in Hcol. injection Hcol as <-.
      by rewrite length_fmap.
    - rewrite Hmed in Hcol. injection Hcol as <-. by rewrite length_fmap. }
  split.
  - intros name. split.
    + intros [col Hcol]. by apply (Hall name col).
    + change ["count"; "mean"; "std"; "min"; "25%"; "50%"; "75%"; "max"; "median"]
        with (Stats.describe_names ++ ["median"]).
      intros Hin. apply in_app_iff in Hin as [Hin|[<-|[]]].
      * rewrite (Hcols Hne name Hin). by eexists.
      * rewrite Hmed. by eexists.
  - intros name col Hcol. by apply (Hall name col).
Qed.

Lemma build_stats_statistics_witness :
  ∃ stats,
    build_stats Example.np Example.table "value" = Ok stats
    ∧ is_Some (Stats.column "std" stats)
    ∧ ¬ is_Some (Stats.column "sum" stats).
Proof.
  eexists. split; [vm_compute; reflexivity|].
  destruct (build_stats_statistics Example.np Example.table "value" _ eq_refl)
    as [Hnames _]; [discriminate|].
  split.
  - apply Hnames. simpl. tauto.
  - intros H. apply Hnames in H. simpl in H.
    repeat destruct H as [H|H]; try discriminate H. exact H.
Defined.

(** X23.  Every row of the summary table describes the values of its
    conformation: 'count' is their number, and when there is one at least,
    'min' and 'max' are the least and the greatest of them and 'mean' is
    their sum, as numpy adds them, over their number; when the values are
    binary64 numbers below 2^1023 in magnitude, the three percentiles and the
    median lie between 'min' and 'max'. *)
Theorem build_stats_summary (np : Numpy.Impl) (dataframe : DataFrame)
    (feature : string) (stats : StatsTable) :
  build_stats np dataframe feature = Ok stats →
  ∃ keys values keys' values',
    Pandas.get_column (Str "Conformation") (df_columns dataframe) = Some keys
    ∧ Pandas.get_column (Str feature) (df_columns dataframe) = Some values
    ∧ mapM Stats.key_of keys = Ok keys'
    ∧ mapM Stats.number_of values = Ok values'
    ∧ ∀ i k, st_index stats !! i = Some k →
        let group := Stats.group k (zip keys' values') in
        stat_at stats "count" i = Some (Num (Stats.of_nat (length group)))
        ∧ (group ≠ [] →
           ∃ a b,
             In a group ∧ In b group
             ∧ (∀ y, In y group → (a <= y)%Q ∧ (y <= b)%Q)
             ∧ stat_at stats "min" i = Some (Num a)
             ∧ stat_at stats "max" i = Some (Num b)
             ∧ stat_at stats "mean" i
               = Some (Num (Float64.div (Numpy.sum np group)
                                        (Stats.of_nat (length group))))
             ∧ (Forall Float64.moderate group →
                ∀ name, In name ["25%"; "50%"; "75%"; "median"] →
                  ∃ v, stat_at stats name i = Some (Num v)
                       ∧ (a <= v)%Q ∧ (v <= b)%Q)).
Proof.
  intros Hrun.
  destruct (build_stats_inv np _ _ _ Hrun)
    as (values & keys & keys' & values' & Hvalues & Hkeys & Hfeature
        & Hkeys' & Hvalues').
  exists keys, values, keys', values'. repeat (split; [done|]).
  destruct (build_stats_columns np _ _ _ _ _ _ Hvalues Hkeys Hfeature
              Hkeys' Hvalues')
    as (stats' & Hrun' & Hindex & Hmed & Hcols & _).
  rewrite Hrun in Hrun'. apply Ok_inj in Hrun' as <-.
  intros i k Hi. cbv zeta.
  set (group := Stats.group k (zip keys' values')).
  assert (st_index stats ≠ []) as Hne by (intros E; by rewrite E in Hi).
  assert (∀ name, In name Stats.describe_names →
            stat_at stats name i
            = Some (default NaN (dict_get (Stats.describe np group) name)))
    as Hstat.
  { intros name Hname. unfold stat_at. rewrite (Hcols Hne name Hname).
    cbn [mbind option_bind]. by rewrite list_lookup_fmap, Hi. }
  assert (stat_at stats "median" i = Some (Stats.median (Stats.sort group)))
    as Hmedian.
  { unfold stat_at. rewrite Hmed. cbn [mbind option_bind].
    by rewrite list_lookup_fmap, Hi. }
  split.
  { rewrite Hstat by (simpl; tauto). reflexivity. }
  intros Hgroup.
  destruct (describe_bounds np group Hgroup)
    as (a & b & Ha & Hb & Hall & _ & Hmin & Hmax & Hbetween).
  exists a, b. repeat (split; [done|]).
  split; [rewrite Hstat by (simpl; tauto); by rewrite Hmin|].
  split; [rewrite Hstat by (simpl; tauto); by rewrite Hmax|].
  split.
  { rewrite Hstat by (simpl; tauto). unfold Stats.describe. cbn [dict_get].
    change (String.eqb "mean" "count") with false.
    change (String.eqb "mean" "mean") with true. cbv iota.
    unfold Stats.mean. by destruct group. }
  intros Hmoderate.
  destruct Hbetween as (Hq & vm & Hvm & Hvm1 & Hvm2).
  { eapply Forall_impl; [exact Hmoderate|]. by intros x [Hx _]. }
  intros name Hname. simpl in Hname.
  destruct Hname as [<-|[<-|[<-|[<-|[]]]]];
    [| | |exists vm; by rewrite Hmedian, Hvm];
    match goal with
    | |- ∃ v, stat_at stats ?name i = _ ∧ _ =>
        destruct (Hq name) as (v & Hv & Hlo & Hhi); [simpl; tauto|];
        exists v; split; [|done];
        rewrite Hstat by (simpl; tauto); by rewrite Hv
    end.
Qed.

(** The row of the conformation 7, whose values are 1, 2 and 3. *)
Lemma build_stats_summary_witness :
  ∃ stats a b v,
    build_stats Example.np Example.table "value" = Ok stats
    ∧ stat_at stats "count" 1 = Some (Num (Stats.of_nat 3))
    ∧ stat_at stats "min" 1 = Some (Num a)
    ∧ stat_at stats "max" 1 = Some (Num b)
    ∧ (a <= 1)%Q ∧ (3 <= b)%Q
    ∧ stat_at stats "25%" 1 = Some (Num v)
    ∧ (a <= v)%Q ∧ (v <= b)%Q.
Proof.
  eexists.
  destruct (build_stats_summary Example.np Example.table "value" _ eq_refl)
    as (keys & values & keys' & values' & Hkeys & Hvalues & Hkeys' & Hvalues'
        & Hrows).
  vm_compute in Hkeys. injection Hkeys as <-.
  vm_compute in Hvalues. injection Hvalues as <-.
  vm_compute in Hkeys'. injection Hkeys' as <-.
  vm_compute in Hvalues'. injection Hvalues' as <-.
  destruct (Hrows 1%nat 7 eq_refl) as [Hcount Hgroup].
  destruct Hgroup as (a & b & _ & _ & Hall & Hmin & Hmax & _ & Hbetween);
    [discriminate|].
  destruct (Hbetween) with (name := "25%") as (v & Hv & Hlo & Hhi).
  { replace (Stats.group _ _) with [1; 2; 3]%Q by (vm_compute; reflexivity).
    repeat (apply Forall_cons_2;
              [split; [vm_compute; reflexivity|split; vm_compute; reflexivity]|]).
    apply Forall_nil_2. }
  { simpl. tauto. }
  exists a, b, v. split; [vm_compute; reflexivity|].
  split; [exact Hcount|]. split; [exact Hmin|]. split; [exact Hmax|].
  split; [apply (Hall 1%Q); simpl; tauto|].
  split; [apply (Hall 3%Q); simpl; tauto|].
  split; [exact Hv|]. split; [exact Hlo|exact Hhi].
Defined.

(** ** Geometry export *)

Lemma append_cons (c : ascii) (s t : string) :
  String c s +:+ t = String c (s +:+ t).
Proof. reflexivity. Qed.

Lemma append_assoc (s t u : string) : (s +:+ t) +:+ u = s +:+ (t +:+ u).
Proof. induction s as [|c s IH]; [done|]. by rewrite !append_cons, IH. Qed.

Lemma append_nil_r (s : string) : s +:+ "" = s.
Proof. induction s as [|c s IH]; [done|]. by rewrite append_cons, IH. Qed.

Lemma free_of_app (c : ascii) (s t : string) :
  free_of c (s +:+ t) = free_of c s && free_of c t.
Proof.
  induction s as [|a s IH]; [done|]. rewrite append_cons. cbn [free_of].
  by rewrite IH, andb_assoc.
Qed.

Lemma free_of_replicate (c a : ascii) (n : nat) :
  Ascii.eqb a c = false →
  free_of c (string_of_list_ascii (replicate n a)) = true.
Proof. intros Ha. induction n as [|n IH]; [done|]. simpl. by rewrite Ha, IH. Qed.

Lemma free_of_digits (s : string) : digits_only s = true → free_of LF s = true.
Proof.
  induction s as [|a s IH]; [done|]. simpl. intros H.
  apply andb_true_iff in H as [Ha Hs]. rewrite (IH Hs), andb_true_r.
  destruct (Ascii.eqb_spec a LF) as [->|]; [|done]. by vm_compute in Ha.
Qed.

Lemma pretty_N_digits (n : N) : digits_only (pretty n) = true.
Proof.
  unfold pretty, pretty_N. case_decide; [done|]. by apply pretty_N_go_digits.
Qed.

Lemma free_of_fixed8 (x : Q) : free_of LF (Format.fixed8 x) = true.
Proof.
  unfold Format.fixed8, Format.zfill. cbv zeta.
  rewrite !free_of_app.
  repeat match goal with
  | |- context [free_of LF (pretty ?n)] =>
      rewrite (free_of_digits (pretty n)) by apply pretty_N_digits
  end.
  rewrite free_of_replicate by done. by destruct (Numpy.Qltb x 0).
Qed.

Lemma free_of_float_12_8 (x : Q) : free_of LF (Format.float_12_8 x) = true.
Proof.
  unfold Format.float_12_8, Format.rjust, Format.spaces.
  by rewrite free_of_app, free_of_replicate, free_of_fixed8.
Qed.

Lemma rev_app_append (s t : string) :
  String.rev_app s t = String.rev s +:+ t.
Proof.
  unfold String.rev. revert t. induction s as [|c s IH]; intros t; [done|].
  cbn [String.rev_app]. rewrite (IH (String c t)), (IH (String c "")).
  by rewrite append_assoc.
Qed.

Lemma rev_rev_app (b cur : string) :
  String.rev (String.rev_app b cur) = String.rev cur +:+ b.
Proof.
  revert cur. induction b as [|c b IH]; intros cur; cbn [String.rev_app].
  - by rewrite append_nil_r.
  - rewrite IH. unfold String.rev at 1. cbn [String.rev_app].
    rewrite rev_app_append. by rewrite append_assoc.
Qed.

(** Reading a field that has no separator in it up to the separator. *)
Lemma split_from_field (sep : ascii) (b cur rest : string) :
  free_of sep b = true →
  PyStr.split_from sep cur (b +:+ String sep rest)
  = (String.rev cur +:+ b) :: PyStr.split_from sep EmptyString rest.
Proof.
  revert cur. induction b as [|c b IH]; intros cur Hb.
  - change ("" +:+ String sep rest) with (String sep rest).
    cbn [PyStr.split_from]. by rewrite Ascii.eqb_refl, append_nil_r.
  - cbn [free_of] in Hb. apply andb_true_iff in Hb as [Hc Hb].
    apply negb_true_iff in Hc. rewrite append_cons. cbn [PyStr.split_from].
    rewrite Hc, (IH _ Hb). unfold String.rev at 1. cbn [String.rev_app].
    rewrite rev_app_append. by rewrite append_assoc.
Qed.

(** Lines that end in a line feed, split again at the line feeds. *)
Lemma split_lines (bodies : list string) :
  Forall (fun b => free_of LF b = true) bodies →
  PyStr.split LF
    (foldr (fun b text => b +:+ String LF text) "" bodies)
  = bodies ++ [""].
Proof.
  unfold PyStr.split. induction 1 as [|b bodies Hb _ IH]; [done|].
  cbn [foldr]. by rewrite split_from_field, IH.
Qed.

Lemma prefix_app (s t : string) : String.prefix s (s +:+ t) = true.
Proof.
  induction s as [|c s IH]; [by destruct t|]. rewrite append_cons.
  cbn [String.prefix]. by destruct (ascii_dec c c).
Qed.

(** The inner loop of [create_xyz]: the lines of the atoms, appended. *)
Lemma format_loop (init : string) (l : list (pyobj * list Q)) :
  foldl (fun (acc : result string) (la : pyobj * list Q) =>
           geoms_string ← acc;
           line ← Format.mask_format la.1 la.2;
           Ok (geoms_string +:+ line))
        (Ok init) l
  = (lines ← mapM (fun la : pyobj * list Q => Format.mask_format la.1 la.2) l;
     Ok (init +:+ foldr String.append "" lines)).
Proof.
  revert init. induction l as [|la l IH]; intros init.
  - simpl. by rewrite append_nil_r.
  - cbn [foldl mapM]. rsimpl.
    destruct (Format.mask_format la.1 la.2) as [line|e]; rsimpl.
    + rewrite IH. destruct (mapM _ l) as [lines|]; rsimpl; [|done].
      cbn [foldr]. by rewrite append_assoc.
    + clear IH. induction l as [|la' l IH']; [done|]. by cbn [foldl].
Qed.

Lemma index_Z_Ok {A} (a : list A) (i : Z) :
  - Z.of_nat (length a) <= i < Z.of_nat (length a) →
  ∃ x, index_Z a i = Ok x ∧ In x a.
Proof.
  intros Hi. unfold index_Z.
  destruct (Z.leb_spec 0 i) as [Hpos|Hneg];
    destruct (Z.ltb_spec i (Z.of_nat (length a))) as [Hlt|Hge];
    cbn [andb]; try lia.
  - destruct (index_Ok a (Z.to_nat i)) as (x & -> & Hx); [lia|].
    exists x. split; [done|]. by eapply list_elem_of_In, list_elem_of_lookup_2.
  - destruct (Z.leb_spec (- Z.of_nat (length a)) i); [|lia].
    destruct (Z.ltb_spec i 0); [|lia]. cbn [andb].
    destruct (index_Ok a (Z.to_nat (i + Z.of_nat (length a)))) as (x & -> & Hx);
      [lia|].
    exists x. split; [done|]. by eapply list_elem_of_In, list_elem_of_lookup_2.
Qed.

Lemma index_Z_out {A} (a : list A) (i : Z) :
  ¬ (- Z.of_nat (length a) <= i < Z.of_nat (length a)) →
  ∃ msg, index_Z a i = Raise (IndexError msg).
Proof.
  intros Hi. unfold index_Z.
  destruct (Z.leb_spec 0 i) as [Hpos|Hneg];
    destruct (Z.ltb_spec i (Z.of_nat (length a))) as [Hlt|Hge];
    cbn [andb]; try lia;
    destruct (Z.leb_spec (- Z.of_nat (length a)) i);
    destruct (Z.ltb_spec i 0); cbn [andb]; try lia; by eexists.
Qed.

Lemma mask_format_line (s : string) (x y z : Q) (more : list Q) :
  Format.mask_format (PStr s) (x :: y :: z :: more)
  = Ok (xyz_line s x y z +:+ String LF "").
Proof.
  unfold Format.mask_format, xyz_line, newline. f_equal.
  by rewrite !append_assoc.
Qed.

Lemma free_of_xyz_line (s : string) (x y z : Q) :
  In s ["H"; "C"; "N"; "O"] → free_of LF (xyz_line s x y z) = true.
Proof.
  intros Hs. unfold xyz_line, Format.ljust, Format.spaces.
  rewrite !free_of_app, !free_of_float_12_8, free_of_replicate by done.
  simpl in Hs. by destruct Hs as [<-|[<-|[<-|[<-|[]]]]].
Qed.

Lemma foldr_append_lines (bodies : list string) :
  foldr String.append "" ((fun b => b +:+ String LF "") <$> bodies)
  = foldr (fun b text => b +:+ String LF text) "" bodies.
Proof.
  induction bodies as [|b bodies IH]; [done|]. rewrite fmap_cons.
  cbn [foldr]. by rewrite IH, append_assoc.
Qed.

(** The lines of the atoms of a geometry with known elements and three
    coordinates per atom. *)
Lemma mask_format_total (names : list string) (geom : list (list Q)) :
  Forall (fun s => In s ["H"; "C"; "N"; "O"]) names →
  length geom = length names →
  Forall (fun atom => length atom = 3%nat) geom →
  ∃ bodies,
    mapM (fun la : pyobj * list Q => Format.mask_format la.1 la.2)
         (zip (PStr <$> names) geom)
    = Ok ((fun b => b +:+ String LF "") <$> bodies)
    ∧ length bodies = length names
    ∧ Forall (fun b => free_of LF b = true) bodies
    ∧ ∀ j line, bodies !! j = Some line →
        ∃ s x y z, names !! j = Some s ∧ geom !! j = Some [x; y; z]
                   ∧ line = xyz_line s x y z.
Proof.
  intros Hnames. revert geom. induction Hnames as [|s names Hs _ IH];
    intros geom Hlen Hgeom.
  - exists []. destruct geom; [|done]. by repeat split.
  - destruct geom as [|atom geom]; [done|]. injection Hlen as Hlen.
    apply Forall_cons in Hgeom as [Hatom Hgeom].
    destruct (IH geom Hlen Hgeom) as (bodies & Hrun & Hlen' & Hfree & Hlines).
    destruct atom as [|x [|y [|z [|? ?]]]]; try done.
    exists (xyz_line s x y z :: bodies).
    rewrite fmap_cons. cbn [zip zip_with mapM fst snd].
    rewrite mask_format_line. rsimpl. rewrite Hrun. rsimpl.
    split; [done|]. split; [simpl; by rewrite Hlen'|].
    split; [constructor; [by apply free_of_xyz_line|done]|].
    intros [|j] line; simpl.
    + intros [= <-]. by exists s, x, y, z.
    + apply Hlines.
Qed.

(** X14.  On a well-formed dataset [create_xyz] returns, for every index
    numpy accepts (counted from the start, or from the end when negative),
    a text whose lines are the number of atoms, an empty comment line, and
    one line per atom, in order, with the element symbol and the three
    coordinates of the atom in the chosen geometry; the text ends with a line
    feed.  Any other index raises an [IndexError]. *)
Theorem create_xyz_lines (data : Dataset) (index : Z) :
  well_formed data →
  (- Z.of_nat (length (ds_R data)) <= index < Z.of_nat (length (ds_R data)) →
   ∃ text geom atom_lines,
     create_xyz data index = Ok text
     ∧ index_Z (ds_R data) index = Ok geom
     ∧ PyStr.split LF text
       = pretty (length (flatten (ds_Z data))) :: "" :: atom_lines ++ [""]
     ∧ length atom_lines = length (flatten (ds_Z data))
     ∧ ∀ j line, atom_lines !! j = Some line →
         ∃ z s x y zc,
           flatten (ds_Z data) !! j = Some z ∧ atom_types !! z = Some s
           ∧ geom !! j = Some [x; y; zc]
           ∧ line = xyz_line s x y zc)
  ∧ (¬ (- Z.of_nat (length (ds_R data)) <= index
        < Z.of_nat (length (ds_R data))) →
     ∃ msg, create_xyz data index = Raise (IndexError msg)).
Proof.
  intros Hwf.
  destruct Hwf as (HN & Hn & Hknown & _ & _ & [HlenR HR] & _).
  destruct (z_to_labels_symbols data) as (names & Hlabels & Hsym);
    [by intros E; rewrite E in Hn | done |].
  pose proof (Forall2_length _ _ _ Hsym) as Hlen.
  unfold create_xyz. rewrite Hlabels. rsimpl. rewrite length_fmap, <- Hlen.
  split; cycle 1.
  { intros Hout. destruct (index_Z_out (ds_R data) index Hout) as [msg ->].
    by exists msg. }
  intros Hin. destruct (index_Z_Ok (ds_R data) index Hin) as (geom & -> & Hgeom).
  rsimpl. rewrite Forall_forall in HR.
  apply list_elem_of_In, HR in Hgeom as [Hgeomlen Hatoms].
  destruct (length (flatten (ds_Z data))) as [|n] eqn:Hn'; [done|].
  assert (take (S n) [geom] = [geom]) as -> by (simpl; by rewrite take_nil).
  cbn [foldl]. rsimpl.
  rewrite format_loop.
  destruct (mask_format_total names geom) as (bodies & -> & Hb & Hfree & Hlines).
  { apply Forall_forall. intros s Hs.
    apply list_elem_of_lookup in Hs as [j Hj].
    destruct (Forall2_lookup_r _ _ _ _ _ Hsym Hj) as (z & _ & Hz).
    by eapply atom_types_symbol. }
  { congruence. }
  { done. }
  rsimpl. eexists _, geom, bodies. split; [reflexivity|]. split; [done|].
  split; [|split; [congruence|]].
  - rewrite foldr_append_lines.
    change (("" +:+ pretty (S n) +:+ newline +:+ "" +:+ newline)
            +:+ foldr (fun b text => b +:+ String LF text) "" bodies)
      with ((pretty (S n) +:+ String LF (String LF ""))
            +:+ foldr (fun b text => b +:+ String LF text) "" bodies).
    rewrite append_assoc.
    change (String LF (String LF "")
            +:+ foldr (fun b text => b +:+ String LF text) "" bodies)
      with (String LF ("" +:+ String LF
              (foldr (fun b text => b +:+ String LF text) "" bodies))).
    apply (split_lines (pretty (S n) :: "" :: bodies)).
    constructor; [apply free_of_digits, pretty_nat_digits|].
    by constructor.
  - intros j line Hline.
    destruct (Hlines j line Hline) as (s & x & y & zc & Hs & Hxyz & ->).
    destruct (Forall2_lookup_r _ _ _ _ _ Hsym Hs) as (z & Hz & Hzs).
    by exists z, s, x, y, zc.
Qed.

Lemma create_xyz_lines_witness :
  ∃ text,
    create_xyz Example.data (-1) = Ok text
    ∧ PyStr.split LF text
      = [ "4"; "";
          xyz_line "H" 0 0 0; xyz_line "C" 2 0 0; xyz_line "N" 2 1 1;
          xyz_line "O" 3 1 0; "" ].
Proof.
  destruct (create_xyz_lines Example.data (-1) example_well_formed)
    as [Hin _].
  destruct Hin as (text & geom & atom_lines & Hrun & Hgeom & Hsplit & _);
    [simpl; lia|].
  exists text. split; [exact Hrun|].
  vm_compute in Hrun. injection Hrun as <-. vm_compute. reflexivity.
Defined.

(** ** Dataset names *)

Lemma lower_ascii_idem (c : ascii) :
  PyStr.lower_ascii (PyStr.lower_ascii c) = PyStr.lower_ascii c.
Proof. destruct c as [[] [] [] [] [] [] [] []]; reflexivity. Qed.

Lemma lower_idem (s : string) : PyStr.lower (PyStr.lower s) = PyStr.lower s.
Proof.
  induction s as [|c s IH]; [done|]. cbn [PyStr.lower].
  by rewrite lower_ascii_idem, IH.
Qed.

(** X3.  Dataset names are normalised before the archive is looked up: the
    case of the letters does not matter, and a leading '2-' is dropped.  The
    ten names of the dataset selector stay distinct after normalisation: no
    two of them are fetched from the same archive. *)
Theorem normalize_names (molecule : string) :
  Loader.normalize (PyStr.lower molecule) = Loader.normalize molecule
  ∧ Loader.normalize ("2-" +:+ molecule) = Loader.normalize molecule
  ∧ (∀ m1 m2, In m1 molecules → In m2 molecules →
       Loader.zenodo_data_path (Loader.normalize m1)
         = Loader.zenodo_data_path (Loader.normalize m2) →
       m1 = m2).
Proof.
  split; [|split].
  - unfold Loader.normalize. by rewrite lower_idem.
  - unfold Loader.normalize, PyStr.replace.
    change (PyStr.lower ("2-" +:+ molecule))
      with (String "2" (String "-" (PyStr.lower molecule))).
    cbn [PyStr.replace_from].
    assert (String.prefix "2-" (String "2" (String "-" (PyStr.lower molecule)))
            = true) as -> by (simpl; by destruct (PyStr.lower molecule)).
    reflexivity.
  - intros m1 m2 H1 H2. simpl in H1, H2.
    repeat (destruct H1 as [<-|H1]; [|]); try done;
      repeat (destruct H2 as [<-|H2]; [|]); try done;
      vm_compute; intros E; congruence.
Qed.

Lemma normalize_names_witness :
  Loader.normalize (PyStr.lower "DMABN") = Loader.normalize "DMABN"
  ∧ Loader.normalize ("2-" +:+ "nitrophenol") = Loader.normalize "nitrophenol"
  ∧ "urea" = "urea".
Proof.
  destruct (normalize_names "DMABN") as (Hcase & _ & Hdistinct).
  destruct (normalize_names "nitrophenol") as (_ & Hprefix & _).
  split; [exact Hcase|]. split; [exact Hprefix|].
  apply (Hdistinct "urea" "urea"); [simpl; tauto | simpl; tauto | reflexivity].
Defined.

(** ** A dataset without atoms *)

(** X4.  When the dataset has no atomic numbers the labeler raises a
    [ValueError], and with it everything that asks for the labels: the
    extraction of 'Forces', which never uses them, and of 'Mulliken charges',
    the geometry export, and the coordinate table as soon as the indices of
    its first coordinate are read. *)
Theorem no_atoms (np : Numpy.Impl) (ui : Sidebar) (ase : Ase.Impl)
    (data : Dataset) :
  flatten (ds_Z data) = [] →
  ∃ msg,
    z_to_labels data = Raise (ValueError msg)
    ∧ data_to_plot np ui data "Forces" = Raise (ValueError msg)
    ∧ data_to_plot np ui data "Mulliken charges" = Raise (ValueError msg)
    ∧ (∀ index, create_xyz data index = Raise (ValueError msg))
    ∧ (∀ data' ic rest indices,
         mapM PyStr.int (PyStr.split "," (PyStr.strip ic)) = Ok indices →
         build_ic_dataframe ase data' data (ic :: rest) = Raise (ValueError msg)).
Proof.
  intros HZ. eexists.
  assert (z_to_labels data = Raise (ValueError
            "cannot call `vectorize` on size 0 inputs unless `otypes` is set"))
    as Hlabels by (unfold z_to_labels; by rewrite HZ).
  split; [exact Hlabels|]. split; [|split; [|split]].
  - change (data_to_plot np ui data "Forces") with
      (process_force_data np ui data data ≫= attach_conformation data).
    unfold process_force_data. by rewrite Hlabels.
  - change (data_to_plot np ui data "Mulliken charges") with
      (process_mulliken_data ui data data ≫= attach_conformation data).
    unfold process_mulliken_data. by rewrite Hlabels.
  - intros index. unfold create_xyz. by rewrite Hlabels.
  - intros data' ic rest indices Hidx. unfold build_ic_dataframe.
    cbn [build_ic_loop]. unfold build_ic_column. rewrite Hidx. rsimpl.
    by rewrite Hlabels.
Qed.

Lemma no_atoms_witness :
  ∃ msg,
    z_to_labels Scenario.data_no_atoms = Raise (ValueError msg)
    ∧ data_to_plot Example.np Example.ui Scenario.data_no_atoms "Forces"
      = Raise (ValueError msg)
    ∧ create_xyz Scenario.data_no_atoms 0 = Raise (ValueError msg).
Proof.
  destruct (no_atoms Example.np Example.ui Example.ase Scenario.data_no_atoms eq_refl)
    as (msg & Hlabels & Hforces & _ & Hxyz & _).
  exists msg. split; [exact Hlabels|]. split; [exact Hforces|apply Hxyz].
Defined.
